(** * Scan navigation and spectrum rendering of the mass-spectrometry viewer

    A shallow embedding of the three viewer tabs of the repository
    ([simple_ms1_tab.py], [zoom_viewer_tab.py], [ms1_ms2_tab.py]) together
    with the fragments of Python, pandas and matplotlib they rely on.

    Conventions of the embedding.
    - Integers (scan numbers, MS levels) are [Z].
    - A finite floating point value is modelled by the rational it denotes;
      a float that may be NaN or infinite is an [option Q] with [None] for
      the non-finite case.  Arithmetic on floats is exact rational
      arithmetic: rounding errors of binary64 are outside the model.
    - A widget is a record of its attributes; attributes that Python creates
      lazily ([self.all_mz_min], ...) live in a [gmap string] like the
      instance dictionary they come from.
    - Handlers are computations in a state-and-exception monad whose state is
      the widget: a raised exception keeps the mutations made before it, as
      in Python.
    - Styling calls that carry no data (axis labels, grids, tick formatters,
      [tight_layout], [canvas.draw]) are not represented. *)

From Stdlib Require Import ZArith QArith Qminmax Qround Qabs DecimalString Lia Lqa.
From stdpp Require Import base tactics option list strings gmap sorting.

Local Open Scope Z_scope.

(** ** Python: exceptions and the handler monad *)

Module Py.

Inductive Exn : Type :=
| ValueError
| AttributeError
| KeyError
| IndexError
| TypeError.

(** A computation over a mutable object of type [S]: the outcome is an
    exception or a value, and the object as mutated so far. *)
Definition M (S A : Type) : Type := S → (Exn + A) * S.

Definition ret {S A} (x : A) : M S A := λ s, (inr x, s).

Definition bind {S A B} (m : M S A) (k : A → M S B) : M S B :=
  λ s, match m s with
       | (inl e, s') => (inl e, s')
       | (inr x, s') => k x s'
       end.

Definition raise {S A} (e : Exn) : M S A := λ s, (inl e, s).

Definition get {S} : M S S := λ s, (inr s, s).

Definition modify {S} (f : S → S) : M S unit := λ s, (inr tt, f s).

(** [try: body except Exception as e: handler e] *)
Definition try_except {S A} (body : M S A) (handler : Exn → M S A) : M S A :=
  λ s, match body s with
       | (inl e, s') => handler e s'
       | (inr x, s') => (inr x, s')
       end.

(** The object after running a handler. *)
Definition exec {S A} (m : M S A) (s : S) : S := (m s).2.

(** The outcome of running a handler. *)
Definition outcome {S A} (m : M S A) (s : S) : Exn + A := (m s).1.

(** [round(x)] on a float: nearest integer, halves to the even neighbour. *)
Definition round (x : Q) : Z :=
  let f := Qfloor x in
  match Qcompare (x - inject_Z f) (1 # 2) with
  | Lt => f
  | Gt => f + 1
  | Eq => if Z.even f then f else f + 1
  end.

(** The loop of [min(iterable, key=key)]: the running best is replaced only
    by a strictly smaller key. *)
Fixpoint min_loop (key : Z → Z) (best : Z) (l : list Z) : Z :=
  match l with
  | [] => best
  | y :: l' => min_loop key (if key y <? key best then y else best) l'
  end.

(** [min(l, key=key)]; raises [ValueError] on an empty sequence. *)
Definition min_key {S} (key : Z → Z) (l : list Z) : M S Z :=
  match l with
  | [] => raise ValueError
  | x :: l' => ret (min_loop key x l')
  end.

(** [l.index(x)]; raises [ValueError] when [x] is not in [l]. *)
Definition index {S} (x : Z) (l : list Z) : M S nat :=
  match list_find (λ y, y = x) l with
  | Some (i, _) => ret i
  | None => raise ValueError
  end.

(** [l[i]] for a non-negative [i]. *)
Definition getitem {S A} (l : list A) (i : nat) : M S A :=
  match l !! i with
  | Some x => ret x
  | None => raise IndexError
  end.

(** [sorted(l)] and [l.sort(reverse=True)] on integers. *)
Definition sorted (l : list Z) : list Z := merge_sort Z.le l.
Definition sort_reverse (l : list Z) : list Z := merge_sort Z.ge l.

(** [enumerate(l, start)] *)
Fixpoint enumerate {A} (start : Z) (l : list A) : list (Z * A) :=
  match l with
  | [] => []
  | x :: l' => (start, x) :: enumerate (start + 1) l'
  end.

(** [{k: v for v, k in pairs}]: later bindings replace earlier ones. *)
Definition dict_of_swapped (pairs : list (Z * Z)) : gmap Z Z :=
  foldl (λ d p, <[p.2 := p.1]> d) ∅ pairs.

(** [f"{n}"] for an integer. *)
Definition str (n : Z) : string := NilZero.string_of_int (Z.to_int n).

(** [needle in hay] for strings. *)
Fixpoint contains (needle hay : string) : bool :=
  String.prefix needle hay ||
  match hay with
  | EmptyString => false
  | String _ hay' => contains needle hay'
  end.

End Py.

#[global] Instance Py_ret {S} : MRet (Py.M S) := λ A, Py.ret.
#[global] Instance Py_bind {S} : MBind (Py.M S) := λ A B k m, Py.bind m k.

(** ** pandas: the peak table *)

Module Pandas.

(** A row of the peak table.  [precursor_mz] is NaN ([None]) on MS1 rows.
    The rows are typed with every column some tab uses; [columns] of the
    table tells which of them the table really has.  ['Max'] is the flag
    column that the zoom viewer adds. *)
Record Peak : Type := mkPeak {
  scan_number : Z;
  mz : Q;
  intensity : Q;
  ms_level : Z;
  precursor_mz : option Q;
  Max : Z
}.

(** A row as the loader delivers it. *)
Definition peak (scan : Z) (m i : Q) (level : Z) (precursor : option Q) : Peak :=
  mkPeak scan m i level precursor 0.

Definition with_scan_number (v : Z) (r : Peak) : Peak :=
  mkPeak v (mz r) (intensity r) (ms_level r) (precursor_mz r) (Max r).

Definition with_Max (v : Z) (r : Peak) : Peak :=
  mkPeak (scan_number r) (mz r) (intensity r) (ms_level r) (precursor_mz r) v.

Record DataFrame : Type := mkDataFrame {
  columns : list string;
  rows : list Peak
}.

#[global] Instance Q_eq_dec : EqDecision Q.
Proof. solve_decision. Defined.

#[global] Instance Peak_eq_dec : EqDecision Peak.
Proof. solve_decision. Defined.

#[global] Instance DataFrame_eq_dec : EqDecision DataFrame.
Proof. solve_decision. Defined.

(** [len(df)] *)
Definition len (d : DataFrame) : nat := length (rows d).

(** [df.empty]: some axis has length zero. *)
Definition empty (d : DataFrame) : bool :=
  bool_decide (rows d = []) || bool_decide (columns d = []).

(** [required.issubset(df.columns)] *)
Definition has_columns (required : list string) (d : DataFrame) : bool :=
  bool_decide (required ⊆ columns d).

(** [df[df['ms_level'] == level]] *)
Definition where_level (level : Z) (d : DataFrame) : DataFrame :=
  {| columns := columns d;
     rows := filter (λ r, ms_level r = level) (rows d) |}.

(** [df[df['scan_number'] == scan]] *)
Definition where_scan (scan : Z) (d : DataFrame) : DataFrame :=
  {| columns := columns d;
     rows := filter (λ r, scan_number r = scan) (rows d) |}.

(** [series.unique()]: the distinct values in order of first appearance. *)
Definition unique (l : list Z) : list Z :=
  foldl (λ seen x, if decide (x ∈ seen) then seen else seen ++ [x]) [] l.

(** [series.max()] and [series.min()]: NaN on an empty series. *)
Definition max (l : list Q) : option Q :=
  match l with
  | [] => None
  | x :: l' => Some (foldl Qmax x l')
  end.

Definition min (l : list Q) : option Q :=
  match l with
  | [] => None
  | x :: l' => Some (foldl Qmin x l')
  end.

(** [series.sum()] *)
Definition sum (l : list Q) : Q := foldl Qplus 0%Q l.

(** [df['scan_number'].map(mapping)].  A scan number outside the mapping
    would become NaN in pandas; the mapping is always built from the very
    column it is applied to, so that branch is not reachable (see
    [renumber_lookup_total]) and is given the row unchanged. *)
Definition map_scan_number (mapping : gmap Z Z) (d : DataFrame) : DataFrame :=
  {| columns := columns d;
     rows := (λ r, match mapping !! scan_number r with
                   | Some new => with_scan_number new r
                   | None => r
                   end) <$> rows d |}.

(** [df.groupby("scan_number")["intensity"].sum().reset_index()]: one row
    per distinct scan number, in ascending order of the key. *)
Definition groupby_sum (d : DataFrame) : list (Z * Q) :=
  (λ s, (s, sum (intensity <$> rows (where_scan s d))))
    <$> Py.sorted (unique (scan_number <$> rows d)).

(** [chrom_df.sort_values("scan_number")] *)
Definition by_scan_number (a b : Z * Q) : Prop := a.1 ≤ b.1.

#[global] Instance by_scan_number_dec a b : Decision (by_scan_number a b).
Proof. unfold by_scan_number. apply _. Defined.

Definition sort_values (c : list (Z * Q)) : list (Z * Q) :=
  merge_sort by_scan_number c.

(** [df[df['Max'] == 1]] *)
Definition where_max (d : DataFrame) : DataFrame :=
  {| columns := columns d;
     rows := filter (λ r, Max r = 1) (rows d) |}.

(** [df['Max'] = v]: the column is added when the table lacks it. *)
Definition assign_Max (v : Z) (d : DataFrame) : DataFrame :=
  {| columns := if bool_decide ("Max"%string ∈ columns d) then columns d
                else columns d ++ ["Max"%string];
     rows := with_Max v <$> rows d |}.

(** [series.idxmax()]: the label of the first row holding the maximum.  The
    running best is replaced only by a strictly larger value. *)
Fixpoint idxmax_loop (best : nat * Q) (l : list (nat * Q)) : nat :=
  match l with
  | [] => best.1
  | p :: l' => idxmax_loop (if Qle_bool p.2 best.2 then best else p) l'
  end.

Definition idxmax (l : list (nat * Q)) : option nat :=
  match l with
  | [] => None
  | p :: l' => Some (idxmax_loop p l')
  end.

(** The rows with their index labels.  Labels only need to tell rows apart
    (the loader gives a table a range index); positions serve as labels. *)
Definition labelled (d : DataFrame) : list (nat * Peak) :=
  imap (λ i r, (i, r)) (rows d).

(** [df.groupby('scan_number')['intensity'].idxmax()] *)
Definition groupby_idxmax (d : DataFrame) : list nat :=
  omap (λ s, idxmax ((λ p, (p.1, intensity p.2))
                       <$> filter (λ p, scan_number p.2 = s) (labelled d)))
       (Py.sorted (unique (scan_number <$> rows d))).

(** [df.loc[labels, 'Max'] = v] *)
Definition loc_assign_Max (labels : list nat) (v : Z) (d : DataFrame) : DataFrame :=
  {| columns := columns d;
     rows := (λ p, if bool_decide (p.1 ∈ labels) then with_Max v p.2 else p.2)
               <$> labelled d |}.

(** [series.mean()] *)
Definition mean (l : list Q) : option Q :=
  match l with
  | [] => None
  | _ => Some (sum l / inject_Z (Z.of_nat (length l)))%Q
  end.

(** [df[name]]: selecting a column that the table lacks raises [KeyError].
    The rows are typed, so only the check is left of the selection. *)
Definition getcol {S} (name : string) (d : DataFrame) : Py.M S unit :=
  if bool_decide (name ∈ columns d) then Py.ret tt else Py.raise Py.KeyError.

(** [series.iloc[0]] *)
Definition iloc0 {S A} (l : list A) : Py.M S A :=
  match l with
  | x :: _ => Py.ret x
  | [] => Py.raise Py.IndexError
  end.

End Pandas.

(** ** matplotlib: axes as lists of artists *)

Module Mpl.

Inductive Artist : Type :=
| Text (s : string)
| Annotation (label : string) (value : option Q)
| Line2D (points : list (Z * Q))
| Curve (xs : list Q) (ys : list (option Q))
| AxVLine (x : Z)
| VLines (xs : list Q) (ymax : list (option Q))
| AxVSpan (xmin xmax : option Q).

Record Axes : Type := mkAxes {
  title : string;
  artists : list (nat * Artist);
  xlim : option (Q * Q);
  ylim : option (Q * Q);
  xticks : option (list (option Q))
}.

(** A fresh subplot, and an axes after [ax.clear()]. *)
Definition blank : Axes :=
  {| title := ""; artists := []; xlim := None; ylim := None; xticks := None |}.

Definition with_title (s : string) (a : Axes) : Axes :=
  {| title := s; artists := artists a; xlim := xlim a; ylim := ylim a;
     xticks := xticks a |}.

Definition with_artists (l : list (nat * Artist)) (a : Axes) : Axes :=
  {| title := title a; artists := l; xlim := xlim a; ylim := ylim a;
     xticks := xticks a |}.

Definition with_xlim (r : Q * Q) (a : Axes) : Axes :=
  {| title := title a; artists := artists a; xlim := Some r; ylim := ylim a;
     xticks := xticks a |}.

Definition with_ylim (r : Q * Q) (a : Axes) : Axes :=
  {| title := title a; artists := artists a; xlim := xlim a; ylim := Some r;
     xticks := xticks a |}.

Definition with_xticks (l : list (option Q)) (a : Axes) : Axes :=
  {| title := title a; artists := artists a; xlim := xlim a; ylim := ylim a;
     xticks := Some l |}.

(** The spectra ([vlines] collections) and the shaded spans an axes shows. *)
Definition spectra (a : Axes) : list (list Q * list (option Q)) :=
  omap (λ p, match p.2 with VLines xs ys => Some (xs, ys) | _ => None end)
       (artists a).

Definition spans (a : Axes) : list (option Q * option Q) :=
  omap (λ p, match p.2 with AxVSpan lo hi => Some (lo, hi) | _ => None end)
       (artists a).

Definition marker_lines (a : Axes) : list Z :=
  omap (λ p, match p.2 with AxVLine x => Some x | _ => None end) (artists a).

(** What the tabs have in common as widgets holding a figure: named axes,
    a supply of artist identities and the dictionary of the attributes that
    are created on first assignment. *)
Class Widget (T Ax : Type) : Type := {
  get_axes : Ax → T → Axes;
  set_axes : Ax → Axes → T → T;
  next_artist : T → nat;
  set_next_artist : nat → T → T;
  attrs : T → gmap string (option Q);
  set_attrs : gmap string (option Q) → T → T
}.

(** A handle on an artist: the axes it was added to and its identity. *)
Definition Handle (Ax : Type) : Type := Ax * nat.

Section Operations.
Context {T Ax : Type} `{Widget T Ax}.

Definition on_axes (a : Ax) (f : Axes → Axes) : Py.M T unit :=
  Py.modify (λ t, set_axes a (f (get_axes a t)) t).

Definition clear (a : Ax) : Py.M T unit := on_axes a (λ _, blank).

Definition set_title (a : Ax) (s : string) : Py.M T unit :=
  on_axes a (with_title s).

Definition get_title (a : Ax) : Py.M T string :=
  t ← Py.get; mret (title (get_axes a t)).

Definition add_artist (a : Ax) (art : Artist) : Py.M T (Handle Ax) :=
  λ t, let i := next_artist t in
       (inr (a, i),
        set_next_artist (S i)
          (set_axes a (with_artists (artists (get_axes a t) ++ [(i, art)])
                                    (get_axes a t)) t)).

(** [artist.remove()] inside [safe_remove_artist]: an artist that is no
    longer on its axes makes matplotlib raise, which the caller swallows. *)
Definition remove_artist (h : Handle Ax) : Py.M T unit :=
  on_axes h.1 (λ ax, with_artists (filter (λ p, p.1 ≠ h.2) (artists ax)) ax).

(** Axis limits may not be NaN or infinite. *)
Definition set_xlim (a : Ax) (lo hi : option Q) : Py.M T unit :=
  match lo, hi with
  | Some l, Some h => on_axes a (with_xlim (l, h))
  | _, _ => Py.raise Py.ValueError
  end.

Definition set_ylim (a : Ax) (lo hi : option Q) : Py.M T unit :=
  match lo, hi with
  | Some l, Some h => on_axes a (with_ylim (l, h))
  | _, _ => Py.raise Py.ValueError
  end.

Definition set_xticks (a : Ax) (l : list (option Q)) : Py.M T unit :=
  on_axes a (with_xticks l).

(** [self.name] and [self.name = v] for attributes outside [__init__]. *)
Definition getattr (name : string) : Py.M T (option Q) :=
  t ← Py.get;
  match attrs t !! name with
  | Some v => mret v
  | None => Py.raise Py.AttributeError
  end.

Definition setattr (name : string) (v : option Q) : Py.M T unit :=
  Py.modify (λ t, set_attrs (<[name := v]> (attrs t)) t).

End Operations.

End Mpl.

(** ** Messages shown to the user *)

Inductive Message : Type :=
| WarnNoData
| ErrMissingColumns (required : list string)
| ErrNoMS1
| ErrProcessing (e : Py.Exn).

Definition required_cols : list string :=
  ["scan_number"; "intensity"; "ms_level"; "mz"]%string.

(** numpy's [values / m * 100]: division by zero gives inf or NaN. *)
Definition percent_of (m : option Q) (x : Q) : option Q :=
  match m with
  | Some d => if Qeq_bool d 0 then None else Some (x / d * 100)%Q
  | None => None
  end.

(** ** ms1_ms2_tab.py *)

Module MS1MS2Tab.
Import Pandas Mpl.

Inductive Ax : Type := AxChrom | AxMS1 | AxMS2.

Inductive Key : Type := Key_Left | Key_Right | Key_Other.

Record MouseEvent : Type := mkMouseEvent {
  inaxes : option Ax;
  xdata : option Q
}.

(** The text of the status label, by the format string that produced it. *)
Inductive Status : Type :=
| StNoData
| StReceived (n_rows : nat)
| StProcessed (n_scans : nat)
| StScan (scan : Z) (ms1_new ms2_new : bool)
| StPriority (ms1_scan ms2_scan : option Z).

Record Tab : Type := mkTab {
  df : option DataFrame;
  current_scan : option Z;
  all_scans : list Z;
  scan_line : option (Handle Ax);
  ms2_shading_ms1 : option (Handle Ax);
  ms2_shading_ms2 : option (Handle Ax);
  instance_dict : gmap string (option Q);
  ax_chrom : Axes;
  ax_ms1 : Axes;
  ax_ms2 : Axes;
  status_label : Status;
  process_button_enabled : bool;
  message_boxes : list Message;
  artist_count : nat
}.

Definition set_df v (t : Tab) : Tab :=
  mkTab v (current_scan t) (all_scans t) (scan_line t) (ms2_shading_ms1 t)
    (ms2_shading_ms2 t) (instance_dict t) (ax_chrom t) (ax_ms1 t) (ax_ms2 t)
    (status_label t) (process_button_enabled t) (message_boxes t)
    (artist_count t).

Definition set_current_scan v (t : Tab) : Tab :=
  mkTab (df t) v (all_scans t) (scan_line t) (ms2_shading_ms1 t)
    (ms2_shading_ms2 t) (instance_dict t) (ax_chrom t) (ax_ms1 t) (ax_ms2 t)
    (status_label t) (process_button_enabled t) (message_boxes t)
    (artist_count t).

Definition set_all_scans v (t : Tab) : Tab :=
  mkTab (df t) (current_scan t) v (scan_line t) (ms2_shading_ms1 t)
    (ms2_shading_ms2 t) (instance_dict t) (ax_chrom t) (ax_ms1 t) (ax_ms2 t)
    (status_label t) (process_button_enabled t) (message_boxes t)
    (artist_count t).

Definition set_scan_line v (t : Tab) : Tab :=
  mkTab (df t) (current_scan t) (all_scans t) v (ms2_shading_ms1 t)
    (ms2_shading_ms2 t) (instance_dict t) (ax_chrom t) (ax_ms1 t) (ax_ms2 t)
    (status_label t) (process_button_enabled t) (message_boxes t)
    (artist_count t).

Definition set_ms2_shading_ms1 v (t : Tab) : Tab :=
  mkTab (df t) (current_scan t) (all_scans t) (scan_line t) v
    (ms2_shading_ms2 t) (instance_dict t) (ax_chrom t) (ax_ms1 t) (ax_ms2 t)
    (status_label t) (process_button_enabled t) (message_boxes t)
    (artist_count t).

Definition set_ms2_shading_ms2 v (t : Tab) : Tab :=
  mkTab (df t) (current_scan t) (all_scans t) (scan_line t)
    (ms2_shading_ms1 t) v (instance_dict t) (ax_chrom t) (ax_ms1 t) (ax_ms2 t)
    (status_label t) (process_button_enabled t) (message_boxes t)
    (artist_count t).

Definition set_instance_dict v (t : Tab) : Tab :=
  mkTab (df t) (current_scan t) (all_scans t) (scan_line t)
    (ms2_shading_ms1 t) (ms2_shading_ms2 t) v (ax_chrom t) (ax_ms1 t)
    (ax_ms2 t) (status_label t) (process_button_enabled t) (message_boxes t)
    (artist_count t).

Definition set_ax (a : Ax) (v : Axes) (t : Tab) : Tab :=
  mkTab (df t) (current_scan t) (all_scans t) (scan_line t)
    (ms2_shading_ms1 t) (ms2_shading_ms2 t) (instance_dict t)
    (match a with AxChrom => v | _ => ax_chrom t end)
    (match a with AxMS1 => v | _ => ax_ms1 t end)
    (match a with AxMS2 => v | _ => ax_ms2 t end)
    (status_label t) (process_button_enabled t) (message_boxes t)
    (artist_count t).

Definition get_ax (a : Ax) (t : Tab) : Axes :=
  match a with
  | AxChrom => ax_chrom t
  | AxMS1 => ax_ms1 t
  | AxMS2 => ax_ms2 t
  end.

Definition set_status_label v (t : Tab) : Tab :=
  mkTab (df t) (current_scan t) (all_scans t) (scan_line t)
    (ms2_shading_ms1 t) (ms2_shading_ms2 t) (instance_dict t) (ax_chrom t)
    (ax_ms1 t) (ax_ms2 t) v (process_button_enabled t) (message_boxes t)
    (artist_count t).

Definition set_process_button_enabled v (t : Tab) : Tab :=
  mkTab (df t) (current_scan t) (all_scans t) (scan_line t)
    (ms2_shading_ms1 t) (ms2_shading_ms2 t) (instance_dict t) (ax_chrom t)
    (ax_ms1 t) (ax_ms2 t) (status_label t) v (message_boxes t)
    (artist_count t).

Definition set_message_boxes v (t : Tab) : Tab :=
  mkTab (df t) (current_scan t) (all_scans t) (scan_line t)
    (ms2_shading_ms1 t) (ms2_shading_ms2 t) (instance_dict t) (ax_chrom t)
    (ax_ms1 t) (ax_ms2 t) (status_label t) (process_button_enabled t) v
    (artist_count t).

Definition set_artist_count v (t : Tab) : Tab :=
  mkTab (df t) (current_scan t) (all_scans t) (scan_line t)
    (ms2_shading_ms1 t) (ms2_shading_ms2 t) (instance_dict t) (ax_chrom t)
    (ax_ms1 t) (ax_ms2 t) (status_label t) (process_button_enabled t)
    (message_boxes t) v.

#[global] Instance widget : Widget Tab Ax := {|
  get_axes := get_ax;
  set_axes := set_ax;
  next_artist := artist_count;
  set_next_artist := set_artist_count;
  attrs := instance_dict;
  set_attrs := set_instance_dict
|}.

(** [QMessageBox.warning] / [QMessageBox.critical] *)
Definition message_box (m : Message) : Py.M Tab unit :=
  Py.modify (λ t, set_message_boxes (message_boxes t ++ [m]) t).

(** [self.df] used as a table: [None] cannot be subscripted. *)
Definition the_df : Py.M Tab DataFrame :=
  t ← Py.get;
  match df t with
  | Some d => mret d
  | None => Py.raise Py.TypeError
  end.

Definition show_initial_plots : Py.M Tab unit :=
  add_artist AxChrom (Text "データを表示してください");;
  set_title AxChrom "クロマトグラム（Scan number、Intensity）";;
  add_artist AxMS1 (Text "データなし");;
  set_title AxMS1 "MS1 Spectrum";;
  add_artist AxMS2 (Text "データなし");;
  set_title AxMS2 "MS2 Spectrum".

(** The widget after [__init__]. *)
Definition init : Tab :=
  Py.exec show_initial_plots
    {| df := None; current_scan := None; all_scans := [];
       scan_line := None; ms2_shading_ms1 := None; ms2_shading_ms2 := None;
       instance_dict := ∅;
       ax_chrom := blank; ax_ms1 := blank; ax_ms2 := blank;
       status_label := StNoData; process_button_enabled := false;
       message_boxes := []; artist_count := 0 |}.

Definition set_data (d : DataFrame) : Py.M Tab unit :=
  Py.modify (set_df (Some d));;
  Py.modify (set_status_label (StReceived (len d)));;
  Py.modify (set_process_button_enabled true).

Definition setup_spectrum_plots : Py.M Tab unit :=
  clear AxMS1;;
  set_title AxMS1 "MS1 Spectrum";;
  clear AxMS2;;
  set_title AxMS2 "MS2 Spectrum".

Definition process_data : Py.M Tab unit :=
  t ← Py.get;
  match df t with
  | None => message_box WarnNoData
  | Some d =>
    Py.try_except
      (if negb (has_columns required_cols d)
       then message_box (ErrMissingColumns required_cols)
       else
         let chrom_df := sort_values (groupby_sum d) in
         Py.modify (set_all_scans (chrom_df.*1));;
         setattr "chrom_max_intensity"
                 ((λ m, m * 1.05)%Q <$> max (chrom_df.*2));;
         clear AxChrom;;
         add_artist AxChrom (Line2D chrom_df);;
         set_title AxChrom "Chromatogram (All MS Levels)";;
         chrom_max ← getattr "chrom_max_intensity";
         set_ylim AxChrom (Some 0%Q) chrom_max;;
         let ms1_data := where_level 1 d in
         (if negb (empty ms1_data) then
            setattr "all_mz_min"
                    ((λ m, m - 10)%Q <$> min (mz <$> rows ms1_data));;
            setattr "all_mz_max"
                    ((λ m, m + 10)%Q <$> max (mz <$> rows ms1_data))
          else
            setattr "all_mz_min" ((λ m, m - 10)%Q <$> min (mz <$> rows d));;
            setattr "all_mz_max" ((λ m, m + 10)%Q <$> max (mz <$> rows d)));;
         setup_spectrum_plots;;
         t' ← Py.get;
         Py.modify (set_status_label (StProcessed (length (all_scans t')))))
      (λ e, message_box (ErrProcessing e))
  end.

Definition safe_remove_artist (artist : option (Handle Ax))
  : Py.M Tab (option (Handle Ax)) :=
  match artist with
  | Some h => remove_artist h;; mret None
  | None => mret None
  end.

Fixpoint find_ms1_loop (candidate_scans : list Z) : Py.M Tab (option Z) :=
  match candidate_scans with
  | [] => mret None
  | scan :: rest =>
    d ← the_df;
    getcol "scan_number" d;;
    let scan_data := where_scan scan d in
    getcol "ms_level" scan_data;;
    let ms1_data := where_level 1 scan_data in
    if negb (empty ms1_data) then mret (Some scan) else find_ms1_loop rest
  end.

Definition find_ms1_scan (target_scan : Z) : Py.M Tab (option Z) :=
  t ← Py.get;
  let candidate_scans :=
    Py.sort_reverse (filter (λ scan, scan ≤ target_scan) (all_scans t)) in
  find_ms1_loop candidate_scans.

(** [f"{x}"] for a value that may be [None]. *)
Definition str_opt (x : option Z) : string :=
  match x with
  | Some n => Py.str n
  | None => "None"
  end.

Definition update_scan_with_ms1_priority (clicked_scan : Z) (ms1_scan : option Z)
  : Py.M Tab unit :=
  Py.modify (set_current_scan (Some clicked_scan));;
  d ← the_df;
  getcol "scan_number" d;;
  let clicked_spec_data := where_scan clicked_scan d in
  getcol "ms_level" clicked_spec_data;;
  let ms2_data := where_level 2 clicked_spec_data in
  ms1_data ← match ms1_scan with
             | Some s => mret (where_level 1 (where_scan s d))
             | None => mret {| columns := []; rows := [] |}
             end;
  t ← Py.get;
  h ← safe_remove_artist (scan_line t);
  Py.modify (set_scan_line h);;
  h ← add_artist AxChrom (AxVLine clicked_scan);
  Py.modify (set_scan_line (Some h));;
  lo ← getattr "all_mz_min";
  hi ← getattr "all_mz_max";
  (if negb (empty ms1_data) then
     clear AxMS1;;
     set_title AxMS1 ("MS1 Spectrum - Scan " +:+ str_opt ms1_scan);;
     getcol "mz" ms1_data;;
     getcol "intensity" ms1_data;;
     add_artist AxMS1 (VLines (mz <$> rows ms1_data)
                              (Some ∘ intensity <$> rows ms1_data));;
     set_xlim AxMS1 lo hi;;
     set_ylim AxMS1 (Some 0%Q) (Some 10000000%Q)
   else
     clear AxMS1;;
     set_title AxMS1 "MS1 Spectrum - No MS1 data available";;
     set_xlim AxMS1 lo hi);;
  t ← Py.get;
  h ← safe_remove_artist (ms2_shading_ms1 t);
  Py.modify (set_ms2_shading_ms1 h);;
  (if negb (empty ms2_data) then
     clear AxMS2;;
     set_title AxMS2 ("MS2 Spectrum - Scan " +:+ Py.str clicked_scan);;
     getcol "mz" ms2_data;;
     getcol "intensity" ms2_data;;
     add_artist AxMS2 (VLines (mz <$> rows ms2_data)
                              (Some ∘ intensity <$> rows ms2_data));;
     set_xlim AxMS2 lo hi;;
     if bool_decide ("precursor_mz" ∈ columns ms2_data) then
       precursor ← iloc0 (precursor_mz <$> rows ms2_data);
       let mz_min := (λ p, p - 1.5)%Q <$> precursor in
       let mz_max := (λ p, p + 1.5)%Q <$> precursor in
       h ← add_artist AxMS2 (AxVSpan ((λ m, m + 1.45)%Q <$> mz_min)
                                     ((λ m, m - 1.45)%Q <$> mz_max));
       Py.modify (set_ms2_shading_ms2 (Some h));;
       if negb (empty ms1_data) then
         h ← add_artist AxMS1 (AxVSpan mz_min mz_max);
         Py.modify (set_ms2_shading_ms1 (Some h))
       else mret tt
     else mret tt
   else
     clear AxMS2;;
     set_title AxMS2 ("MS2 Spectrum - Scan " +:+ Py.str clicked_scan
                      +:+ " (No MS2 data)");;
     set_xlim AxMS2 lo hi);;
  Py.modify (set_status_label
    (StPriority (match ms1_scan with
                 | Some s => if bool_decide (s = 0) then None else Some s
                 | None => None
                 end)
                (if negb (empty ms2_data) then Some clicked_scan else None))).

Definition update_scan (scan_number : Z) : Py.M Tab unit :=
  Py.modify (set_current_scan (Some scan_number));;
  d ← the_df;
  getcol "scan_number" d;;
  let spec_data := where_scan scan_number d in
  getcol "ms_level" spec_data;;
  let ms1_data := where_level 1 spec_data in
  let ms2_data := where_level 2 spec_data in
  t ← Py.get;
  h ← safe_remove_artist (scan_line t);
  Py.modify (set_scan_line h);;
  h ← add_artist AxChrom (AxVLine scan_number);
  Py.modify (set_scan_line (Some h));;
  (if negb (empty ms1_data) then
     t ← Py.get;
     h ← safe_remove_artist (ms2_shading_ms1 t);
     Py.modify (set_ms2_shading_ms1 h);;
     getcol "intensity" ms1_data;;
     setattr "ms1_max_intensity"
             ((λ m, m / 10)%Q <$> max (intensity <$> rows ms1_data));;
     clear AxMS1;;
     set_title AxMS1 ("MS1 Spectrum - Scan " +:+ Py.str scan_number);;
     getcol "mz" ms1_data;;
     add_artist AxMS1 (VLines (mz <$> rows ms1_data)
                              (Some ∘ intensity <$> rows ms1_data));;
     lo ← getattr "all_mz_min";
     hi ← getattr "all_mz_max";
     set_xlim AxMS1 lo hi;;
     ms1_max ← getattr "ms1_max_intensity";
     set_ylim AxMS1 (Some 0%Q) ms1_max
   else mret tt);;
  (if negb (empty ms2_data) then
     t ← Py.get;
     h ← safe_remove_artist (ms2_shading_ms2 t);
     Py.modify (set_ms2_shading_ms2 h);;
     getcol "mz" ms2_data;;
     setattr "ms2_mz_min" ((λ m, m - 10)%Q <$> min (mz <$> rows ms2_data));;
     setattr "ms2_mz_max" ((λ m, m + 10)%Q <$> max (mz <$> rows ms2_data));;
     clear AxMS2;;
     set_title AxMS2 ("MS2 Spectrum - Scan " +:+ Py.str scan_number);;
     getcol "intensity" ms2_data;;
     add_artist AxMS2 (VLines (mz <$> rows ms2_data)
                              (Some ∘ intensity <$> rows ms2_data));;
     lo ← getattr "ms2_mz_min";
     hi ← getattr "ms2_mz_max";
     set_xlim AxMS2 lo hi;;
     let current_ms2_max :=
       (λ m, m * 1.05)%Q <$> max (intensity <$> rows ms2_data) in
     set_ylim AxMS2 (Some 0%Q) current_ms2_max;;
     if bool_decide ("precursor_mz" ∈ columns ms2_data) then
       precursor ← iloc0 (precursor_mz <$> rows ms2_data);
       let mz_min := (λ p, p - 1.5)%Q <$> precursor in
       let mz_max := (λ p, p + 1.5)%Q <$> precursor in
       h ← add_artist AxMS2 (AxVSpan ((λ m, m + 1.45)%Q <$> mz_min)
                                     ((λ m, m - 1.45)%Q <$> mz_max));
       Py.modify (set_ms2_shading_ms2 (Some h));;
       ms1_title ← get_title AxMS1;
       if negb (bool_decide (ms1_title = ""))
          && negb (Py.contains "No MS1 data" ms1_title) then
         h ← add_artist AxMS1 (AxVSpan mz_min mz_max);
         Py.modify (set_ms2_shading_ms1 (Some h))
       else mret tt
     else mret tt
   else mret tt);;
  Py.modify (set_status_label
    (StScan scan_number (negb (empty ms1_data)) (negb (empty ms2_data)))).

Definition keyPressEvent (key : Key) : Py.M Tab unit :=
  t ← Py.get;
  match current_scan t with
  | None => mret tt
  | Some cur =>
    if bool_decide (all_scans t = []) then mret tt
    else
      idx ← Py.index cur (all_scans t);
      match key with
      | Key_Left =>
        if bool_decide (0 < idx)%nat then
          s ← Py.getitem (all_scans t) (idx - 1);
          update_scan s
        else mret tt
      | Key_Right =>
        if bool_decide (Z.of_nat idx < Z.of_nat (length (all_scans t)) - 1) then
          s ← Py.getitem (all_scans t) (idx + 1);
          update_scan s
        else mret tt
      | Key_Other => mret tt
      end
  end.

Definition on_click (event : MouseEvent) : Py.M Tab unit :=
  t ← Py.get;
  match df t, inaxes event with
  | Some _, Some AxChrom =>
    match xdata event with
    | None => mret tt
    | Some x_clicked =>
      if bool_decide (all_scans t = []) then mret tt
      else
        let nearest_scan := Py.round x_clicked in
        nearest_scan ←
          (if negb (bool_decide (nearest_scan ∈ all_scans t)) then
             Py.min_key (λ x, Z.abs (x - nearest_scan)) (all_scans t)
           else mret nearest_scan);
        update_scan nearest_scan
    end
  | _, _ => mret tt
  end.

End MS1MS2Tab.

(** ** simple_ms1_tab.py *)

Module SimpleMS1Tab.
Import Pandas Mpl.

Inductive Ax : Type := AxChrom | AxMS1Var | AxMS1Fixed.

Inductive Key : Type := Key_Left | Key_Right | Key_Other.

Record MouseEvent : Type := mkMouseEvent {
  inaxes : option Ax;
  xdata : option Q
}.

Inductive Status : Type :=
| StNoData
| StReceived (n_rows : nat)
| StProcessed (n_scans : nat)
| StShowing (scan : Z).

Record Tab : Type := mkTab {
  df : option DataFrame;
  current_scan : option Z;
  all_scans : list Z;
  global_max_intensity : option Q;
  scan_line : option (Handle Ax);
  instance_dict : gmap string (option Q);
  ax_chrom : Axes;
  ax_ms1_var : Axes;
  ax_ms1_fixed : Axes;
  status_label : Status;
  process_button_enabled : bool;
  message_boxes : list Message;
  artist_count : nat
}.

Definition set_df v (t : Tab) : Tab :=
  mkTab v (current_scan t) (all_scans t) (global_max_intensity t)
    (scan_line t) (instance_dict t) (ax_chrom t) (ax_ms1_var t)
    (ax_ms1_fixed t) (status_label t) (process_button_enabled t)
    (message_boxes t) (artist_count t).

Definition set_current_scan v (t : Tab) : Tab :=
  mkTab (df t) v (all_scans t) (global_max_intensity t)
    (scan_line t) (instance_dict t) (ax_chrom t) (ax_ms1_var t)
    (ax_ms1_fixed t) (status_label t) (process_button_enabled t)
    (message_boxes t) (artist_count t).

Definition set_all_scans v (t : Tab) : Tab :=
  mkTab (df t) (current_scan t) v (global_max_intensity t)
    (scan_line t) (instance_dict t) (ax_chrom t) (ax_ms1_var t)
    (ax_ms1_fixed t) (status_label t) (process_button_enabled t)
    (message_boxes t) (artist_count t).

Definition set_global_max_intensity v (t : Tab) : Tab :=
  mkTab (df t) (current_scan t) (all_scans t) v
    (scan_line t) (instance_dict t) (ax_chrom t) (ax_ms1_var t)
    (ax_ms1_fixed t) (status_label t) (process_button_enabled t)
    (message_boxes t) (artist_count t).

Definition set_scan_line v (t : Tab) : Tab :=
  mkTab (df t) (current_scan t) (all_scans t) (global_max_intensity t)
    v (instance_dict t) (ax_chrom t) (ax_ms1_var t)
    (ax_ms1_fixed t) (status_label t) (process_button_enabled t)
    (message_boxes t) (artist_count t).

Definition set_instance_dict v (t : Tab) : Tab :=
  mkTab (df t) (current_scan t) (all_scans t) (global_max_intensity t)
    (scan_line t) v (ax_chrom t) (ax_ms1_var t)
    (ax_ms1_fixed t) (status_label t) (process_button_enabled t)
    (message_boxes t) (artist_count t).

Definition set_ax (a : Ax) (v : Axes) (t : Tab) : Tab :=
  mkTab (df t) (current_scan t) (all_scans t) (global_max_intensity t)
    (scan_line t) (instance_dict t)
    (match a with AxChrom => v | _ => ax_chrom t end)
    (match a with AxMS1Var => v | _ => ax_ms1_var t end)
    (match a with AxMS1Fixed => v | _ => ax_ms1_fixed t end)
    (status_label t) (process_button_enabled t)
    (message_boxes t) (artist_count t).

Definition get_ax (a : Ax) (t : Tab) : Axes :=
  match a with
  | AxChrom => ax_chrom t
  | AxMS1Var => ax_ms1_var t
  | AxMS1Fixed => ax_ms1_fixed t
  end.

Definition set_status_label v (t : Tab) : Tab :=
  mkTab (df t) (current_scan t) (all_scans t) (global_max_intensity t)
    (scan_line t) (instance_dict t) (ax_chrom t) (ax_ms1_var t)
    (ax_ms1_fixed t) v (process_button_enabled t)
    (message_boxes t) (artist_count t).

Definition set_process_button_enabled v (t : Tab) : Tab :=
  mkTab (df t) (current_scan t) (all_scans t) (global_max_intensity t)
    (scan_line t) (instance_dict t) (ax_chrom t) (ax_ms1_var t)
    (ax_ms1_fixed t) (status_label t) v
    (message_boxes t) (artist_count t).

Definition set_message_boxes v (t : Tab) : Tab :=
  mkTab (df t) (current_scan t) (all_scans t) (global_max_intensity t)
    (scan_line t) (instance_dict t) (ax_chrom t) (ax_ms1_var t)
    (ax_ms1_fixed t) (status_label t) (process_button_enabled t)
    v (artist_count t).

Definition set_artist_count v (t : Tab) : Tab :=
  mkTab (df t) (current_scan t) (all_scans t) (global_max_intensity t)
    (scan_line t) (instance_dict t) (ax_chrom t) (ax_ms1_var t)
    (ax_ms1_fixed t) (status_label t) (process_button_enabled t)
    (message_boxes t) v.

#[global] Instance widget : Widget Tab Ax := {|
  get_axes := get_ax;
  set_axes := set_ax;
  next_artist := artist_count;
  set_next_artist := set_artist_count;
  attrs := instance_dict;
  set_attrs := set_instance_dict
|}.

Definition message_box (m : Message) : Py.M Tab unit :=
  Py.modify (λ t, set_message_boxes (message_boxes t ++ [m]) t).

Definition the_df : Py.M Tab DataFrame :=
  t ← Py.get;
  match df t with
  | Some d => mret d
  | None => Py.raise Py.TypeError
  end.

Definition show_initial_plots : Py.M Tab unit :=
  add_artist AxChrom (Text "データを読み込んでください");;
  set_title AxChrom "MS1 Chromatogram";;
  add_artist AxMS1Var (Text "データなし");;
  set_title AxMS1Var "MS1 Spectrum (Variable Height)";;
  add_artist AxMS1Fixed (Text "データなし");;
  set_title AxMS1Fixed "MS1 Spectrum (Fixed Height)".

Definition init : Tab :=
  Py.exec show_initial_plots
    {| df := None; current_scan := None; all_scans := [];
       global_max_intensity := Some 0%Q; scan_line := None;
       instance_dict := ∅;
       ax_chrom := blank; ax_ms1_var := blank; ax_ms1_fixed := blank;
       status_label := StNoData; process_button_enabled := false;
       message_boxes := []; artist_count := 0 |}.

Definition set_data (d : DataFrame) : Py.M Tab unit :=
  Py.modify (set_df (Some d));;
  Py.modify (set_status_label (StReceived (len d)));;
  Py.modify (set_process_button_enabled true).

Definition setup_spectrum_plots : Py.M Tab unit :=
  clear AxMS1Var;;
  set_title AxMS1Var "MS1 Spectrum (Variable Height)";;
  lo ← getattr "all_mz_min";
  hi ← getattr "all_mz_max";
  set_xlim AxMS1Var lo hi;;
  clear AxMS1Fixed;;
  set_title AxMS1Fixed "MS1 Spectrum (Fixed Height)";;
  lo ← getattr "all_mz_min";
  hi ← getattr "all_mz_max";
  set_xlim AxMS1Fixed lo hi;;
  set_ylim AxMS1Fixed (Some 0%Q) (Some 100%Q).

Definition safe_remove_artist (artist : option (Handle Ax))
  : Py.M Tab (option (Handle Ax)) :=
  match artist with
  | Some h => remove_artist h;; mret None
  | None => mret None
  end.

Definition update_scan (scan_number : Z) : Py.M Tab unit :=
  Py.modify (set_current_scan (Some scan_number));;
  d ← the_df;
  getcol "scan_number" d;;
  let scan_data := where_scan scan_number d in
  if empty scan_data then mret tt
  else
    t ← Py.get;
    h ← safe_remove_artist (scan_line t);
    Py.modify (set_scan_line h);;
    h ← add_artist AxChrom (AxVLine scan_number);
    Py.modify (set_scan_line (Some h));;
    getcol "intensity" scan_data;;
    let current_max_intensity := max (intensity <$> rows scan_data) in
    getcol "mz" scan_data;;
    let mz_values := mz <$> rows scan_data in
    let intensity_values := intensity <$> rows scan_data in
    clear AxMS1Var;;
    set_title AxMS1Var ("Y軸・自動補正 - Scan " +:+ Py.str scan_number);;
    let intensity_percent_var :=
      percent_of current_max_intensity <$> intensity_values in
    add_artist AxMS1Var (VLines mz_values intensity_percent_var);;
    lo ← getattr "all_mz_min";
    hi ← getattr "all_mz_max";
    set_xlim AxMS1Var lo hi;;
    set_ylim AxMS1Var (Some 0%Q) (Some 100%Q);;
    add_artist AxMS1Var (Annotation "Max: " current_max_intensity);;
    clear AxMS1Fixed;;
    set_title AxMS1Fixed ("Y軸・固定 - Scan " +:+ Py.str scan_number);;
    t ← Py.get;
    let intensity_percent_fixed :=
      percent_of (global_max_intensity t) <$> intensity_values in
    add_artist AxMS1Fixed (VLines mz_values intensity_percent_fixed);;
    lo ← getattr "all_mz_min";
    hi ← getattr "all_mz_max";
    set_xlim AxMS1Fixed lo hi;;
    set_ylim AxMS1Fixed (Some 0%Q) (Some 100%Q);;
    add_artist AxMS1Fixed (Annotation "Global Max: " (global_max_intensity t));;
    Py.modify (set_status_label (StShowing scan_number)).

Definition process_ms1_data : Py.M Tab unit :=
  t ← Py.get;
  match df t with
  | None => message_box WarnNoData
  | Some d =>
    Py.try_except
      (if negb (has_columns required_cols d)
       then message_box (ErrMissingColumns required_cols)
       else
         Py.modify (set_df (Some (where_level 1 d)));;
         d ← the_df;
         if empty d then message_box ErrNoMS1
         else
           let unique_scans := Py.sorted (unique (scan_number <$> rows d)) in
           let scan_mapping :=
             Py.dict_of_swapped (Py.enumerate 1 unique_scans) in
           Py.modify (set_df (Some (map_scan_number scan_mapping d)));;
           d ← the_df;
           Py.modify (set_global_max_intensity (max (intensity <$> rows d)));;
           let chrom_df := sort_values (groupby_sum d) in
           Py.modify (set_all_scans (chrom_df.*1));;
           clear AxChrom;;
           add_artist AxChrom (Line2D chrom_df);;
           set_title AxChrom "MS1 Chromatogram";;
           setattr "all_mz_min" ((λ m, m - 10)%Q <$> min (mz <$> rows d));;
           setattr "all_mz_max" ((λ m, m + 10)%Q <$> max (mz <$> rows d));;
           setup_spectrum_plots;;
           t ← Py.get;
           Py.modify (set_status_label (StProcessed (length (all_scans t))));;
           if negb (bool_decide (all_scans t = [])) then
             middle_scan ← Py.getitem (all_scans t)
                                      (length (all_scans t) / 2)%nat;
             update_scan middle_scan
           else mret tt)
      (λ e, message_box (ErrProcessing e))
  end.

Definition keyPressEvent (key : Key) : Py.M Tab unit :=
  t ← Py.get;
  match current_scan t with
  | None => mret tt
  | Some cur =>
    if bool_decide (all_scans t = []) then mret tt
    else
      idx ← Py.index cur (all_scans t);
      match key with
      | Key_Left =>
        if bool_decide (0 < idx)%nat then
          s ← Py.getitem (all_scans t) (idx - 1);
          update_scan s
        else mret tt
      | Key_Right =>
        if bool_decide (Z.of_nat idx < Z.of_nat (length (all_scans t)) - 1) then
          s ← Py.getitem (all_scans t) (idx + 1);
          update_scan s
        else mret tt
      | Key_Other => mret tt
      end
  end.

Definition on_click (event : MouseEvent) : Py.M Tab unit :=
  t ← Py.get;
  match df t, inaxes event with
  | Some _, Some AxChrom =>
    match xdata event with
    | None => mret tt
    | Some x_clicked =>
      if bool_decide (all_scans t = []) then mret tt
      else
        let nearest_scan := Py.round x_clicked in
        nearest_scan ←
          (if negb (bool_decide (nearest_scan ∈ all_scans t)) then
             Py.min_key (λ x, Z.abs (x - nearest_scan)) (all_scans t)
           else mret nearest_scan);
        update_scan nearest_scan
    end
  | _, _ => mret tt
  end.

End SimpleMS1Tab.

(** ** zoom_viewer_tab.py *)

Module ZoomViewerTab.
Import Pandas Mpl.

Inductive Ax : Type := AxChrom | AxMS1Var | AxMS1Fixed | AxMS1Zoom.

Inductive Key : Type := Key_Left | Key_Right | Key_Other.

Record MouseEvent : Type := mkMouseEvent {
  inaxes : option Ax;
  xdata : option Q
}.

Inductive Status : Type :=
| StNoData
| StReceived (n_rows : nat)
| StProcessed (n_scans : nat)
| StShowing (scan : Z).

Record Tab : Type := mkTab {
  df : option DataFrame;
  current_scan : option Z;
  all_scans : list Z;
  max_spectrum_intensity : option Q;
  max_spectrum_mz_center : option Q;
  scan_line : option (Handle Ax);
  instance_dict : gmap string (option Q);
  ax_chrom : Axes;
  ax_ms1_var : Axes;
  ax_ms1_fixed : Axes;
  ax_ms1_zoom : Axes;
  status_label : Status;
  process_button_enabled : bool;
  message_boxes : list Message;
  artist_count : nat
}.

Definition set_df v (t : Tab) : Tab :=
  mkTab v (current_scan t) (all_scans t) (max_spectrum_intensity t)
    (max_spectrum_mz_center t) (scan_line t) (instance_dict t) (ax_chrom t)
    (ax_ms1_var t) (ax_ms1_fixed t) (ax_ms1_zoom t) (status_label t)
    (process_button_enabled t) (message_boxes t) (artist_count t).

Definition set_current_scan v (t : Tab) : Tab :=
  mkTab (df t) v (all_scans t) (max_spectrum_intensity t)
    (max_spectrum_mz_center t) (scan_line t) (instance_dict t) (ax_chrom t)
    (ax_ms1_var t) (ax_ms1_fixed t) (ax_ms1_zoom t) (status_label t)
    (process_button_enabled t) (message_boxes t) (artist_count t).

Definition set_all_scans v (t : Tab) : Tab :=
  mkTab (df t) (current_scan t) v (max_spectrum_intensity t)
    (max_spectrum_mz_center t) (scan_line t) (instance_dict t) (ax_chrom t)
    (ax_ms1_var t) (ax_ms1_fixed t) (ax_ms1_zoom t) (status_label t)
    (process_button_enabled t) (message_boxes t) (artist_count t).

Definition set_max_spectrum_intensity v (t : Tab) : Tab :=
  mkTab (df t) (current_scan t) (all_scans t) v
    (max_spectrum_mz_center t) (scan_line t) (instance_dict t) (ax_chrom t)
    (ax_ms1_var t) (ax_ms1_fixed t) (ax_ms1_zoom t) (status_label t)
    (process_button_enabled t) (message_boxes t) (artist_count t).

Definition set_max_spectrum_mz_center v (t : Tab) : Tab :=
  mkTab (df t) (current_scan t) (all_scans t) (max_spectrum_intensity t)
    v (scan_line t) (instance_dict t) (ax_chrom t)
    (ax_ms1_var t) (ax_ms1_fixed t) (ax_ms1_zoom t) (status_label t)
    (process_button_enabled t) (message_boxes t) (artist_count t).

Definition set_scan_line v (t : Tab) : Tab :=
  mkTab (df t) (current_scan t) (all_scans t) (max_spectrum_intensity t)
    (max_spectrum_mz_center t) v (instance_dict t) (ax_chrom t)
    (ax_ms1_var t) (ax_ms1_fixed t) (ax_ms1_zoom t) (status_label t)
    (process_button_enabled t) (message_boxes t) (artist_count t).

Definition set_instance_dict v (t : Tab) : Tab :=
  mkTab (df t) (current_scan t) (all_scans t) (max_spectrum_intensity t)
    (max_spectrum_mz_center t) (scan_line t) v (ax_chrom t)
    (ax_ms1_var t) (ax_ms1_fixed t) (ax_ms1_zoom t) (status_label t)
    (process_button_enabled t) (message_boxes t) (artist_count t).

Definition set_ax (a : Ax) (v : Axes) (t : Tab) : Tab :=
  mkTab (df t) (current_scan t) (all_scans t) (max_spectrum_intensity t)
    (max_spectrum_mz_center t) (scan_line t) (instance_dict t)
    (match a with AxChrom => v | _ => ax_chrom t end)
    (match a with AxMS1Var => v | _ => ax_ms1_var t end)
    (match a with AxMS1Fixed => v | _ => ax_ms1_fixed t end)
    (match a with AxMS1Zoom => v | _ => ax_ms1_zoom t end)
    (status_label t) (process_button_enabled t) (message_boxes t)
    (artist_count t).

Definition get_ax (a : Ax) (t : Tab) : Axes :=
  match a with
  | AxChrom => ax_chrom t
  | AxMS1Var => ax_ms1_var t
  | AxMS1Fixed => ax_ms1_fixed t
  | AxMS1Zoom => ax_ms1_zoom t
  end.

Definition set_status_label v (t : Tab) : Tab :=
  mkTab (df t) (current_scan t) (all_scans t) (max_spectrum_intensity t)
    (max_spectrum_mz_center t) (scan_line t) (instance_dict t) (ax_chrom t)
    (ax_ms1_var t) (ax_ms1_fixed t) (ax_ms1_zoom t) v
    (process_button_enabled t) (message_boxes t) (artist_count t).

Definition set_process_button_enabled v (t : Tab) : Tab :=
  mkTab (df t) (current_scan t) (all_scans t) (max_spectrum_intensity t)
    (max_spectrum_mz_center t) (scan_line t) (instance_dict t) (ax_chrom t)
    (ax_ms1_var t) (ax_ms1_fixed t) (ax_ms1_zoom t) (status_label t)
    v (message_boxes t) (artist_count t).

Definition set_message_boxes v (t : Tab) : Tab :=
  mkTab (df t) (current_scan t) (all_scans t) (max_spectrum_intensity t)
    (max_spectrum_mz_center t) (scan_line t) (instance_dict t) (ax_chrom t)
    (ax_ms1_var t) (ax_ms1_fixed t) (ax_ms1_zoom t) (status_label t)
    (process_button_enabled t) v (artist_count t).

Definition set_artist_count v (t : Tab) : Tab :=
  mkTab (df t) (current_scan t) (all_scans t) (max_spectrum_intensity t)
    (max_spectrum_mz_center t) (scan_line t) (instance_dict t) (ax_chrom t)
    (ax_ms1_var t) (ax_ms1_fixed t) (ax_ms1_zoom t) (status_label t)
    (process_button_enabled t) (message_boxes t) v.

#[global] Instance widget : Widget Tab Ax := {|
  get_axes := get_ax;
  set_axes := set_ax;
  next_artist := artist_count;
  set_next_artist := set_artist_count;
  attrs := instance_dict;
  set_attrs := set_instance_dict
|}.

Definition message_box (m : Message) : Py.M Tab unit :=
  Py.modify (λ t, set_message_boxes (message_boxes t ++ [m]) t).

Definition the_df : Py.M Tab DataFrame :=
  t ← Py.get;
  match df t with
  | Some d => mret d
  | None => Py.raise Py.TypeError
  end.

Definition show_initial_plots : Py.M Tab unit :=
  add_artist AxChrom (Text "データを読み込んでください");;
  set_title AxChrom "MS1 Chromatogram";;
  add_artist AxMS1Var (Text "データなし");;
  set_title AxMS1Var "MS1 Spectrum (Variable Height)";;
  add_artist AxMS1Fixed (Text "データなし");;
  set_title AxMS1Fixed "MS1 Spectrum (Fixed Height)";;
  add_artist AxMS1Zoom (Text "データなし");;
  set_title AxMS1Zoom "MS1 Spectrum (Zoom)".

Definition init : Tab :=
  Py.exec show_initial_plots
    {| df := None; current_scan := None; all_scans := [];
       max_spectrum_intensity := Some 0%Q;
       max_spectrum_mz_center := Some 0%Q;
       scan_line := None; instance_dict := ∅;
       ax_chrom := blank; ax_ms1_var := blank; ax_ms1_fixed := blank;
       ax_ms1_zoom := blank;
       status_label := StNoData; process_button_enabled := false;
       message_boxes := []; artist_count := 0 |}.

Definition set_data (d : DataFrame) : Py.M Tab unit :=
  Py.modify (set_df (Some d));;
  Py.modify (set_status_label (StReceived (len d)));;
  Py.modify (set_process_button_enabled true).

Definition setup_spectrum_plots : Py.M Tab unit :=
  clear AxMS1Var;;
  set_title AxMS1Var "MS1 Spectrum (Variable Height)";;
  lo ← getattr "all_mz_min";
  hi ← getattr "all_mz_max";
  set_xlim AxMS1Var lo hi;;
  clear AxMS1Fixed;;
  set_title AxMS1Fixed "MS1 Spectrum (Fixed Height)";;
  t ← Py.get;
  let zoom_min := (λ c, c - 0.5)%Q <$> max_spectrum_mz_center t in
  let zoom_max := (λ c, c + 2.5)%Q <$> max_spectrum_mz_center t in
  set_xlim AxMS1Fixed zoom_min zoom_max;;
  set_ylim AxMS1Fixed (Some 0%Q) (Some 100%Q);;
  clear AxMS1Zoom;;
  set_title AxMS1Zoom "MS1 Spectrum (Zoom)";;
  let zoom_min := (λ c, c - 0.1)%Q <$> max_spectrum_mz_center t in
  let zoom_max := (λ c, c + 0.5)%Q <$> max_spectrum_mz_center t in
  set_xlim AxMS1Zoom zoom_min zoom_max;;
  set_ylim AxMS1Zoom (Some 0%Q) (Some 100%Q).

Definition safe_remove_artist (artist : option (Handle Ax))
  : Py.M Tab (option (Handle Ax)) :=
  match artist with
  | Some h => remove_artist h;; mret None
  | None => mret None
  end.

Definition update_scan (scan_number : Z) : Py.M Tab unit :=
  Py.modify (set_current_scan (Some scan_number));;
  d ← the_df;
  getcol "scan_number" d;;
  let scan_data := where_scan scan_number d in
  if empty scan_data then mret tt
  else
    t ← Py.get;
    h ← safe_remove_artist (scan_line t);
    Py.modify (set_scan_line h);;
    h ← add_artist AxChrom (AxVLine scan_number);
    Py.modify (set_scan_line (Some h));;
    getcol "intensity" scan_data;;
    let current_max_intensity := max (intensity <$> rows scan_data) in
    getcol "mz" scan_data;;
    let mz_values := mz <$> rows scan_data in
    let intensity_values := intensity <$> rows scan_data in
    getcol "Max" scan_data;;
    let max_data := where_max scan_data in
    (if empty max_data then
       match idxmax ((λ p, (p.1, intensity p.2)) <$> labelled scan_data) with
       | Some max_idx =>
         r ← Py.getitem (rows scan_data) max_idx;
         setattr "current_center_mz" (Some (mz r))
       | None => Py.raise Py.ValueError
       end
     else
       m ← iloc0 (mz <$> rows max_data);
       setattr "current_center_mz" (Some m));;
    clear AxMS1Var;;
    set_title AxMS1Var ("マススペクトル全体 Scan " +:+ Py.str scan_number);;
    let intensity_percent_var :=
      percent_of current_max_intensity <$> intensity_values in
    add_artist AxMS1Var (VLines mz_values intensity_percent_var);;
    lo ← getattr "all_mz_min";
    hi ← getattr "all_mz_max";
    set_xlim AxMS1Var lo hi;;
    set_ylim AxMS1Var (Some 0%Q) (Some 100%Q);;
    center ← getattr "current_center_mz";
    let zoom_min_left := (λ c, c - 1)%Q <$> center in
    let zoom_max_left := (λ c, c + 3)%Q <$> center in
    add_artist AxMS1Var (AxVSpan zoom_min_left zoom_max_left);;
    clear AxMS1Fixed;;
    set_title AxMS1Fixed ("拡大して同位体パターンを見る　Scan "
                          +:+ Py.str scan_number);;
    let zoom_min_left := (λ c, c - 0.02)%Q <$> center in
    let zoom_max_left := (λ c, c + 0.02)%Q <$> center in
    add_artist AxMS1Fixed (AxVSpan zoom_min_left zoom_max_left);;
    clear AxMS1Zoom;;
    set_title AxMS1Zoom ("さらに拡大して分解能を理解する　Scan "
                         +:+ Py.str scan_number);;
    let current_max_spectra := where_max scan_data in
    let current_max_spectrum_intensity :=
      if negb (empty current_max_spectra)
      then max (intensity <$> rows current_max_spectra)
      else current_max_intensity in
    let zoom_min_1 := (λ c, c - 0.5)%Q <$> center in
    let zoom_max_1 := (λ c, c + 2.5)%Q <$> center in
    let zoom_min_2 := (λ c, c - 0.02)%Q <$> center in
    let zoom_max_2 := (λ c, c + 0.02)%Q <$> center in
    let zoom_mid_2 := (λ c, (c - 0.02 + (c + 0.02)) / 2)%Q <$> center in
    let intensity_percent_fixed :=
      percent_of current_max_spectrum_intensity <$> intensity_values in
    add_artist AxMS1Fixed (VLines mz_values intensity_percent_fixed);;
    set_xlim AxMS1Fixed zoom_min_1 zoom_max_1;;
    set_ylim AxMS1Fixed (Some 0%Q) (Some 15%Q);;
    add_artist AxMS1Zoom (Curve mz_values intensity_percent_fixed);;
    set_xlim AxMS1Zoom zoom_min_2 zoom_max_2;;
    set_xticks AxMS1Zoom [zoom_min_2; zoom_mid_2; zoom_max_2];;
    set_ylim AxMS1Zoom (Some 0%Q) (Some 100%Q);;
    Py.modify (set_status_label (StShowing scan_number)).

Definition process_ms1_data : Py.M Tab unit :=
  t ← Py.get;
  match df t with
  | None => message_box WarnNoData
  | Some d =>
    Py.try_except
      (if negb (has_columns required_cols d)
       then message_box (ErrMissingColumns required_cols)
       else
         Py.modify (set_df (Some (where_level 1 d)));;
         d ← the_df;
         if empty d then message_box ErrNoMS1
         else
           let unique_scans := Py.sorted (unique (scan_number <$> rows d)) in
           let scan_mapping :=
             Py.dict_of_swapped (Py.enumerate 1 unique_scans) in
           Py.modify (set_df (Some (map_scan_number scan_mapping d)));;
           d ← the_df;
           Py.modify (set_df (Some (assign_Max 0 d)));;
           d ← the_df;
           let max_intensity_idx := groupby_idxmax d in
           Py.modify (set_df (Some (loc_assign_Max max_intensity_idx 1 d)));;
           d ← the_df;
           let max_spectra := where_max d in
           Py.modify (set_max_spectrum_intensity
                        (max (intensity <$> rows max_spectra)));;
           (if negb (empty max_spectra) then
              m ← iloc0 (mz <$> rows max_spectra);
              Py.modify (set_max_spectrum_mz_center (Some m))
            else
              Py.modify (set_max_spectrum_mz_center (mean (mz <$> rows d))));;
           let chrom_df := sort_values (groupby_sum d) in
           Py.modify (set_all_scans (chrom_df.*1));;
           clear AxChrom;;
           add_artist AxChrom (Line2D chrom_df);;
           set_title AxChrom "MS1 Chromatogram";;
           setattr "all_mz_min" ((λ m, m - 10)%Q <$> min (mz <$> rows d));;
           setattr "all_mz_max" ((λ m, m + 10)%Q <$> max (mz <$> rows d));;
           setup_spectrum_plots;;
           t ← Py.get;
           Py.modify (set_status_label (StProcessed (length (all_scans t))));;
           if negb (bool_decide (all_scans t = [])) then
             middle_scan ← Py.getitem (all_scans t)
                                      (length (all_scans t) / 2)%nat;
             update_scan middle_scan
           else mret tt)
      (λ e, message_box (ErrProcessing e))
  end.

Definition keyPressEvent (key : Key) : Py.M Tab unit :=
  t ← Py.get;
  match current_scan t with
  | None => mret tt
  | Some cur =>
    if bool_decide (all_scans t = []) then mret tt
    else
      idx ← Py.index cur (all_scans t);
      match key with
      | Key_Left =>
        if bool_decide (0 < idx)%nat then
          s ← Py.getitem (all_scans t) (idx - 1);
          update_scan s
        else mret tt
      | Key_Right =>
        if bool_decide (Z.of_nat idx < Z.of_nat (length (all_scans t)) - 1) then
          s ← Py.getitem (all_scans t) (idx + 1);
          update_scan s
        else mret tt
      | Key_Other => mret tt
      end
  end.

Definition on_click (event : MouseEvent) : Py.M Tab unit :=
  t ← Py.get;
  match df t, inaxes event with
  | Some _, Some AxChrom =>
    match xdata event with
    | None => mret tt
    | Some x_clicked =>
      if bool_decide (all_scans t = []) then mret tt
      else
        let nearest_scan := Py.round x_clicked in
        nearest_scan ←
          (if negb (bool_decide (nearest_scan ∈ all_scans t)) then
             Py.min_key (λ x, Z.abs (x - nearest_scan)) (all_scans t)
           else mret nearest_scan);
        update_scan nearest_scan
    end
  | _, _ => mret tt
  end.

End ZoomViewerTab.

(** ** main.py *)

Module MSAnalysisApp.
Import Pandas.

(** The text of the status bar, by the format string that produced it. *)
Inductive StatusBar : Type :=
| SbReady
| SbLoaded (n_rows n_cols : nat).

Record App : Type := mkApp {
  shared_data : option DataFrame;
  status_bar : StatusBar;
  zoom_viewer_tab : ZoomViewerTab.Tab;
  simple_ms1_tab : SimpleMS1Tab.Tab;
  ms1_ms2_tab : MS1MS2Tab.Tab
}.

Definition set_shared_data v (a : App) : App :=
  mkApp v (status_bar a) (zoom_viewer_tab a) (simple_ms1_tab a) (ms1_ms2_tab a).

Definition set_status_bar v (a : App) : App :=
  mkApp (shared_data a) v (zoom_viewer_tab a) (simple_ms1_tab a) (ms1_ms2_tab a).

Definition set_zoom_viewer_tab v (a : App) : App :=
  mkApp (shared_data a) (status_bar a) v (simple_ms1_tab a) (ms1_ms2_tab a).

Definition set_simple_ms1_tab v (a : App) : App :=
  mkApp (shared_data a) (status_bar a) (zoom_viewer_tab a) v (ms1_ms2_tab a).

Definition set_ms1_ms2_tab v (a : App) : App :=
  mkApp (shared_data a) (status_bar a) (zoom_viewer_tab a) (simple_ms1_tab a) v.

(** A method call on one of the tabs the window owns. *)
Definition on_zoom_viewer_tab {A} (m : Py.M ZoomViewerTab.Tab A) : Py.M App A :=
  λ a, let p := m (zoom_viewer_tab a) in (p.1, set_zoom_viewer_tab p.2 a).

Definition on_simple_ms1_tab {A} (m : Py.M SimpleMS1Tab.Tab A) : Py.M App A :=
  λ a, let p := m (simple_ms1_tab a) in (p.1, set_simple_ms1_tab p.2 a).

Definition on_ms1_ms2_tab {A} (m : Py.M MS1MS2Tab.Tab A) : Py.M App A :=
  λ a, let p := m (ms1_ms2_tab a) in (p.1, set_ms1_ms2_tab p.2 a).

(** The window after [__init__]. *)
Definition init : App :=
  {| shared_data := None; status_bar := SbReady;
     zoom_viewer_tab := ZoomViewerTab.init;
     simple_ms1_tab := SimpleMS1Tab.init;
     ms1_ms2_tab := MS1MS2Tab.init |}.

(** The slot of the loader's [data_loaded] signal.  No slot is connected
    to [data_updated], so emitting it does nothing. *)
Definition on_data_loaded (d : DataFrame) : Py.M App unit :=
  Py.modify (set_shared_data (Some d));;
  Py.modify (set_status_bar (SbLoaded (len d) (length (columns d))));;
  on_zoom_viewer_tab (ZoomViewerTab.set_data d);;
  on_simple_ms1_tab (SimpleMS1Tab.set_data d);;
  on_ms1_ms2_tab (MS1MS2Tab.set_data d).

Definition get_shared_data : Py.M App (option DataFrame) :=
  a ← Py.get; mret (shared_data a).

End MSAnalysisApp.

(** * Vocabulary of the statements *)

Module Spec.
Import Pandas Mpl.

(** A handler leaves an observation of the widget alone. *)
Definition preserves {S A B} (f : S → B) (m : Py.M S A) : Prop :=
  ∀ s, f (m s).2 = f s.

(** An observation of a widget that drawing and lazily created attributes
    do not touch. *)
Class Undrawn {T Ax B} `{Widget T Ax} (f : T → B) : Prop := {
  undrawn_axes a v t : f (set_axes a v t) = f t;
  undrawn_artist n t : f (set_next_artist n t) = f t;
  undrawn_attrs d t : f (set_attrs d t) = f t
}.

(** Weakest precondition of a handler: the postcondition holds of the
    outcome and of the widget it leaves. *)
Definition wp {S A} (m : Py.M S A) (s : S) (Q : Py.Exn + A → S → Prop) : Prop :=
  Q (m s).1 (m s).2.

(** A stored artist handle, when there is one, points into the given axes. *)
Definition handle_on {Ax} (a : Ax) (o : option (Handle Ax)) : Prop :=
  match o with
  | Some h => h.1 = a
  | None => True
  end.

(** Some peak of scan [scan] has MS level [level]. *)
Definition has_level (d : DataFrame) (level scan : Z) : Prop :=
  ∃ r, r ∈ rows d ∧ scan_number r = scan ∧ ms_level r = level.

(** The spectrum of a scan as a [vlines] call draws it. *)
Definition peaks_of (n : Z) (d : DataFrame) : list Q * list (option Q) :=
  (mz <$> rows (where_scan n d), Some ∘ intensity <$> rows (where_scan n d)).

(** The table after the renumbering step of [process_ms1_data]. *)
Definition renumbered (d : DataFrame) : DataFrame :=
  map_scan_number
    (Py.dict_of_swapped
       (Py.enumerate 1 (Py.sorted (unique (scan_number <$> rows d))))) d.

(** The table after the zoom viewer has flagged the top peak of each scan. *)
Definition flagged (d : DataFrame) : DataFrame :=
  loc_assign_Max (groupby_idxmax (assign_Max 0 d)) 1 (assign_Max 0 d).

(** The scan list is the one [process] computes from the stored table. *)
Definition scans_of_table (scans : list Z) (o : option DataFrame) : Prop :=
  ∃ d, o = Some d ∧ scans = (sort_values (groupby_sum d)).*1.

(** A table whose scans are 1 (MS1), 2 (MS2 with precursor m/z 500.0) and
    3 (MS1), with any peaks. *)
Definition dda_example (d : DataFrame) : Prop :=
  required_cols ⊆ columns d
  ∧ "precursor_mz"%string ∈ columns d
  ∧ (∀ r, r ∈ rows d →
       (scan_number r = 1 ∧ ms_level r = 1)
       ∨ (scan_number r = 2 ∧ ms_level r = 2 ∧ precursor_mz r = Some 500%Q)
       ∨ (scan_number r = 3 ∧ ms_level r = 1))
  ∧ (∀ s, s ∈ [1; 2; 3] → ∃ r, r ∈ rows d ∧ scan_number r = s).

End Spec.
Export Spec.

Arguments wp : simpl never.

(** * Concrete sessions *)

Module Examples.
Import Pandas Mpl.

Definition loader_columns : list string :=
  ["scan_number"; "mz"; "intensity"; "ms_level"; "precursor_mz"]%string.

(** Scans 1 (MS1), 2 (MS2, precursor 500.0), 3 (MS1). *)
Definition dda_table : DataFrame :=
  {| columns := loader_columns;
     rows := [ peak 1 100.5 1000 1 None; peak 1 200.25 3000 1 None;
               peak 2 150 500 2 (Some 500%Q); peak 2 250 700 2 (Some 500%Q);
               peak 3 101 2000 1 None ] |}.

(** Scans 1 and 3, both MS1: scan 2 is missing. *)
Definition gap_table : DataFrame :=
  {| columns := loader_columns;
     rows := [ peak 1 100.5 1000 1 None; peak 3 101 2000 1 None ] |}.

(** Scans 0 and 3, both MS1. *)
Definition tie_table : DataFrame :=
  {| columns := loader_columns;
     rows := [ peak 0 100.5 1000 1 None; peak 3 101 2000 1 None ] |}.

(** A targeted run without survey scans: MS2 only. *)
Definition prm_table : DataFrame :=
  {| columns := loader_columns;
     rows := [ peak 1 150 500 2 (Some 500%Q); peak 1 250 700 2 (Some 500%Q);
               peak 2 151 400 2 (Some 500%Q) ] |}.

(** Scans 40 (MS1), 41 (MS2), 42 (MS2). *)
Definition backward_table : DataFrame :=
  {| columns := loader_columns;
     rows := [ peak 40 100.5 1000 1 None;
               peak 41 150 500 2 (Some 445.12%Q);
               peak 42 151 400 2 (Some 519.3%Q) ] |}.

(** MS1 rows with scan numbers 5, 5, 9, 9, 9, 20. *)
Definition sparse_table : DataFrame :=
  {| columns := loader_columns;
     rows := [ peak 5 100 10 1 None; peak 5 101 20 1 None;
               peak 9 100 30 1 None; peak 9 101 40 1 None;
               peak 9 102 50 1 None; peak 20 100 60 1 None ] |}.

Definition click_at (x : Q) : MS1MS2Tab.MouseEvent :=
  MS1MS2Tab.mkMouseEvent (Some MS1MS2Tab.AxChrom) (Some x).

Definition simple_click_at (x : Q) : SimpleMS1Tab.MouseEvent :=
  SimpleMS1Tab.mkMouseEvent (Some SimpleMS1Tab.AxChrom) (Some x).

(** The DDA tab after loading a table and pressing the process button. *)
Definition dda_ready (d : DataFrame) : MS1MS2Tab.Tab :=
  Py.exec MS1MS2Tab.process_data (Py.exec (MS1MS2Tab.set_data d) MS1MS2Tab.init).

(** The MS1 tabs after loading a table and pressing the process button. *)
Definition simple_ready (d : DataFrame) : SimpleMS1Tab.Tab :=
  Py.exec SimpleMS1Tab.process_ms1_data
    (Py.exec (SimpleMS1Tab.set_data d) SimpleMS1Tab.init).

Definition zoom_ready (d : DataFrame) : ZoomViewerTab.Tab :=
  Py.exec ZoomViewerTab.process_ms1_data
    (Py.exec (ZoomViewerTab.set_data d) ZoomViewerTab.init).

End Examples.
Export Examples.

(** * More sessions *)

Module Sessions.
Import Pandas Mpl.

Definition zoom_click_at (x : Q) : ZoomViewerTab.MouseEvent :=
  ZoomViewerTab.mkMouseEvent (Some ZoomViewerTab.AxChrom) (Some x).

(** The DDA tab with scan 2 of the first table selected, after a second
    table (scans 1 and 3) was loaded and processed. *)
Definition dda_reloaded : MS1MS2Tab.Tab :=
  Py.exec MS1MS2Tab.process_data
    (Py.exec (MS1MS2Tab.set_data gap_table)
       (Py.exec (MS1MS2Tab.on_click (click_at 2)) (dda_ready dda_table))).

(** A table with the required columns and no row. *)
Definition no_rows_table : DataFrame :=
  {| columns := loader_columns; rows := [] |}.

(** A table that lacks the intensity column. *)
Definition no_intensity_table : DataFrame :=
  {| columns := ["scan_number"; "mz"; "ms_level"]%string;
     rows := [ peak 1 100.5 0 1 None ] |}.

(** MS1 rows of scans 4 and 7; scan 4 holds its largest intensity twice. *)
Definition plateau_table : DataFrame :=
  {| columns := loader_columns;
     rows := [ peak 4 100 10 1 None; peak 4 101 30 1 None;
               peak 4 102 30 1 None; peak 7 100 5 1 None ] |}.

(** The selection is a listed scan, when there is one. *)
Definition selection_listed (current_scan : option Z) (all_scans : list Z)
  : Prop :=
  ∀ s, current_scan = Some s → s ∈ all_scans.

Definition is_marker (a : Artist) : bool :=
  match a with AxVLine _ => true | _ => false end.

(** The red marker is tracked: the handle kept in [scan_line], if any, is
    an artist identity already handed out, on the chromatogram, where it
    can only refer to a marker line; every marker line on the chromatogram
    is the artist that handle refers to; and the identities on the
    chromatogram have all been handed out already. *)
Definition marker_tracked {Ax} (chrom : Ax) (scan_line : option (Handle Ax))
    (ax : Axes) (next_id : nat) : Prop :=
  handle_on chrom scan_line
  ∧ (∀ h, scan_line = Some h → (h.2 < next_id)%nat)
  ∧ (∀ i x, (i, AxVLine x) ∈ artists ax → scan_line = Some (chrom, i))
  ∧ (∀ i art, scan_line = Some (chrom, i) → (i, art) ∈ artists ax →
              is_marker art = true)
  ∧ (∀ p, p ∈ artists ax → (p.1 < next_id)%nat).

(** The artists of an axes that are not marker lines. *)
Definition other_artists (ax : Axes) : list (nat * Artist) :=
  filter (λ p, is_marker p.2 = false) (artists ax).

(** The scan numbers 1, 2, ..., n. *)
Definition scans_upto (n : nat) : list Z := (λ i, Z.of_nat i + 1) <$> seq 0 n.

End Sessions.
Export Sessions.

Import Pandas Mpl.

(** * Proofs *)

Lemma round_inject_Z (k : Z) : Py.round (inject_Z k) = k.
Proof.
  unfold Py.round. rewrite Qfloor_Z.
  replace (inject_Z k - inject_Z k ?= 1 # 2)%Q with Lt; [done|].
  symmetry. rewrite <- Qlt_alt. generalize (inject_Z k). intros q. lra.
Qed.

Lemma round_nearest (x : Q) : (Qabs (x - inject_Z (Py.round x)) <= 1 # 2)%Q.
Proof.
  unfold Py.round.
  pose proof (Qfloor_le x) as Hlo. pose proof (Qlt_floor x) as Hhi.
  set (f := Qfloor x) in *.
  assert (Hf1 : (inject_Z (f + 1) == inject_Z f + 1)%Q)
    by (rewrite inject_Z_plus; reflexivity).
  rewrite Hf1 in Hhi.
  destruct (Qcompare_spec (x - inject_Z f) (1 # 2)) as [He|Hl|Hg];
    [destruct (Z.even f)|..]; rewrite ?Hf1;
    set (q := inject_Z f) in *; clearbody q;
    apply Qabs_Qle_condition; lra.
Qed.

Lemma round_proper (x y : Q) : (x == y)%Q → Py.round x = Py.round y.
Proof.
  intros E. unfold Py.round. rewrite (Qfloor_comp _ _ E).
  replace (x - inject_Z (Qfloor y) ?= 1 # 2)%Q
    with (y - inject_Z (Qfloor y) ?= 1 # 2)%Q; [done|].
  apply Qcompare_comp; [rewrite E|]; reflexivity.
Qed.

(** ** [min(l, key=...)] *)

Lemma min_loop_cases key best l :
  Py.min_loop key best l = best ∨
  (Py.min_loop key best l ∈ l ∧ key (Py.min_loop key best l) < key best).
Proof.
  revert best. induction l as [|y l IH]; intros best; simpl; [by left|].
  destruct (Z.ltb_spec (key y) (key best)) as [Hlt|Hge].
  - right. destruct (IH y) as [->|[Hin Hk]].
    + split; [left|done].
    + split; [by right|lia].
  - destruct (IH best) as [->|[Hin Hk]]; [by left|].
    right. split; [by right|done].
Qed.

Lemma min_loop_elem key best l : Py.min_loop key best l ∈ best :: l.
Proof.
  destruct (min_loop_cases key best l) as [->|[Hin _]]; [left|by right].
Qed.

Lemma min_loop_le key best l y :
  y ∈ best :: l → key (Py.min_loop key best l) ≤ key y.
Proof.
  revert best y. induction l as [|y0 l IH]; intros best y Hy; simpl.
  - apply list_elem_of_singleton in Hy as ->. lia.
  - destruct (Z.ltb_spec (key y0) (key best)) as [Hlt|Hge].
    + apply elem_of_cons in Hy as [->|Hy].
      * pose proof (IH y0 y0 ltac:(left)). lia.
      * by apply IH.
    + apply elem_of_cons in Hy as [->|Hy]; [apply IH; left|].
      apply elem_of_cons in Hy as [->|Hy].
      * pose proof (IH best best ltac:(left)). lia.
      * apply IH. by right.
Qed.

(** In an ascending list the first minimum is the smallest of the minima. *)
Lemma min_loop_first key best l y :
  StronglySorted Z.lt (best :: l) →
  y ∈ best :: l → key y = key (Py.min_loop key best l) →
  Py.min_loop key best l ≤ y.
Proof.
  intros Hs. assert (Hb : Forall (Z.lt best) l) by (by inversion Hs).
  assert (Hl : StronglySorted Z.lt l) by (by inversion Hs). clear Hs.
  revert best Hb. induction Hl as [|y0 l Hl IH Hy0]; intros best Hb Hy Hk; simpl in *.
  - apply list_elem_of_singleton in Hy as ->. lia.
  - inversion Hb as [|?? Hby0 Hbl]; subst.
    destruct (Z.ltb_spec (key y0) (key best)) as [Hlt|Hge].
    + apply elem_of_cons in Hy as [->|Hy]; [|by apply IH].
      pose proof (min_loop_le key y0 l y0 ltac:(left)). lia.
    + apply elem_of_cons in Hy as [->|Hy]; [apply IH; [done|left|done]|].
      apply elem_of_cons in Hy as [->|Hy]; [|apply IH; [done|by right|done]].
      destruct (min_loop_cases key best l) as [E|[_ Hlt]]; [|lia].
      rewrite E. lia.
Qed.

Lemma nearest_resolves {S} (scans : list Z) (r : Z) (s : S) :
  scans ≠ [] →
  ∃ n, (if negb (bool_decide (r ∈ scans))
        then Py.min_key (λ x, Z.abs (x - r)) scans
        else mret r) s = (inr n, s)
       ∧ n ∈ scans
       ∧ (r ∈ scans → n = r)
       ∧ (∀ y, y ∈ scans → Z.abs (n - r) ≤ Z.abs (y - r))
       ∧ (StronglySorted Z.lt scans →
          ∀ y, y ∈ scans → Z.abs (y - r) = Z.abs (n - r) → n ≤ y).
Proof.
  intros Hne. case_bool_decide as Hin; simpl.
  - exists r. split; [reflexivity|]. split_and!; [done|done| |].
    + intros y _. lia.
    + intros _ y _ Hy. lia.
  - destruct scans as [|b l]; [done|]. simpl.
    exists (Py.min_loop (λ x, Z.abs (x - r)) b l).
    split; [reflexivity|]. split_and!.
    + apply min_loop_elem.
    + done.
    + intros y Hy. by apply (min_loop_le (λ x, Z.abs (x - r))).
    + intros Hs y Hy Hk. by apply (min_loop_first (λ x, Z.abs (x - r))).
Qed.

(** ** Running handlers *)

Lemma run_bind {S A B} (m : Py.M S A) (k : A → Py.M S B) s x s' :
  m s = (inr x, s') → (m ≫= k) s = k x s'.
Proof. intros H. unfold mbind, Py_bind, Py.bind. by rewrite H. Qed.

Lemma run_bind_raise {S A B} (m : Py.M S A) (k : A → Py.M S B) s e s' :
  m s = (inl e, s') → (m ≫= k) s = (inl e, s').
Proof. intros H. unfold mbind, Py_bind, Py.bind. by rewrite H. Qed.

Lemma run_get {S B} (k : S → Py.M S B) s : (Py.get ≫= k) s = k s s.
Proof. done. Qed.

Lemma run_modify {S B} (f : S → S) (k : unit → Py.M S B) s :
  (Py.modify f ≫= k) s = k tt (f s).
Proof. done. Qed.

Lemma run_ret {S A B} (x : A) (k : A → Py.M S B) s : (mret x ≫= k) s = k x s.
Proof. done. Qed.

Lemma run_assoc {S A B C} (m : Py.M S A) (k1 : A → Py.M S B)
    (k2 : B → Py.M S C) s :
  ((m ≫= k1) ≫= k2) s = (m ≫= λ x, k1 x ≫= k2) s.
Proof. unfold mbind, Py_bind, Py.bind. by destruct (m s) as [[?|?] ?]. Qed.

(** ** Frame conditions: what a handler leaves alone *)

Section Preserves.
Context {S B : Type} (f : S → B).

Lemma preserves_ret {A} (x : A) : preserves f (mret x : Py.M S A).
Proof. by intros s. Qed.

Lemma preserves_raise {A} e : preserves f (Py.raise e : Py.M S A).
Proof. by intros s. Qed.

Lemma preserves_get : preserves f (Py.get : Py.M S S).
Proof. by intros s. Qed.

Lemma preserves_modify g : (∀ s, f (g s) = f s) → preserves f (Py.modify g).
Proof. intros H s. apply H. Qed.

Lemma preserves_bind {A C} (m : Py.M S A) (k : A → Py.M S C) :
  preserves f m → (∀ x, preserves f (k x)) → preserves f (m ≫= k).
Proof.
  intros Hm Hk s. unfold mbind, Py_bind, Py.bind.
  specialize (Hm s). destruct (m s) as [[e|x] s']; simpl in *; [done|].
  by rewrite Hk.
Qed.

Lemma preserves_try_except {A} (m : Py.M S A) h :
  preserves f m → (∀ e, preserves f (h e)) → preserves f (Py.try_except m h).
Proof.
  intros Hm Hh s. unfold Py.try_except.
  specialize (Hm s). destruct (m s) as [[e|x] s']; simpl in *; [|done].
  by rewrite Hh.
Qed.

Lemma preserves_min_key key l : preserves f (Py.min_key key l : Py.M S Z).
Proof. destruct l; by intros s. Qed.

Lemma preserves_index x l : preserves f (Py.index x l : Py.M S nat).
Proof. unfold Py.index. by destruct (list_find _ l) as [[??]|]; intros s. Qed.

Lemma preserves_getitem {A} (l : list A) i : preserves f (Py.getitem l i : Py.M S A).
Proof. unfold Py.getitem. by destruct (l !! i); intros s. Qed.

Lemma preserves_getcol name d : preserves f (getcol name d : Py.M S unit).
Proof. unfold getcol. by case_bool_decide; intros s. Qed.

Lemma preserves_iloc0 {A} (l : list A) : preserves f (iloc0 l : Py.M S A).
Proof. by destruct l; intros s. Qed.
End Preserves.

Section PreservesMpl.
Context {T Ax B : Type} `{Widget T Ax} (f : T → B) `{!Undrawn f}.

Lemma preserves_on_axes a g : preserves f (on_axes a g).
Proof. intros s. apply undrawn_axes. Qed.

Lemma preserves_clear a : preserves f (clear a).
Proof. apply preserves_on_axes. Qed.

Lemma preserves_set_title a s : preserves f (set_title a s).
Proof. apply preserves_on_axes. Qed.

Lemma preserves_remove_artist h : preserves f (remove_artist h).
Proof. apply preserves_on_axes. Qed.

Lemma preserves_set_xticks a l : preserves f (set_xticks a l).
Proof. apply preserves_on_axes. Qed.

Lemma preserves_get_title a : preserves f (get_title a).
Proof. by intros s. Qed.

Lemma preserves_add_artist a art : preserves f (add_artist a art).
Proof. intros s. cbn. by rewrite undrawn_artist, undrawn_axes. Qed.

Lemma preserves_set_xlim a lo hi : preserves f (set_xlim a lo hi).
Proof.
  unfold set_xlim.
  destruct lo, hi; cbn; first [apply preserves_on_axes | apply preserves_raise].
Qed.

Lemma preserves_set_ylim a lo hi : preserves f (set_ylim a lo hi).
Proof.
  unfold set_ylim.
  destruct lo, hi; cbn; first [apply preserves_on_axes | apply preserves_raise].
Qed.

Lemma preserves_getattr name : preserves f (getattr name).
Proof.
  intros s. unfold getattr. rewrite run_get. by destruct (attrs s !! name).
Qed.

Lemma preserves_setattr name v : preserves f (setattr name v).
Proof. intros s. apply undrawn_attrs. Qed.
End PreservesMpl.

Create HintDb frame discriminated.

#[global] Hint Resolve preserves_ret preserves_raise preserves_get
  preserves_min_key preserves_index preserves_getitem preserves_getcol
  preserves_iloc0 preserves_clear preserves_set_title preserves_remove_artist
  preserves_set_xticks preserves_get_title preserves_add_artist
  preserves_set_xlim preserves_set_ylim preserves_getattr preserves_setattr
  preserves_on_axes : frame.

#[global] Hint Extern 1 (Undrawn _) => typeclasses eauto : frame.

(** Decompose a handler along its binds and branches. *)
Ltac frame :=
  repeat first
    [ progress intros
    | solve [eauto with frame]
    | apply preserves_modify; intros; reflexivity
    | apply preserves_bind
    | apply preserves_try_except
    | match goal with
      | |- preserves _ (let _ := _ in _) => cbv zeta
      | |- preserves _ (if ?b then _ else _) => destruct b
      | |- preserves _ (match ?x with _ => _ end) => destruct x
      end ].

(** ** [unique], [sorted], [enumerate] and the renumbering dictionary *)

Lemma unique_loop_elem (l acc : list Z) x :
  x ∈ foldl (λ seen y, if decide (y ∈ seen) then seen else seen ++ [y]) acc l
  ↔ x ∈ acc ∨ x ∈ l.
Proof.
  revert acc. induction l as [|y l IH]; intros acc; simpl.
  - rewrite elem_of_nil. tauto.
  - rewrite IH, elem_of_cons. destruct (decide (y ∈ acc)) as [Hy|Hy].
    + split; [tauto|]. intros [?|[->|?]]; tauto.
    + rewrite elem_of_app, list_elem_of_singleton. tauto.
Qed.

Lemma unique_loop_NoDup (l acc : list Z) :
  NoDup acc →
  NoDup (foldl (λ seen y, if decide (y ∈ seen) then seen else seen ++ [y]) acc l).
Proof.
  revert acc. induction l as [|y l IH]; intros acc Hacc; simpl; [done|].
  apply IH. destruct (decide (y ∈ acc)) as [Hy|Hy]; [done|].
  apply NoDup_app. split_and!; [done| |apply NoDup_singleton].
  intros z Hz ->%list_elem_of_singleton. done.
Qed.

Lemma unique_elem (l : list Z) x : x ∈ unique l ↔ x ∈ l.
Proof. unfold unique. rewrite unique_loop_elem, elem_of_nil. tauto. Qed.

Lemma unique_NoDup (l : list Z) : NoDup (unique l).
Proof. apply unique_loop_NoDup, NoDup_nil_2. Qed.

Lemma sorted_elem (l : list Z) x : x ∈ Py.sorted l ↔ x ∈ l.
Proof. unfold Py.sorted. by rewrite merge_sort_Permutation. Qed.

Lemma sorted_ascending (l : list Z) : StronglySorted Z.le (Py.sorted l).
Proof. apply (StronglySorted_merge_sort Z.le). Qed.

Lemma sorted_NoDup (l : list Z) : NoDup l → NoDup (Py.sorted l).
Proof. unfold Py.sorted. by rewrite merge_sort_Permutation. Qed.

Lemma StronglySorted_le_lt (l : list Z) :
  StronglySorted Z.le l → NoDup l → StronglySorted Z.lt l.
Proof.
  induction 1 as [|x l Hl IH Hx]; intros Hnd; constructor.
  - apply IH. by apply NoDup_cons in Hnd as [_ ?].
  - apply NoDup_cons in Hnd as [Hxl _].
    apply Forall_forall. intros y Hy.
    rewrite Forall_forall in Hx. specialize (Hx y Hy).
    assert (x ≠ y) by (intros ->; done). lia.
Qed.

(** The distinct scan numbers of a column, ascending: the keys of the
    chromatogram and the domain of the renumbering. *)
Lemma unique_scans_ascending (col : list Z) :
  StronglySorted Z.lt (Py.sorted (unique col)).
Proof.
  apply StronglySorted_le_lt; [apply sorted_ascending|].
  apply sorted_NoDup, unique_NoDup.
Qed.

Lemma unique_scans_elem (col : list Z) x :
  x ∈ Py.sorted (unique col) ↔ x ∈ col.
Proof. by rewrite sorted_elem, unique_elem. Qed.

Lemma StronglySorted_lt_NoDup (l : list Z) : StronglySorted Z.lt l → NoDup l.
Proof.
  induction 1 as [|x l Hl IH Hx]; constructor; [|done].
  intros Hin. rewrite Forall_forall in Hx. specialize (Hx x Hin). lia.
Qed.

Lemma StronglySorted_lt_lookup (l : list Z) i j a b :
  StronglySorted Z.lt l → l !! i = Some a → l !! j = Some b →
  (a < b ↔ (i < j)%nat).
Proof.
  intros Hs. revert i j. induction Hs as [|x l Hl IH Hx]; intros i j Hi Hj.
  - done.
  - rewrite Forall_forall in Hx.
    destruct i as [|i], j as [|j]; simpl in *; simplify_eq.
    + lia.
    + pose proof (Hx b (list_elem_of_lookup_2 _ _ _ Hj)). lia.
    + pose proof (Hx a (list_elem_of_lookup_2 _ _ _ Hi)). lia.
    + rewrite (IH i j Hi Hj). lia.
Qed.

(** Two ascending lists with the same elements are the same list. *)
Lemma StronglySorted_lt_unique (l1 l2 : list Z) :
  StronglySorted Z.lt l1 → StronglySorted Z.lt l2 →
  (∀ x, x ∈ l1 ↔ x ∈ l2) → l1 = l2.
Proof.
  intros H1. revert l2. induction H1 as [|x l1 Hl1 IH Hx]; intros l2 H2 Heq.
  - destruct l2 as [|y l2]; [done|].
    exfalso. apply (elem_of_nil y). apply Heq. left.
  - destruct H2 as [|y l2 Hl2 Hy].
    { exfalso. apply (elem_of_nil x). apply Heq. left. }
    rewrite Forall_forall in Hx, Hy.
    assert (x = y) as ->.
    { assert (Hx' : x ∈ y :: l2) by (apply Heq; left).
      assert (Hy' : y ∈ x :: l1) by (apply Heq; left).
      apply elem_of_cons in Hx' as [?|Hx']; [done|].
      apply elem_of_cons in Hy' as [?|Hy']; [done|].
      pose proof (Hx _ Hy'). pose proof (Hy _ Hx'). lia. }
    f_equal. apply IH; [done|]. intros z. split; intros Hz.
    + assert (Hz' : z ∈ y :: l2) by (apply Heq; by right).
      apply elem_of_cons in Hz' as [->|?]; [|done].
      pose proof (Hx _ Hz). lia.
    + assert (Hz' : z ∈ y :: l1) by (apply Heq; by right).
      apply elem_of_cons in Hz' as [->|?]; [|done].
      pose proof (Hy _ Hz). lia.
Qed.

Lemma enumerate_length {A} k (l : list A) : length (Py.enumerate k l) = length l.
Proof. revert k. induction l; intros k; simpl; [done|]. by rewrite IHl. Qed.

Lemma dict_loop_absent (l : list Z) (m : gmap Z Z) k old :
  old ∉ l →
  foldl (λ d p, <[p.2 := p.1]> d) m (Py.enumerate k l) !! old = m !! old.
Proof.
  revert m k. induction l as [|x l IH]; intros m k Hold; simpl; [done|].
  apply not_elem_of_cons in Hold as [Hne Hold].
  rewrite IH by done. by rewrite lookup_insert_ne.
Qed.

Lemma dict_loop_present (l : list Z) (m : gmap Z Z) k i old :
  NoDup l → l !! i = Some old →
  foldl (λ d p, <[p.2 := p.1]> d) m (Py.enumerate k l) !! old
  = Some (k + Z.of_nat i).
Proof.
  intros Hnd. revert m k i.
  induction Hnd as [|x l Hx Hnd IH]; intros m k i Hi; [done|].
  destruct i as [|i]; simpl in *.
  - simplify_eq. rewrite dict_loop_absent by done.
    rewrite lookup_insert_eq. f_equal. lia.
  - rewrite (IH _ _ i) by done. f_equal. lia.
Qed.

Lemma scan_mapping_lookup (us : list Z) i old :
  NoDup us →
  us !! i = Some old ↔
  Py.dict_of_swapped (Py.enumerate 1 us) !! old = Some (Z.of_nat i + 1).
Proof.
  intros Hnd. unfold Py.dict_of_swapped. split.
  - intros Hi. rewrite (dict_loop_present _ _ _ i) by done. f_equal. lia.
  - intros Hm. destruct (decide (old ∈ us)) as [Hin|Hout].
    + apply list_elem_of_lookup in Hin as [j Hj].
      rewrite (dict_loop_present _ _ _ j) in Hm by done.
      assert (i = j) as -> by (simplify_eq; lia). done.
    + rewrite dict_loop_absent in Hm by done. done.
Qed.

Lemma scan_mapping_dom (us : list Z) old :
  NoDup us →
  is_Some (Py.dict_of_swapped (Py.enumerate 1 us) !! old) ↔ old ∈ us.
Proof.
  intros Hnd. split.
  - intros [v Hv]. destruct (decide (old ∈ us)) as [|Hout]; [done|].
    unfold Py.dict_of_swapped in Hv. by rewrite dict_loop_absent in Hv.
  - intros [i Hi]%list_elem_of_lookup. eexists. by apply scan_mapping_lookup.
Qed.

Lemma scan_mapping_range (us : list Z) old new :
  NoDup us →
  Py.dict_of_swapped (Py.enumerate 1 us) !! old = Some new →
  1 ≤ new ≤ Z.of_nat (length us).
Proof.
  intros Hnd Hm.
  assert (Hin : old ∈ us) by (apply scan_mapping_dom; eauto).
  apply list_elem_of_lookup in Hin as [i Hi].
  pose proof (lookup_lt_Some _ _ _ Hi).
  apply scan_mapping_lookup in Hi; [|done]. simplify_eq. lia.
Qed.

(** ** Dense renumbering of scan numbers *)

Section Renumber.
Variable d : DataFrame.

Local Abbreviation unique_scans := (Py.sorted (unique (scan_number <$> rows d))).
Local Abbreviation scan_mapping :=
(Py.dict_of_swapped (Py.enumerate 1 unique_scans)).

Lemma unique_scans_NoDup : NoDup unique_scans.
Proof. apply StronglySorted_lt_NoDup, unique_scans_ascending. Qed.

Lemma renumber_lookup_total r :
r ∈ rows d → is_Some (scan_mapping !! scan_number r).
Proof.
intros Hr. apply scan_mapping_dom; [apply unique_scans_NoDup|].
apply unique_scans_elem. by apply list_elem_of_fmap_2.
Qed.

Lemma renumber_monotone a b na nb :
scan_mapping !! a = Some na → scan_mapping !! b = Some nb →
(a < b ↔ na < nb).
Proof.
intros Ha Hb. pose proof unique_scans_NoDup as Hnd.
assert (Hia : a ∈ unique_scans) by (apply scan_mapping_dom; eauto).
assert (Hib : b ∈ unique_scans) by (apply scan_mapping_dom; eauto).
apply list_elem_of_lookup in Hia as [i Hi].
apply list_elem_of_lookup in Hib as [j Hj].
rewrite (StronglySorted_lt_lookup _ i j a b
           (unique_scans_ascending _) Hi Hj).
apply scan_mapping_lookup in Hi; [|done].
apply scan_mapping_lookup in Hj; [|done].
fold scan_mapping in Hi, Hj. simplify_eq. lia.
Qed.

Lemma renumber_injective a b n :
scan_mapping !! a = Some n → scan_mapping !! b = Some n → a = b.
Proof.
intros Ha Hb.
pose proof (renumber_monotone a b n n Ha Hb).
pose proof (renumber_monotone b a n n Hb Ha). lia.
Qed.

(** The rows of a renumbered scan are the rows of the old scan, in the
  same order, with nothing but the scan number changed. *)
Lemma renumber_group old new :
scan_mapping !! old = Some new →
rows (where_scan new (map_scan_number scan_mapping d))
= with_scan_number new <$> rows (where_scan old d).
Proof.
intros Hm. unfold where_scan, map_scan_number. simpl.
pose proof renumber_lookup_total as Htot.
pose proof renumber_injective as Hinj.
set (m := Py.dict_of_swapped _) in *. clearbody m.
revert Htot. generalize (rows d). intros l.
induction l as [|r l IH]; intros Htot; [done|].
rewrite fmap_cons, !filter_cons.
destruct (Htot r ltac:(left)) as [nr Hnr]. rewrite Hnr. simpl.
assert (IH' := IH (λ r' Hr', Htot r' ltac:(by right))).
destruct (decide (scan_number r = old)) as [Ho|Ho].
- assert (nr = new) as -> by (subst old; congruence).
  rewrite decide_True by done. by rewrite fmap_cons, IH'.
- rewrite decide_False; [done|].
  intros ->. apply Ho. by apply (Hinj _ _ new).
Qed.

Lemma renumber_count old new :
scan_mapping !! old = Some new →
length (rows (where_scan new (map_scan_number scan_mapping d)))
= length (rows (where_scan old d)).
Proof. intros Hm. by rewrite (renumber_group old new), length_fmap. Qed.

Lemma renumber_column :
scan_number <$> rows (map_scan_number scan_mapping d)
= (λ s, default s (scan_mapping !! s)) <$> (scan_number <$> rows d).
Proof.
unfold map_scan_number. simpl. rewrite <- !list_fmap_compose.
apply list_fmap_ext. intros i r _. simpl.
by destruct (scan_mapping !! scan_number r).
Qed.

Lemma renumber_dense n :
n ∈ scan_number <$> rows (map_scan_number scan_mapping d)
↔ 1 ≤ n ≤ Z.of_nat (length unique_scans).
Proof.
pose proof unique_scans_NoDup as Hnd.
rewrite renumber_column. rewrite list_elem_of_fmap. split.
- intros (s & -> & Hs).
  assert (Hin : s ∈ unique_scans) by (by apply unique_scans_elem).
  apply scan_mapping_dom in Hin as [v Hv]; [|done].
  fold scan_mapping in Hv. rewrite Hv. simpl.
  by apply (scan_mapping_range unique_scans s).
- intros Hn.
  destruct (lookup_lt_is_Some_2 unique_scans (Z.to_nat (n - 1)))
    as [old Hold]; [lia|].
  exists old. split.
  + apply scan_mapping_lookup in Hold; [|done].
    fold scan_mapping in Hold. rewrite Hold. simpl. lia.
  + apply unique_scans_elem. by eapply list_elem_of_lookup_2.
Qed.
End Renumber.

(** ** Frame conditions of the three tabs *)

#[global] Instance simple_df_undrawn : Undrawn SimpleMS1Tab.df.
Proof. by split. Qed.

#[global] Instance simple_all_scans_undrawn : Undrawn SimpleMS1Tab.all_scans.
Proof. by split. Qed.

#[global] Instance simple_current_scan_undrawn : Undrawn SimpleMS1Tab.current_scan.
Proof. by split. Qed.

Lemma simple_the_df_preserves {B} (f : SimpleMS1Tab.Tab → B) : preserves f SimpleMS1Tab.the_df.
Proof. unfold SimpleMS1Tab.the_df. frame. Qed.

Lemma simple_safe_remove_artist_preserves {B} (f : SimpleMS1Tab.Tab → B) `{!Undrawn f} h :
  preserves f (SimpleMS1Tab.safe_remove_artist h).
Proof. unfold SimpleMS1Tab.safe_remove_artist. frame. Qed.

Lemma simple_setup_spectrum_plots_preserves {B} (f : SimpleMS1Tab.Tab → B) `{!Undrawn f} :
  preserves f SimpleMS1Tab.setup_spectrum_plots.
Proof. unfold SimpleMS1Tab.setup_spectrum_plots. frame. Qed.

#[global] Hint Resolve simple_the_df_preserves simple_safe_remove_artist_preserves
  simple_setup_spectrum_plots_preserves : frame.

Lemma simple_update_scan_df n : preserves SimpleMS1Tab.df (SimpleMS1Tab.update_scan n).
Proof. unfold SimpleMS1Tab.update_scan. frame. Qed.

Lemma simple_update_scan_all_scans n :
  preserves SimpleMS1Tab.all_scans (SimpleMS1Tab.update_scan n).
Proof. unfold SimpleMS1Tab.update_scan. frame. Qed.

#[global] Hint Resolve simple_update_scan_df simple_update_scan_all_scans : frame.

Lemma simple_update_scan_current n t :
  SimpleMS1Tab.current_scan (Py.exec (SimpleMS1Tab.update_scan n) t) = Some n.
Proof.
  unfold Py.exec, SimpleMS1Tab.update_scan. rewrite run_modify.
  match goal with |- SimpleMS1Tab.current_scan (?m _).2 = _ =>
    assert (Hp : preserves SimpleMS1Tab.current_scan m) by frame end.
  by rewrite Hp.
Qed.

#[global] Instance zoom_df_undrawn : Undrawn ZoomViewerTab.df.
Proof. by split. Qed.

#[global] Instance zoom_all_scans_undrawn : Undrawn ZoomViewerTab.all_scans.
Proof. by split. Qed.

#[global] Instance zoom_current_scan_undrawn : Undrawn ZoomViewerTab.current_scan.
Proof. by split. Qed.

Lemma zoom_the_df_preserves {B} (f : ZoomViewerTab.Tab → B) : preserves f ZoomViewerTab.the_df.
Proof. unfold ZoomViewerTab.the_df. frame. Qed.

Lemma zoom_safe_remove_artist_preserves {B} (f : ZoomViewerTab.Tab → B) `{!Undrawn f} h :
  preserves f (ZoomViewerTab.safe_remove_artist h).
Proof. unfold ZoomViewerTab.safe_remove_artist. frame. Qed.

Lemma zoom_setup_spectrum_plots_preserves {B} (f : ZoomViewerTab.Tab → B) `{!Undrawn f} :
  preserves f ZoomViewerTab.setup_spectrum_plots.
Proof. unfold ZoomViewerTab.setup_spectrum_plots. frame. Qed.

#[global] Hint Resolve zoom_the_df_preserves zoom_safe_remove_artist_preserves
  zoom_setup_spectrum_plots_preserves : frame.

Lemma zoom_update_scan_df n : preserves ZoomViewerTab.df (ZoomViewerTab.update_scan n).
Proof. unfold ZoomViewerTab.update_scan. frame. Qed.

Lemma zoom_update_scan_all_scans n :
  preserves ZoomViewerTab.all_scans (ZoomViewerTab.update_scan n).
Proof. unfold ZoomViewerTab.update_scan. frame. Qed.

#[global] Hint Resolve zoom_update_scan_df zoom_update_scan_all_scans : frame.

Lemma zoom_update_scan_current n t :
  ZoomViewerTab.current_scan (Py.exec (ZoomViewerTab.update_scan n) t) = Some n.
Proof.
  unfold Py.exec, ZoomViewerTab.update_scan. rewrite run_modify.
  match goal with |- ZoomViewerTab.current_scan (?m _).2 = _ =>
    assert (Hp : preserves ZoomViewerTab.current_scan m) by frame end.
  by rewrite Hp.
Qed.

#[global] Instance ms1ms2_df_undrawn : Undrawn MS1MS2Tab.df.
Proof. by split. Qed.

#[global] Instance ms1ms2_all_scans_undrawn : Undrawn MS1MS2Tab.all_scans.
Proof. by split. Qed.

#[global] Instance ms1ms2_current_scan_undrawn : Undrawn MS1MS2Tab.current_scan.
Proof. by split. Qed.

Lemma ms1ms2_the_df_preserves {B} (f : MS1MS2Tab.Tab → B) : preserves f MS1MS2Tab.the_df.
Proof. unfold MS1MS2Tab.the_df. frame. Qed.

Lemma ms1ms2_safe_remove_artist_preserves {B} (f : MS1MS2Tab.Tab → B) `{!Undrawn f} h :
  preserves f (MS1MS2Tab.safe_remove_artist h).
Proof. unfold MS1MS2Tab.safe_remove_artist. frame. Qed.

Lemma ms1ms2_setup_spectrum_plots_preserves {B} (f : MS1MS2Tab.Tab → B) `{!Undrawn f} :
  preserves f MS1MS2Tab.setup_spectrum_plots.
Proof. unfold MS1MS2Tab.setup_spectrum_plots. frame. Qed.

#[global] Hint Resolve ms1ms2_the_df_preserves ms1ms2_safe_remove_artist_preserves
  ms1ms2_setup_spectrum_plots_preserves : frame.

Lemma ms1ms2_update_scan_df n : preserves MS1MS2Tab.df (MS1MS2Tab.update_scan n).
Proof. unfold MS1MS2Tab.update_scan. frame. Qed.

Lemma ms1ms2_update_scan_all_scans n :
  preserves MS1MS2Tab.all_scans (MS1MS2Tab.update_scan n).
Proof. unfold MS1MS2Tab.update_scan. frame. Qed.

#[global] Hint Resolve ms1ms2_update_scan_df ms1ms2_update_scan_all_scans : frame.

Lemma ms1ms2_update_scan_current n t :
  MS1MS2Tab.current_scan (Py.exec (MS1MS2Tab.update_scan n) t) = Some n.
Proof.
  unfold Py.exec, MS1MS2Tab.update_scan. rewrite run_modify.
  match goal with |- MS1MS2Tab.current_scan (?m _).2 = _ =>
    assert (Hp : preserves MS1MS2Tab.current_scan m) by frame end.
  by rewrite Hp.
Qed.

Lemma simple_run_the_df {B} d (k : DataFrame → Py.M SimpleMS1Tab.Tab B) s :
  SimpleMS1Tab.df s = Some d → (SimpleMS1Tab.the_df ≫= k) s = k d s.
Proof.
  intros E. unfold SimpleMS1Tab.the_df.
  unfold mbind, Py_bind, Py.bind at 1 2. cbn. by rewrite E.
Qed.

Lemma simple_run_safe_remove_artist {B} h
    (k : option (Handle SimpleMS1Tab.Ax) → Py.M SimpleMS1Tab.Tab B) s :
  (SimpleMS1Tab.safe_remove_artist h ≫= k) s
  = k None (Py.exec (SimpleMS1Tab.safe_remove_artist h) s).
Proof. by destruct h. Qed.

Lemma zoom_run_the_df {B} d (k : DataFrame → Py.M ZoomViewerTab.Tab B) s :
  ZoomViewerTab.df s = Some d → (ZoomViewerTab.the_df ≫= k) s = k d s.
Proof.
  intros E. unfold ZoomViewerTab.the_df.
  unfold mbind, Py_bind, Py.bind at 1 2. cbn. by rewrite E.
Qed.

Lemma zoom_run_safe_remove_artist {B} h
    (k : option (Handle ZoomViewerTab.Ax) → Py.M ZoomViewerTab.Tab B) s :
  (ZoomViewerTab.safe_remove_artist h ≫= k) s
  = k None (Py.exec (ZoomViewerTab.safe_remove_artist h) s).
Proof. by destruct h. Qed.

Lemma ms1ms2_run_the_df {B} d (k : DataFrame → Py.M MS1MS2Tab.Tab B) s :
  MS1MS2Tab.df s = Some d → (MS1MS2Tab.the_df ≫= k) s = k d s.
Proof.
  intros E. unfold MS1MS2Tab.the_df.
  unfold mbind, Py_bind, Py.bind at 1 2. cbn. by rewrite E.
Qed.

Lemma ms1ms2_run_safe_remove_artist {B} h
    (k : option (Handle MS1MS2Tab.Ax) → Py.M MS1MS2Tab.Tab B) s :
  (MS1MS2Tab.safe_remove_artist h ≫= k) s
  = k None (Py.exec (MS1MS2Tab.safe_remove_artist h) s).
Proof. by destruct h. Qed.

(** ** Stepping through drawing calls *)

Section RunMpl.
Context {T Ax : Type} `{Widget T Ax}.

Lemma run_on_axes {B} (a : Ax) f (k : unit → Py.M T B) s :
  (on_axes a f ≫= k) s = k tt (set_axes a (f (get_axes a s)) s).
Proof. done. Qed.

Lemma run_add_artist {B} (a : Ax) art (k : Handle Ax → Py.M T B) s :
  (add_artist a art ≫= k) s
  = k (a, next_artist s)
      (set_next_artist (S (next_artist s))
         (set_axes a
            (with_artists (artists (get_axes a s) ++ [(next_artist s, art)])
                          (get_axes a s)) s)).
Proof. done. Qed.

Lemma run_getattr {B} name v (k : option Q → Py.M T B) s :
  attrs s !! name = Some v → (getattr name ≫= k) s = k v s.
Proof.
  intros E. unfold getattr.
  unfold mbind, Py_bind, Py.bind at 1 2. cbn. by rewrite E.
Qed.

Lemma run_setattr {B} name v (k : unit → Py.M T B) s :
  (setattr name v ≫= k) s = k tt (set_attrs (<[name := v]> (attrs s)) s).
Proof. done. Qed.

Lemma run_get_title {B} a (k : string → Py.M T B) s :
  (get_title a ≫= k) s = k (title (get_axes a s)) s.
Proof. done. Qed.
End RunMpl.

Lemma run_getcol {S B} name d (k : unit → Py.M S B) s :
  name ∈ columns d → (getcol name d ≫= k) s = k tt s.
Proof. intros E. unfold getcol. by rewrite bool_decide_eq_true_2. Qed.

Lemma empty_false d name :
  name ∈ columns d → rows d ≠ [] → empty d = false.
Proof.
  intros Hc Hr. unfold empty.
  rewrite (bool_decide_eq_false_2 (rows d = [])) by done.
  apply bool_decide_eq_false_2. intros E. rewrite E in Hc.
  by apply elem_of_nil in Hc.
Qed.

Lemma empty_true d : rows d = [] → empty d = true.
Proof. intros Hr. unfold empty. by rewrite bool_decide_eq_true_2. Qed.

Ltac py_step :=
  first
    [ rewrite run_assoc
    | rewrite run_get
    | rewrite run_modify
    | rewrite run_ret
    | rewrite run_on_axes
    | rewrite run_add_artist
    | rewrite run_setattr
    | rewrite run_get_title ].

(** ** [l.index(x)] at the two ends of an ascending list *)

Lemma run_index_head {S B} (x : Z) (l : list Z) (k : nat → Py.M S B) s :
  head l = Some x → (Py.index x l ≫= k) s = k 0%nat s.
Proof.
  destruct l as [|y l]; intros Hh; simplify_eq/=.
  unfold Py.index. simpl. by rewrite decide_True.
Qed.

Lemma list_find_last (x : Z) (l : list Z) :
  NoDup l → last l = Some x →
  list_find (λ y, y = x) l = Some ((length l - 1)%nat, x).
Proof.
  intros Hnd Hl. apply list_find_Some. rewrite last_lookup in Hl.
  replace (length l - 1)%nat with (Nat.pred (length l)) by lia.
  split_and!; [done..|].
  intros j y Hj Hlt ->.
  pose proof (NoDup_lookup _ _ _ _ Hnd Hj Hl). lia.
Qed.

Lemma run_index_last {S B} (x : Z) (l : list Z) (k : nat → Py.M S B) s :
  StronglySorted Z.lt l → last l = Some x →
  (Py.index x l ≫= k) s = k (length l - 1)%nat s.
Proof.
  intros Hs Hl. unfold Py.index.
  by rewrite (list_find_last x l (StronglySorted_lt_NoDup _ Hs) Hl).
Qed.

Ltac key_left_noop Hcur Hhead :=
  rewrite run_get, Hcur;
  rewrite bool_decide_eq_false_2 by (intros E; by rewrite E in Hhead);
  by rewrite (run_index_head _ _ _ _ Hhead).

Ltac key_right_noop Hcur Hs Hlast :=
  rewrite run_get, Hcur;
  rewrite bool_decide_eq_false_2 by (intros E; by rewrite E in Hlast);
  rewrite (run_index_last _ _ _ _ Hs Hlast);
  rewrite bool_decide_eq_false_2 by lia; done.

Lemma simple_key_left_first t s :
  SimpleMS1Tab.current_scan t = Some s → head (SimpleMS1Tab.all_scans t) = Some s →
  SimpleMS1Tab.keyPressEvent SimpleMS1Tab.Key_Left t = (inr tt, t).
Proof. intros Hcur Hhead. unfold SimpleMS1Tab.keyPressEvent. key_left_noop Hcur Hhead. Qed.

Lemma simple_key_right_last t s :
  SimpleMS1Tab.current_scan t = Some s →
  StronglySorted Z.lt (SimpleMS1Tab.all_scans t) →
  last (SimpleMS1Tab.all_scans t) = Some s →
  SimpleMS1Tab.keyPressEvent SimpleMS1Tab.Key_Right t = (inr tt, t).
Proof. intros Hcur Hs Hlast. unfold SimpleMS1Tab.keyPressEvent. key_right_noop Hcur Hs Hlast. Qed.

Lemma zoom_key_left_first t s :
  ZoomViewerTab.current_scan t = Some s → head (ZoomViewerTab.all_scans t) = Some s →
  ZoomViewerTab.keyPressEvent ZoomViewerTab.Key_Left t = (inr tt, t).
Proof. intros Hcur Hhead. unfold ZoomViewerTab.keyPressEvent. key_left_noop Hcur Hhead. Qed.

Lemma zoom_key_right_last t s :
  ZoomViewerTab.current_scan t = Some s →
  StronglySorted Z.lt (ZoomViewerTab.all_scans t) →
  last (ZoomViewerTab.all_scans t) = Some s →
  ZoomViewerTab.keyPressEvent ZoomViewerTab.Key_Right t = (inr tt, t).
Proof. intros Hcur Hs Hlast. unfold ZoomViewerTab.keyPressEvent. key_right_noop Hcur Hs Hlast. Qed.

Lemma ms1ms2_key_left_first t s :
  MS1MS2Tab.current_scan t = Some s → head (MS1MS2Tab.all_scans t) = Some s →
  MS1MS2Tab.keyPressEvent MS1MS2Tab.Key_Left t = (inr tt, t).
Proof. intros Hcur Hhead. unfold MS1MS2Tab.keyPressEvent. key_left_noop Hcur Hhead. Qed.

Lemma ms1ms2_key_right_last t s :
  MS1MS2Tab.current_scan t = Some s →
  StronglySorted Z.lt (MS1MS2Tab.all_scans t) →
  last (MS1MS2Tab.all_scans t) = Some s →
  MS1MS2Tab.keyPressEvent MS1MS2Tab.Key_Right t = (inr tt, t).
Proof. intros Hcur Hs Hlast. unfold MS1MS2Tab.keyPressEvent. key_right_noop Hcur Hs Hlast. Qed.

(** ** Resolving a click to a scan *)

Lemma simple_on_click_resolves (t : SimpleMS1Tab.Tab) (x : Q) :
  is_Some (SimpleMS1Tab.df t) → SimpleMS1Tab.all_scans t ≠ [] →
  ∃ n, SimpleMS1Tab.on_click
         (SimpleMS1Tab.mkMouseEvent (Some SimpleMS1Tab.AxChrom) (Some x)) t
       = SimpleMS1Tab.update_scan n t
     ∧ n ∈ SimpleMS1Tab.all_scans t
     ∧ (Py.round x ∈ SimpleMS1Tab.all_scans t → n = Py.round x)
     ∧ (∀ y, y ∈ SimpleMS1Tab.all_scans t →
             Z.abs (n - Py.round x) ≤ Z.abs (y - Py.round x))
     ∧ (StronglySorted Z.lt (SimpleMS1Tab.all_scans t) →
        ∀ y, y ∈ SimpleMS1Tab.all_scans t →
             Z.abs (y - Py.round x) = Z.abs (n - Py.round x) → n ≤ y).
Proof.
  intros [d Hd] Hne.
  destruct (nearest_resolves (SimpleMS1Tab.all_scans t) (Py.round x) t Hne)
    as (n & Hn & Hrest).
  exists n. split; [|done].
  unfold SimpleMS1Tab.on_click. cbn. rewrite run_get, Hd.
  rewrite bool_decide_eq_false_2 by done.
  by rewrite (run_bind _ _ _ _ _ Hn).
Qed.

Lemma zoom_on_click_resolves (t : ZoomViewerTab.Tab) (x : Q) :
  is_Some (ZoomViewerTab.df t) → ZoomViewerTab.all_scans t ≠ [] →
  ∃ n, ZoomViewerTab.on_click
         (ZoomViewerTab.mkMouseEvent (Some ZoomViewerTab.AxChrom) (Some x)) t
       = ZoomViewerTab.update_scan n t
     ∧ n ∈ ZoomViewerTab.all_scans t
     ∧ (Py.round x ∈ ZoomViewerTab.all_scans t → n = Py.round x)
     ∧ (∀ y, y ∈ ZoomViewerTab.all_scans t →
             Z.abs (n - Py.round x) ≤ Z.abs (y - Py.round x))
     ∧ (StronglySorted Z.lt (ZoomViewerTab.all_scans t) →
        ∀ y, y ∈ ZoomViewerTab.all_scans t →
             Z.abs (y - Py.round x) = Z.abs (n - Py.round x) → n ≤ y).
Proof.
  intros [d Hd] Hne.
  destruct (nearest_resolves (ZoomViewerTab.all_scans t) (Py.round x) t Hne)
    as (n & Hn & Hrest).
  exists n. split; [|done].
  unfold ZoomViewerTab.on_click. cbn. rewrite run_get, Hd.
  rewrite bool_decide_eq_false_2 by done.
  by rewrite (run_bind _ _ _ _ _ Hn).
Qed.

Lemma ms1ms2_on_click_resolves (t : MS1MS2Tab.Tab) (x : Q) :
  is_Some (MS1MS2Tab.df t) → MS1MS2Tab.all_scans t ≠ [] →
  ∃ n, MS1MS2Tab.on_click
         (MS1MS2Tab.mkMouseEvent (Some MS1MS2Tab.AxChrom) (Some x)) t
       = MS1MS2Tab.update_scan n t
     ∧ n ∈ MS1MS2Tab.all_scans t
     ∧ (Py.round x ∈ MS1MS2Tab.all_scans t → n = Py.round x)
     ∧ (∀ y, y ∈ MS1MS2Tab.all_scans t →
             Z.abs (n - Py.round x) ≤ Z.abs (y - Py.round x))
     ∧ (StronglySorted Z.lt (MS1MS2Tab.all_scans t) →
        ∀ y, y ∈ MS1MS2Tab.all_scans t →
             Z.abs (y - Py.round x) = Z.abs (n - Py.round x) → n ≤ y).
Proof.
  intros [d Hd] Hne.
  destruct (nearest_resolves (MS1MS2Tab.all_scans t) (Py.round x) t Hne)
    as (n & Hn & Hrest).
  exists n. split; [|done].
  unfold MS1MS2Tab.on_click. cbn. rewrite run_get, Hd.
  rewrite bool_decide_eq_false_2 by done.
  by rewrite (run_bind _ _ _ _ _ Hn).
Qed.

(** ** Looking backwards for an MS1 scan *)

Lemma where_level_scan_rows d level scan :
  rows (where_level level (where_scan scan d)) ≠ [] ↔ has_level d level scan.
Proof.
  unfold where_level, where_scan, has_level. simpl. split.
  - intros Hne. destruct (filter _ (filter _ _)) as [|r l] eqn:E; [done|].
    assert (Hr : r ∈ r :: l) by left. rewrite <- E in Hr.
    apply list_elem_of_filter in Hr as [Hl Hr].
    apply list_elem_of_filter in Hr as [Hs Hr]. eauto.
  - intros (r & Hr & Hs & Hl) E.
    assert (Hin : r ∈ filter (λ r, ms_level r = level)
                         (filter (λ r, scan_number r = scan) (rows d))).
    { apply list_elem_of_filter. split; [done|].
      apply list_elem_of_filter. done. }
    rewrite E in Hin. by apply elem_of_nil in Hin.
Qed.

#[global] Instance Z_ge_total : Total Z.ge.
Proof. intros x y. lia. Qed.

#[global] Instance Z_ge_trans : Transitive Z.ge.
Proof. intros x y z. lia. Qed.

Lemma sort_reverse_elem (l : list Z) x : x ∈ Py.sort_reverse l ↔ x ∈ l.
Proof. unfold Py.sort_reverse. by rewrite merge_sort_Permutation. Qed.

Lemma sort_reverse_descending (l : list Z) :
  StronglySorted Z.ge (Py.sort_reverse l).
Proof. apply (StronglySorted_merge_sort Z.ge). Qed.

Lemma sort_reverse_strict (l : list Z) :
  NoDup l → StronglySorted Z.gt (Py.sort_reverse l).
Proof.
  intros Hnd.
  assert (Hnd' : NoDup (Py.sort_reverse l))
    by (unfold Py.sort_reverse; by rewrite merge_sort_Permutation).
  pose proof (sort_reverse_descending l) as Hs. revert Hnd'.
  induction Hs as [|x l' Hl IH Hx]; intros Hnd'; constructor.
  - apply IH. by apply NoDup_cons in Hnd' as [_ ?].
  - apply NoDup_cons in Hnd' as [Hxl _].
    apply Forall_forall. intros y Hy.
    rewrite Forall_forall in Hx. specialize (Hx y Hy).
    assert (x ≠ y) by (intros ->; done). lia.
Qed.

Lemma StronglySorted_ge_lookup (l : list Z) i j a b :
  StronglySorted Z.ge l → l !! i = Some a → l !! j = Some b →
  (i ≤ j)%nat → b ≤ a.
Proof.
  intros Hs. revert i j. induction Hs as [|x l Hl IH Hx]; intros i j Hi Hj Hij.
  - done.
  - rewrite Forall_forall in Hx.
    destruct i as [|i], j as [|j]; simpl in *; simplify_eq.
    + lia.
    + pose proof (Hx b (list_elem_of_lookup_2 _ _ _ Hj)). lia.
    + lia.
    + apply (IH i j); [done..|lia].
Qed.

(** The first hit in a descending list is the greatest hit. *)
Lemma list_find_descending (P : Z → Prop) `{∀ x, Decision (P x)} (l : list Z) :
  StronglySorted Z.ge l →
  match list_find P l with
  | Some (_, s) => s ∈ l ∧ P s ∧ ∀ y, y ∈ l → P y → y ≤ s
  | None => ∀ y, y ∈ l → ¬ P y
  end.
Proof.
  intros Hs. destruct (list_find P l) as [[i s]|] eqn:E.
  - apply list_find_Some in E as (Hi & HP & Hfirst).
    split_and!; [by eapply list_elem_of_lookup_2|done|].
    intros y [j Hj]%list_elem_of_lookup HPy.
    destruct (decide (j < i)%nat) as [Hlt|Hge].
    + by destruct (Hfirst j y Hj Hlt).
    + apply (StronglySorted_ge_lookup l i j s y); [done..|lia].
  - apply list_find_None in E. by apply Forall_forall.
Qed.

Lemma find_ms1_loop_run (t : MS1MS2Tab.Tab) d candidates :
  MS1MS2Tab.df t = Some d →
  "scan_number"%string ∈ columns d → "ms_level"%string ∈ columns d →
  MS1MS2Tab.find_ms1_loop candidates t
  = (inr (snd <$> list_find
            (λ scan, rows (where_level 1 (where_scan scan d)) ≠ [])
            candidates), t).
Proof.
  intros Hd Hc1 Hc2. induction candidates as [|scan rest IH]; [done|].
  cbn [MS1MS2Tab.find_ms1_loop list_find].
  rewrite (ms1ms2_run_the_df d) by done.
  rewrite !run_getcol by done.
  destruct (decide (rows (where_level 1 (where_scan scan d)) ≠ [])) as [Hne|He].
  - by rewrite (empty_false _ "ms_level") by done.
  - apply dec_stable in He. rewrite empty_true by done. cbn [negb].
    rewrite IH. by destruct (list_find _ rest) as [[??]|].
Qed.

Lemma find_ms1_scan_run (t : MS1MS2Tab.Tab) d target :
  MS1MS2Tab.df t = Some d →
  "scan_number"%string ∈ columns d → "ms_level"%string ∈ columns d →
  ∃ r, MS1MS2Tab.find_ms1_scan target t = (inr r, t)
     ∧ (∀ s, r = Some s ↔
             s ∈ MS1MS2Tab.all_scans t ∧ s ≤ target ∧ has_level d 1 s
             ∧ ∀ y, y ∈ MS1MS2Tab.all_scans t → y ≤ target →
                    has_level d 1 y → y ≤ s)
     ∧ (r = None ↔
        ∀ y, y ∈ MS1MS2Tab.all_scans t → y ≤ target → ¬ has_level d 1 y).
Proof.
  intros Hd Hc1 Hc2. unfold MS1MS2Tab.find_ms1_scan. rewrite run_get.
  rewrite (find_ms1_loop_run t d) by done.
  set (P := λ scan : Z, rows (where_level 1 (where_scan scan d)) ≠ []).
  set (cands := Py.sort_reverse _).
  assert (Hc : ∀ y, y ∈ cands ↔ y ∈ MS1MS2Tab.all_scans t ∧ y ≤ target).
  { intros y. unfold cands. rewrite sort_reverse_elem, list_elem_of_filter.
    tauto. }
  assert (HP : ∀ y, P y ↔ has_level d 1 y)
    by (intros y; apply where_level_scan_rows).
  pose proof (list_find_descending P cands (sort_reverse_descending _)) as Hf.
  eexists. split; [done|].
  destruct (list_find P cands) as [[i s]|]; simpl.
  - destruct Hf as (Hs & HPs & Hmax). apply Hc in Hs as [Hs1 Hs2].
    split; [|split; [done|]].
    + intros s'. split.
      * intros [= <-]. split_and!; [done|done|by apply HP|].
        intros y Hy1 Hy2 Hy3. apply Hmax; [by apply Hc|by apply HP].
      * intros (Hs1' & Hs2' & Hs3' & Hmax').
        assert (s' ≤ s) by (apply Hmax; [by apply Hc|by apply HP]).
        assert (s ≤ s') by (apply Hmax'; [done..|by apply HP]).
        f_equal. lia.
    + intros Hnone. destruct (Hnone s Hs1 Hs2). by apply HP.
  - split; [|split; [|done]].
    + intros s'. split; [done|].
      intros (Hs1' & Hs2' & Hs3' & _).
      destruct (Hf s'); [by apply Hc|by apply HP].
    + intros _ y Hy1 Hy2 Hy3. destruct (Hf y); [by apply Hc|by apply HP].
Qed.

(** ** Weakest preconditions for handlers *)

Arguments set_xlim : simpl never.
Arguments set_ylim : simpl never.
Arguments on_axes : simpl never.
Arguments add_artist : simpl never.
Arguments getattr : simpl never.
Arguments setattr : simpl never.
Arguments get_title : simpl never.
Arguments getcol : simpl never.
Arguments iloc0 : simpl never.
Arguments Py.getitem : simpl never.
Arguments Py.index : simpl never.
Arguments Py.min_key : simpl never.
Arguments Py.raise : simpl never.
Arguments Py.modify : simpl never.
Arguments Py.get : simpl never.
Arguments Py.try_except : simpl never.

Section Wp.
Context {S : Type}.
Implicit Types (s : S).

Lemma wp_exec {A} (m : Py.M S A) s (Q : S → Prop) :
  wp m s (λ _, Q) → Q (Py.exec m s).
Proof. done. Qed.

Lemma wp_both {A} (m : Py.M S A) s (Q : Py.Exn + A → S → Prop) :
  wp m s Q → Q (Py.outcome m s) (Py.exec m s).
Proof. done. Qed.

Lemma wp_run {A} (m : Py.M S A) s r s' :
  wp m s (λ r0 s0, r0 = r ∧ s0 = s') → m s = (r, s').
Proof. unfold wp. destruct (m s) as [r0 s0]. simpl. by intros [-> ->]. Qed.

Lemma wp_bind {A B} (m : Py.M S A) (k : A → Py.M S B) s Q :
  wp m s (λ r s', match r with
                  | inr x => wp (k x) s' Q
                  | inl e => Q (inl e) s'
                  end) →
  wp (m ≫= k) s Q.
Proof.
  unfold wp, mbind, Py_bind, Py.bind. by destruct (m s) as [[e|x] s'].
Qed.

Lemma wp_known {A B} (m : Py.M S A) (k : A → Py.M S B) s Q x s' :
  m s = (inr x, s') → wp (k x) s' Q → wp (m ≫= k) s Q.
Proof. intros E H. unfold wp. by rewrite (run_bind _ _ _ _ _ E). Qed.

Lemma wp_try_except {A} (body : Py.M S A) h s Q :
  wp body s (λ r s', match r with
                     | inr x => Q (inr x) s'
                     | inl e => wp (h e) s' Q
                     end) →
  wp (Py.try_except body h) s Q.
Proof. unfold wp, Py.try_except. by destruct (body s) as [[e|x] s']. Qed.

Lemma wp_ret {A} (x : A) s Q : Q (inr x) s → wp (mret x : Py.M S A) s Q.
Proof. done. Qed.

Lemma wp_raise {A} e s Q : Q (inl e) s → wp (Py.raise e : Py.M S A) s Q.
Proof. done. Qed.

Lemma wp_assoc {A B C} (m : Py.M S A) (k1 : A → Py.M S B)
    (k2 : B → Py.M S C) s Q :
  wp (m ≫= λ x, k1 x ≫= k2) s Q → wp ((m ≫= k1) ≫= k2) s Q.
Proof. unfold wp. by rewrite run_assoc. Qed.

Lemma wp_get {B} (k : S → Py.M S B) s Q : wp (k s) s Q → wp (Py.get ≫= k) s Q.
Proof. done. Qed.

Lemma wp_modify {B} f (k : unit → Py.M S B) s Q :
  wp (k tt) (f s) Q → wp (Py.modify f ≫= k) s Q.
Proof. done. Qed.

Lemma wp_modify_end f s Q : Q (inr tt) (f s) → wp (Py.modify f) s Q.
Proof. done. Qed.

Lemma wp_mret {A B} (x : A) (k : A → Py.M S B) s Q :
  wp (k x) s Q → wp (mret x ≫= k) s Q.
Proof. done. Qed.

Lemma wp_getcol {B} name d (k : unit → Py.M S B) s Q :
  name ∈ columns d → wp (k tt) s Q → wp (getcol name d ≫= k) s Q.
Proof. intros Hc H. unfold wp. by rewrite run_getcol. Qed.

Lemma wp_iloc0 {A B} (x : A) l (k : A → Py.M S B) s Q :
  wp (k x) s Q → wp (iloc0 (x :: l) ≫= k) s Q.
Proof. done. Qed.

Lemma wp_iloc0_fmap {A A' B} (f : A' → A) x l (k : A → Py.M S B) s Q :
  wp (k (f x)) s Q → wp (iloc0 (f <$> x :: l) ≫= k) s Q.
Proof. done. Qed.

Lemma wp_getitem {A B} (x : A) l i (k : A → Py.M S B) s Q :
  l !! i = Some x → wp (k x) s Q → wp (Py.getitem l i ≫= k) s Q.
Proof.
  intros E H. unfold wp, Py.getitem, mbind, Py_bind, Py.bind. by rewrite E.
Qed.
End Wp.

Section WpMpl.
Context {T Ax : Type} `{Widget T Ax}.
Implicit Types (s : T).

Lemma wp_on_axes {B} a f (k : unit → Py.M T B) s Q :
  wp (k tt) (set_axes a (f (get_axes a s)) s) Q → wp (on_axes a f ≫= k) s Q.
Proof. done. Qed.

Lemma wp_on_axes_end a f s Q :
  Q (inr tt) (set_axes a (f (get_axes a s)) s) → wp (on_axes a f) s Q.
Proof. done. Qed.

Lemma wp_add_artist {B} a art (k : Handle Ax → Py.M T B) s Q :
  wp (k (a, next_artist s))
     (set_next_artist (S (next_artist s))
        (set_axes a
           (with_artists (artists (get_axes a s) ++ [(next_artist s, art)])
                         (get_axes a s)) s)) Q →
  wp (add_artist a art ≫= k) s Q.
Proof. done. Qed.

Lemma wp_getattr {B} name v (k : option Q → Py.M T B) s Q :
  attrs s !! name = Some v → wp (k v) s Q → wp (getattr name ≫= k) s Q.
Proof. intros E H'. unfold wp. by rewrite (run_getattr name v). Qed.

Lemma wp_setattr {B} name v (k : unit → Py.M T B) s Q :
  wp (k tt) (set_attrs (<[name := v]> (attrs s)) s) Q →
  wp (setattr name v ≫= k) s Q.
Proof. done. Qed.

Lemma wp_set_xlim {B} a lo hi l h (k : unit → Py.M T B) s Q :
  lo = Some l → hi = Some h →
  wp (k tt) (set_axes a (with_xlim (l, h) (get_axes a s)) s) Q →
  wp (set_xlim a lo hi ≫= k) s Q.
Proof. by intros -> ->. Qed.

Lemma wp_set_ylim {B} a lo hi l h (k : unit → Py.M T B) s Q :
  lo = Some l → hi = Some h →
  wp (k tt) (set_axes a (with_ylim (l, h) (get_axes a s)) s) Q →
  wp (set_ylim a lo hi ≫= k) s Q.
Proof. by intros -> ->. Qed.

Lemma wp_set_xlim_end a lo hi l h s Q :
  lo = Some l → hi = Some h →
  Q (inr tt) (set_axes a (with_xlim (l, h) (get_axes a s)) s) →
  wp (set_xlim a lo hi) s Q.
Proof. by intros -> ->. Qed.

Lemma wp_set_ylim_end a lo hi l h s Q :
  lo = Some l → hi = Some h →
  Q (inr tt) (set_axes a (with_ylim (l, h) (get_axes a s)) s) →
  wp (set_ylim a lo hi) s Q.
Proof. by intros -> ->. Qed.

Lemma wp_get_title {B} a (k : string → Py.M T B) s Q :
  wp (k (title (get_axes a s))) s Q → wp (get_title a ≫= k) s Q.
Proof. done. Qed.
End WpMpl.

(** Bring the widget to constructor form, so that steps do not pile up. *)
Ltac wp_norm :=
  lazymatch goal with
  | |- wp ?m ?s ?Q => let s' := eval cbn in s in change (wp m s' Q)
  | _ => idtac
  end.

Ltac wp_attr :=
  cbn; first [ eassumption
             | rewrite lookup_insert_eq; reflexivity
             | repeat (rewrite lookup_insert_ne by done);
               first [eassumption | rewrite lookup_insert_eq; reflexivity] ].

Ltac wp_step1 :=
  unfold clear, set_title, remove_artist, set_xticks;
  lazymatch goal with
  | |- wp ((_ ≫= _) ≫= _) _ _ => apply wp_assoc
  | |- wp (Py.get ≫= _) _ _ => apply wp_get; cbn
  | |- wp (Py.modify _ ≫= _) _ _ => apply wp_modify
  | |- wp (Py.modify _) _ _ => apply wp_modify_end
  | |- wp (mret _ ≫= _) _ _ => apply wp_mret
  | |- wp (mret _) _ _ => apply wp_ret
  | |- wp (Py.raise _) _ _ => apply wp_raise
  | |- wp (getcol _ _ ≫= _) _ _ => apply wp_getcol; [done|]
  | |- wp (iloc0 (_ :: _) ≫= _) _ _ => apply wp_iloc0
  | |- wp (iloc0 (_ <$> _ :: _) ≫= _) _ _ => apply wp_iloc0_fmap
  | |- wp (on_axes _ _ ≫= _) _ _ => apply wp_on_axes
  | |- wp (on_axes _ _) _ _ => apply wp_on_axes_end
  | |- wp (add_artist _ _ ≫= _) _ _ => apply wp_add_artist
  | |- wp (setattr _ _ ≫= _) _ _ => apply wp_setattr
  | |- wp (get_title _ ≫= _) _ _ => apply wp_get_title; cbn
  | |- wp (set_xlim _ _ _ ≫= _) _ _ =>
      eapply wp_set_xlim; [reflexivity|reflexivity|]
  | |- wp (set_ylim _ _ _ ≫= _) _ _ =>
      eapply wp_set_ylim; [reflexivity|reflexivity|]
  | |- wp (set_xlim _ _ _) _ _ =>
      eapply wp_set_xlim_end; [reflexivity|reflexivity|]
  | |- wp (set_ylim _ _ _) _ _ =>
      eapply wp_set_ylim_end; [reflexivity|reflexivity|]
  | |- wp (getattr _ ≫= _) _ _ => eapply wp_getattr; [wp_attr|]
  | |- wp (Py.getitem _ _ ≫= _) _ _ => eapply wp_getitem; [eassumption|]
  | |- wp (Py.try_except _ _) _ _ => apply wp_try_except
  end.

Ltac wp_step := wp_step1; wp_norm.

Lemma simple_wp_the_df {B} d (k : DataFrame → Py.M SimpleMS1Tab.Tab B) s Q :
  SimpleMS1Tab.df s = Some d → wp (k d) s Q → wp (SimpleMS1Tab.the_df ≫= k) s Q.
Proof. intros E H. unfold wp. by rewrite (simple_run_the_df d). Qed.

Lemma zoom_wp_the_df {B} d (k : DataFrame → Py.M ZoomViewerTab.Tab B) s Q :
  ZoomViewerTab.df s = Some d → wp (k d) s Q → wp (ZoomViewerTab.the_df ≫= k) s Q.
Proof. intros E H. unfold wp. by rewrite (zoom_run_the_df d). Qed.

Lemma ms1ms2_wp_the_df {B} d (k : DataFrame → Py.M MS1MS2Tab.Tab B) s Q :
  MS1MS2Tab.df s = Some d → wp (k d) s Q → wp (MS1MS2Tab.the_df ≫= k) s Q.
Proof. intros E H. unfold wp. by rewrite (ms1ms2_run_the_df d). Qed.

Ltac wp_df :=
  lazymatch goal with
  | |- wp (SimpleMS1Tab.the_df ≫= _) _ _ =>
      eapply simple_wp_the_df; [cbn; reflexivity|]
  | |- wp (ZoomViewerTab.the_df ≫= _) _ _ =>
      eapply zoom_wp_the_df; [cbn; reflexivity|]
  | |- wp (MS1MS2Tab.the_df ≫= _) _ _ =>
      eapply ms1ms2_wp_the_df; [cbn; reflexivity|]
  end.

Ltac wp_run_all := repeat first [wp_step | wp_df].

(** State a goal about the outcome and the final widget as a [wp]. *)
Ltac wp_start m t :=
  let r := fresh "r" in let s := fresh "s" in
  set (r := Py.outcome m t); set (s := Py.exec m t);
  pattern r, s; subst r s; apply wp_both.

(** ** What [update_scan] draws: the percent panels *)

Lemma simple_update_scan_variable (t : SimpleMS1Tab.Tab) d n lo hi :
  SimpleMS1Tab.df t = Some d →
  "scan_number"%string ∈ columns d →
  "intensity"%string ∈ columns d →
  "mz"%string ∈ columns d →
  rows (where_scan n d) ≠ [] →
  SimpleMS1Tab.instance_dict t !! "all_mz_min"%string = Some (Some lo) →
  SimpleMS1Tab.instance_dict t !! "all_mz_max"%string = Some (Some hi) →
  spectra (SimpleMS1Tab.ax_ms1_var (Py.exec (SimpleMS1Tab.update_scan n) t))
  = [(mz <$> rows (where_scan n d),
      percent_of (max (intensity <$> rows (where_scan n d)))
        <$> (intensity <$> rows (where_scan n d)))].
Proof.
  intros Hd Hc1 Hc2 Hc3 Hrows Hlo Hhi.
  apply (wp_exec _ _ (λ s, spectra (SimpleMS1Tab.ax_ms1_var s) = _)).
  destruct t; simpl in *; subst.
  unfold SimpleMS1Tab.update_scan. wp_run_all.
  rewrite (empty_false _ "scan_number") by done.
  wp_step. unfold SimpleMS1Tab.safe_remove_artist.
  destruct scan_line as [[[] i]|]; wp_run_all; reflexivity.
Qed.

Lemma idxmax_loop_elem best l :
  Pandas.idxmax_loop best l ∈ (best :: l).*1.
Proof.
  revert best. induction l as [|p l IH]; intros best; simpl; [left|].
  specialize (IH (if Qle_bool p.2 best.2 then best else p)).
  destruct (Qle_bool p.2 best.2); simpl in *.
  - apply elem_of_cons in IH as [->|IH]; [left|right; by right].
  - by right.
Qed.

Lemma labelled_indices (l : list Peak) k :
  ((λ p : nat * Peak, (p.1, intensity p.2))
     <$> imap (λ i r, ((k + i)%nat, r)) l).*1
  = seq k (length l).
Proof.
  revert k. induction l as [|x l IH]; intros k; [done|].
  cbn [imap fmap list_fmap length seq]. f_equal; [simpl; lia|].
  rewrite <- (IH (S k)). do 2 f_equal.
  apply imap_ext. intros i r _. simpl. f_equal. lia.
Qed.

Lemma idxmax_labelled d :
  rows d ≠ [] →
  ∃ i r, idxmax ((λ p, (p.1, intensity p.2)) <$> labelled d) = Some i
       ∧ rows d !! i = Some r.
Proof.
  intros Hne. pose proof (labelled_indices (rows d) 0) as Hps.
  cbn [Nat.add] in Hps. unfold labelled.
  destruct ((λ p : nat * Peak, (p.1, intensity p.2))
              <$> imap (λ i r, (i, r)) (rows d)) as [|p ps] eqn:E.
  { destruct (rows d); [done|]. discriminate. }
  simpl. pose proof (idxmax_loop_elem p ps) as Hin.
  rewrite Hps in Hin. apply elem_of_seq in Hin.
  destruct (lookup_lt_is_Some_2 (rows d) (idxmax_loop p ps)) as [r Hr]; [lia|].
  eauto.
Qed.

Lemma zoom_update_scan_variable (t : ZoomViewerTab.Tab) d n lo hi :
  ZoomViewerTab.df t = Some d →
  "scan_number"%string ∈ columns d →
  "intensity"%string ∈ columns d →
  "mz"%string ∈ columns d →
  "Max"%string ∈ columns d →
  rows (where_scan n d) ≠ [] →
  ZoomViewerTab.instance_dict t !! "all_mz_min"%string = Some (Some lo) →
  ZoomViewerTab.instance_dict t !! "all_mz_max"%string = Some (Some hi) →
  spectra (ZoomViewerTab.ax_ms1_var (Py.exec (ZoomViewerTab.update_scan n) t))
  = [(mz <$> rows (where_scan n d),
      percent_of (max (intensity <$> rows (where_scan n d)))
        <$> (intensity <$> rows (where_scan n d)))].
Proof.
  intros Hd Hc1 Hc2 Hc3 Hc4 Hrows Hlo Hhi.
  apply (wp_exec _ _ (λ s, spectra (ZoomViewerTab.ax_ms1_var s) = _)).
  destruct t; simpl in *; subst.
  unfold ZoomViewerTab.update_scan. wp_run_all.
  rewrite (empty_false _ "scan_number") by done.
  wp_step. unfold ZoomViewerTab.safe_remove_artist.
  destruct (idxmax_labelled (where_scan n d) Hrows) as (i & r & Hi & Hr).
  cbn in Hi, Hr.
  destruct scan_line as [[[] j]|]; wp_run_all.
  all: destruct (empty (where_max (where_scan n d))) eqn:Hem.
  all: try rewrite Hi.
  all: try (destruct (filter (λ r, Max r = 1)
                        (filter (λ r, scan_number r = n) (rows d)))
              as [|r1 rs1] eqn:Hm;
            [by rewrite empty_true in Hem by (cbn; exact Hm)|]).
  all: wp_run_all; reflexivity.
Qed.

(** ** Percent of the scan's own maximum *)

Lemma max_loop_elem (x : Q) (l : list Q) : foldl Qmax x l ∈ x :: l.
Proof.
  revert x. induction l as [|y l IH]; intros x; simpl; [left|].
  specialize (IH (Qmax x y)). apply elem_of_cons in IH as [->|IH].
  - unfold Qmax, GenericMinMax.gmax.
    destruct (x ?= y)%Q; [left|right; left|left].
  - right. by right.
Qed.

Lemma max_loop_upper (x : Q) (l : list Q) y :
  y ∈ x :: l → (y <= foldl Qmax x l)%Q.
Proof.
  revert x y. induction l as [|z l IH]; intros x y Hy; simpl.
  - apply list_elem_of_singleton in Hy as ->. apply Qle_refl.
  - assert (Htop : (Qmax x z <= foldl Qmax (Qmax x z) l)%Q)
      by (apply IH; left).
    apply elem_of_cons in Hy as [->|Hy].
    + eapply Qle_trans; [apply (Q.le_max_l x z)|done].
    + apply elem_of_cons in Hy as [->|Hy].
      * eapply Qle_trans; [apply (Q.le_max_r x z)|done].
      * apply IH. by right.
Qed.

Lemma max_elem (l : list Q) m : max l = Some m → m ∈ l.
Proof. destruct l; intros [= <-]. apply max_loop_elem. Qed.

Lemma max_upper (l : list Q) m y : max l = Some m → y ∈ l → (y <= m)%Q.
Proof. destruct l; intros [= <-] Hy. by apply max_loop_upper. Qed.

Lemma percent_of_own_max (m x : Q) :
  (0 < m)%Q → (x == m)%Q →
  ∃ v, percent_of (Some m) x = Some v ∧ (v == 100)%Q.
Proof.
  intros Hm Hx. unfold percent_of.
  destruct (Qeq_bool m 0) eqn:E.
  - apply Qeq_bool_eq in E. rewrite E in Hm. by apply Qlt_irrefl in Hm.
  - eexists. split; [done|]. rewrite Hx. field. intros E'.
    rewrite E' in Hm. by apply Qlt_irrefl in Hm.
Qed.

Lemma percent_of_le_100 (m x : Q) :
  (0 < m)%Q → (x <= m)%Q →
  ∃ v, percent_of (Some m) x = Some v ∧ (v <= 100)%Q.
Proof.
  intros Hm Hx. unfold percent_of.
  destruct (Qeq_bool m 0) eqn:E.
  - apply Qeq_bool_eq in E. rewrite E in Hm. by apply Qlt_irrefl in Hm.
  - eexists. split; [done|].
    assert (x / m <= 1)%Q.
    { apply Qle_shift_div_r; [done|]. by rewrite Qmult_1_l. }
    apply Qle_trans with (1 * 100)%Q; [by apply Qmult_le_compat_r|].
    by rewrite Qmult_1_l.
Qed.

(** The heights of the variable panel, for a scan whose maximum is [m > 0]:
    the maximum is attained by a peak, every such peak is drawn at 100, and
    no peak is drawn higher. *)
Lemma variable_heights (l : list Q) (m : Q) :
  max l = Some m → (0 < m)%Q →
  (∃ i, l !! i = Some m)
  ∧ (∀ i x, l !! i = Some x → (x == m)%Q →
       ∃ v, (percent_of (max l) <$> l) !! i = Some (Some v) ∧ (v == 100)%Q)
  ∧ (∀ i x, l !! i = Some x →
       ∃ v, (percent_of (max l) <$> l) !! i = Some (Some v) ∧ (v <= 100)%Q).
Proof.
  intros Hmax Hm. split_and!.
  - apply list_elem_of_lookup. by apply max_elem.
  - intros i x Hi Hx. rewrite list_lookup_fmap, Hi, Hmax.
    destruct (percent_of_own_max m x Hm Hx) as (v & Hv1 & Hv2).
    exists v. split; [|done]. cbn [fmap option_fmap option_map]. by rewrite Hv1.
  - intros i x Hi. rewrite list_lookup_fmap, Hi, Hmax.
    destruct (percent_of_le_100 m x Hm) as (v & Hv1 & Hv2).
    { apply (max_upper l); [done|]. by eapply list_elem_of_lookup_2. }
    exists v. split; [|done]. cbn [fmap option_fmap option_map]. by rewrite Hv1.
Qed.

(** ** The chromatogram and the scan list *)

#[global] Instance by_scan_number_total : Total by_scan_number.
Proof. intros a b. unfold by_scan_number. lia. Qed.

#[global] Instance by_scan_number_trans : Transitive by_scan_number.
Proof. intros a b c. unfold by_scan_number. lia. Qed.

Lemma groupby_sum_keys d :
  (groupby_sum d).*1 = Py.sorted (unique (scan_number <$> rows d)).
Proof.
  unfold groupby_sum. rewrite <- list_fmap_compose.
  rewrite <- (list_fmap_id (Py.sorted _)) at 2. by apply list_fmap_ext.
Qed.

(** [all_scans] as every tab computes it: the distinct scan numbers of the
    table, ascending. *)
Lemma chromatogram_keys d :
  (sort_values (groupby_sum d)).*1
  = Py.sorted (unique (scan_number <$> rows d)).
Proof.
  apply StronglySorted_lt_unique.
  - apply StronglySorted_le_lt.
    + apply (StronglySorted_fmap fst by_scan_number Z.le); [by intros ??|].
      apply (StronglySorted_merge_sort by_scan_number).
    + unfold sort_values. rewrite merge_sort_Permutation, groupby_sum_keys.
      apply sorted_NoDup, unique_NoDup.
  - apply unique_scans_ascending.
  - intros x. unfold sort_values.
    by rewrite merge_sort_Permutation, groupby_sum_keys.
Qed.

Lemma chromatogram_keys_elem d s :
  s ∈ (sort_values (groupby_sum d)).*1 ↔ ∃ r, r ∈ rows d ∧ scan_number r = s.
Proof.
  rewrite chromatogram_keys, unique_scans_elem, list_elem_of_fmap.
  split; intros (r & ? & ?); eauto.
Qed.

Lemma chromatogram_length d :
  rows d ≠ [] → sort_values (groupby_sum d) ≠ [].
Proof.
  intros Hne E. destruct (rows d) as [|r l] eqn:Hr; [done|].
  assert (Hin : scan_number r ∈ (sort_values (groupby_sum d)).*1).
  { apply chromatogram_keys_elem. exists r. rewrite Hr. split; [left|done]. }
  rewrite E in Hin. by apply elem_of_nil in Hin.
Qed.

Lemma max_is_Some (l : list Q) : l ≠ [] → is_Some (max l).
Proof. destruct l; [done|]. by eexists. Qed.

Lemma min_is_Some (l : list Q) : l ≠ [] → is_Some (min l).
Proof. destruct l; [done|]. by eexists. Qed.

Lemma fmap_not_nil {A B} (f : A → B) (l : list A) : l ≠ [] → f <$> l ≠ [].
Proof. by destruct l. Qed.

(** ** The DDA tab: processing, and what a selection draws *)

Lemma required_cols_elem d name :
  required_cols ⊆ columns d → name ∈ required_cols → name ∈ columns d.
Proof. intros H. apply H. Qed.

Lemma ms1ms2_process_data_run (t : MS1MS2Tab.Tab) d :
  MS1MS2Tab.df t = Some d → required_cols ⊆ columns d → rows d ≠ [] →
  ∃ lo hi cm,
    MS1MS2Tab.process_data t
    = (inr tt,
       MS1MS2Tab.mkTab (Some d) (MS1MS2Tab.current_scan t)
         (sort_values (groupby_sum d)).*1
         (MS1MS2Tab.scan_line t) (MS1MS2Tab.ms2_shading_ms1 t)
         (MS1MS2Tab.ms2_shading_ms2 t)
         (<["all_mz_max"%string := Some hi]>
            (<["all_mz_min"%string := Some lo]>
               (<["chrom_max_intensity"%string := Some cm]>
                  (MS1MS2Tab.instance_dict t))))
         {| title := "Chromatogram (All MS Levels)";
            artists := [(MS1MS2Tab.artist_count t,
                         Line2D (sort_values (groupby_sum d)))];
            xlim := None; ylim := Some (0%Q, cm); xticks := None |}
         (with_title "MS1 Spectrum" blank)
         (with_title "MS2 Spectrum" blank)
         (MS1MS2Tab.StProcessed (length (sort_values (groupby_sum d)).*1))
         (MS1MS2Tab.process_button_enabled t)
         (MS1MS2Tab.message_boxes t)
         (S (MS1MS2Tab.artist_count t))).
Proof.
  intros Hd Hcols Hrows.
  destruct (max_is_Some ((sort_values (groupby_sum d)).*2)) as [m Hm].
  { by apply fmap_not_nil, chromatogram_length. }
  assert (Hlohi : ∃ lo hi,
    (if negb (empty (where_level 1 d))
     then min (mz <$> rows (where_level 1 d)) else min (mz <$> rows d)) = Some lo
    ∧ (if negb (empty (where_level 1 d))
       then max (mz <$> rows (where_level 1 d)) else max (mz <$> rows d)) = Some hi).
  { destruct (empty (where_level 1 d)) eqn:Hem; cbn [negb].
    - destruct (min_is_Some (mz <$> rows d)) as [lo Hlo]; [by apply fmap_not_nil|].
      destruct (max_is_Some (mz <$> rows d)) as [hi Hhi]; [by apply fmap_not_nil|].
      eauto.
    - assert (Hne : rows (where_level 1 d) ≠ []).
      { intros E. by rewrite empty_true in Hem. }
      destruct (min_is_Some (mz <$> rows (where_level 1 d))) as [lo Hlo];
        [by apply fmap_not_nil|].
      destruct (max_is_Some (mz <$> rows (where_level 1 d))) as [hi Hhi];
        [by apply fmap_not_nil|].
      eauto. }
  destruct Hlohi as (lo & hi & Hlo & Hhi).
  exists (lo - 10)%Q, (hi + 10)%Q, (m * 1.05)%Q.
  apply wp_run. destruct t; simpl in *; subst.
  unfold MS1MS2Tab.process_data.
  wp_step. wp_step.
  unfold has_columns. rewrite bool_decide_eq_true_2 by done. cbn [negb].
  rewrite Hm. unfold MS1MS2Tab.setup_spectrum_plots.
  destruct (negb (empty (where_level 1 d))); rewrite Hlo, Hhi;
    wp_run_all; cbn; done.
Qed.

(** A scan with MS1 peaks only: the MS1 panel is redrawn from it, the MS2
    panel is held. *)
Lemma ms1ms2_update_scan_ms1 (t : MS1MS2Tab.Tab) d n lo hi :
  MS1MS2Tab.df t = Some d → required_cols ⊆ columns d →
  rows (where_level 1 (where_scan n d)) ≠ [] →
  rows (where_level 2 (where_scan n d)) = [] →
  MS1MS2Tab.instance_dict t !! "all_mz_min"%string = Some (Some lo) →
  MS1MS2Tab.instance_dict t !! "all_mz_max"%string = Some (Some hi) →
  handle_on MS1MS2Tab.AxChrom (MS1MS2Tab.scan_line t) →
  handle_on MS1MS2Tab.AxMS1 (MS1MS2Tab.ms2_shading_ms1 t) →
  let t' := Py.exec (MS1MS2Tab.update_scan n) t in
  Py.outcome (MS1MS2Tab.update_scan n) t = inr tt
  ∧ MS1MS2Tab.current_scan t' = Some n
  ∧ MS1MS2Tab.df t' = Some d
  ∧ MS1MS2Tab.all_scans t' = MS1MS2Tab.all_scans t
  ∧ MS1MS2Tab.scan_line t' = Some (MS1MS2Tab.AxChrom, MS1MS2Tab.artist_count t)
  ∧ MS1MS2Tab.ms2_shading_ms1 t' = None
  ∧ MS1MS2Tab.ms2_shading_ms2 t' = MS1MS2Tab.ms2_shading_ms2 t
  ∧ MS1MS2Tab.ax_ms2 t' = MS1MS2Tab.ax_ms2 t
  ∧ title (MS1MS2Tab.ax_ms1 t') = ("MS1 Spectrum - Scan " +:+ Py.str n)%string
  ∧ spectra (MS1MS2Tab.ax_ms1 t')
    = [(mz <$> rows (where_level 1 (where_scan n d)),
        Some ∘ intensity <$> rows (where_level 1 (where_scan n d)))]
  ∧ spans (MS1MS2Tab.ax_ms1 t') = [].
Proof.
  intros Hd Hcols Hms1 Hms2 Hlo Hhi Hsl Hsh t'. subst t'.
  wp_start (MS1MS2Tab.update_scan n) t.
  destruct t; simpl in *; subst.
  assert (Hc : ∀ name, name ∈ required_cols → name ∈ columns d)
    by (intros ?; apply Hcols).
  assert ("scan_number"%string ∈ columns d) by (apply Hc; set_solver).
  assert ("ms_level"%string ∈ columns d) by (apply Hc; set_solver).
  assert ("mz"%string ∈ columns d) by (apply Hc; set_solver).
  assert ("intensity"%string ∈ columns d) by (apply Hc; set_solver).
  destruct (max_is_Some (intensity <$> rows (where_level 1 (where_scan n d))))
    as [mx Hmx]; [by apply fmap_not_nil|].
  pose proof Hmx as Hmx'. cbn in Hmx'.
  unfold MS1MS2Tab.update_scan, MS1MS2Tab.safe_remove_artist.
  destruct scan_line as [[a i]|], ms2_shading_ms1 as [[a' i']|];
    simpl in Hsl, Hsh; subst; wp_run_all.
  all: rewrite (empty_false (where_level 1 _) "scan_number") by done.
  all: rewrite (empty_true (where_level 2 _)) by done.
  all: cbn [negb]; rewrite ?Hmx, ?Hmx'; wp_run_all.
  all: rewrite ?Hmx, ?Hmx'; wp_run_all.
  all: cbn; done.
Qed.

(** A scan with MS2 peaks only: the MS2 panel is redrawn from it with the
    narrow precursor band; the MS1 panel keeps its title and spectrum, and
    gets the isolation window when its title passes the check of the code. *)
Lemma ms1ms2_update_scan_ms2 (t : MS1MS2Tab.Tab) d n r rs :
  MS1MS2Tab.df t = Some d → required_cols ⊆ columns d →
  "precursor_mz"%string ∈ columns d →
  rows (where_level 1 (where_scan n d)) = [] →
  rows (where_level 2 (where_scan n d)) = r :: rs →
  handle_on MS1MS2Tab.AxChrom (MS1MS2Tab.scan_line t) →
  handle_on MS1MS2Tab.AxMS2 (MS1MS2Tab.ms2_shading_ms2 t) →
  let t' := Py.exec (MS1MS2Tab.update_scan n) t in
  let shown :=
    negb (bool_decide (title (MS1MS2Tab.ax_ms1 t) = ""))
    && negb (Py.contains "No MS1 data" (title (MS1MS2Tab.ax_ms1 t))) in
  let mz_min := (λ p, p - 1.5)%Q <$> precursor_mz r in
  let mz_max := (λ p, p + 1.5)%Q <$> precursor_mz r in
  Py.outcome (MS1MS2Tab.update_scan n) t = inr tt
  ∧ MS1MS2Tab.current_scan t' = Some n
  ∧ MS1MS2Tab.df t' = Some d
  ∧ MS1MS2Tab.all_scans t' = MS1MS2Tab.all_scans t
  ∧ title (MS1MS2Tab.ax_ms1 t') = title (MS1MS2Tab.ax_ms1 t)
  ∧ spectra (MS1MS2Tab.ax_ms1 t') = spectra (MS1MS2Tab.ax_ms1 t)
  ∧ spans (MS1MS2Tab.ax_ms1 t')
    = spans (MS1MS2Tab.ax_ms1 t) ++ (if shown then [(mz_min, mz_max)] else [])
  ∧ spectra (MS1MS2Tab.ax_ms2 t')
    = [(mz <$> r :: rs, Some ∘ intensity <$> r :: rs)]
  ∧ spans (MS1MS2Tab.ax_ms2 t')
    = [((λ m, m + 1.45)%Q <$> mz_min, (λ m, m - 1.45)%Q <$> mz_max)].
Proof.
  intros Hd Hcols Hprec Hms1 Hms2 Hsl Hsh t' shown mz_min mz_max.
  subst t' shown mz_min mz_max.
  wp_start (MS1MS2Tab.update_scan n) t.
  assert (Hc : ∀ name, name ∈ required_cols → name ∈ columns d)
    by (intros ?; apply Hcols).
  assert ("scan_number"%string ∈ columns d) by (apply Hc; set_solver).
  assert ("ms_level"%string ∈ columns d) by (apply Hc; set_solver).
  assert ("mz"%string ∈ columns d) by (apply Hc; set_solver).
  assert ("intensity"%string ∈ columns d) by (apply Hc; set_solver).
  assert (Hem1 : empty (where_level 1 (where_scan n d)) = true)
    by (by apply empty_true).
  assert (Hem2 : empty (where_level 2 (where_scan n d)) = false)
    by (apply (empty_false _ "scan_number"); [done|by rewrite Hms2]).
  pose proof Hms2 as Hms2'. cbn in Hms2'.
  destruct t; simpl in Hd, Hsl, Hsh |- *; subst.
  unfold MS1MS2Tab.update_scan, MS1MS2Tab.safe_remove_artist.
  destruct scan_line as [[a i]|], ms2_shading_ms2 as [[a' i']|];
    simpl in Hsl, Hsh; subst; wp_run_all.
  all: rewrite Hem1, Hem2; cbn [negb]; wp_run_all.
  all: rewrite ?Hms2, ?Hms2'; cbn [fmap list_fmap min max]; wp_run_all.
  all: rewrite bool_decide_eq_true_2 by done; wp_run_all.
  all: destruct (negb (bool_decide (title ax_ms1 = ""))
                 && negb (Py.contains "No MS1 data" (title ax_ms1)));
         wp_run_all.
  all: unfold spectra, spans; cbn; rewrite ?omap_app; cbn;
         rewrite ?app_nil_r; done.
Qed.

(** ** Filters that keep everything or nothing *)

Lemma filter_all {A} (P : A → Prop) `{∀ x, Decision (P x)} (l : list A) :
  (∀ x, x ∈ l → P x) → filter P l = l.
Proof.
  induction l as [|x l IH]; intros HP; [done|].
  rewrite filter_cons, decide_True by (apply HP; left).
  f_equal. apply IH. intros y Hy. apply HP. by right.
Qed.

Lemma filter_none {A} (P : A → Prop) `{∀ x, Decision (P x)} (l : list A) :
  (∀ x, x ∈ l → ¬ P x) → filter P l = [].
Proof.
  induction l as [|x l IH]; intros HP; [done|].
  rewrite filter_cons, decide_False by (apply HP; left).
  apply IH. intros y Hy. apply HP. by right.
Qed.

Lemma where_scan_rows_not_nil d s :
  (∃ r, r ∈ rows d ∧ scan_number r = s) → rows (where_scan s d) ≠ [].
Proof.
  intros (r & Hr & Hs) E.
  assert (Hin : r ∈ rows (where_scan s d)) by (by apply list_elem_of_filter).
  rewrite E in Hin. by apply elem_of_nil in Hin.
Qed.

Section DdaExample.
Variable d : DataFrame.
Hypothesis Hd : dda_example d.

Lemma dda_scan_list : (sort_values (groupby_sum d)).*1 = [1; 2; 3].
Proof.
destruct Hd as (_ & _ & Hrows & Hscans).
apply StronglySorted_lt_unique.
- rewrite chromatogram_keys. apply unique_scans_ascending.
- repeat constructor; lia.
- intros x. rewrite chromatogram_keys_elem. split.
  + intros (r & Hr & <-).
    destruct (Hrows r Hr) as [[-> _]|[(-> & _)|[-> _]]]; set_solver.
  + apply Hscans.
Qed.

Lemma dda_rows_not_nil : rows d ≠ [].
Proof.
destruct Hd as (_ & _ & _ & Hscans).
destruct (Hscans 1) as (r & Hr & _); [set_solver|].
intros E. rewrite E in Hr. by apply elem_of_nil in Hr.
Qed.

Lemma dda_scan1_ms1 :
rows (where_level 1 (where_scan 1 d)) = rows (where_scan 1 d).
Proof.
destruct Hd as (_ & _ & Hrows & _).
apply filter_all. intros r [Hs Hr]%list_elem_of_filter.
destruct (Hrows r Hr) as [[_ ?]|[(? & _)|[? _]]]; [done|lia..].
Qed.

Lemma dda_scan1_no_ms2 : rows (where_level 2 (where_scan 1 d)) = [].
Proof.
destruct Hd as (_ & _ & Hrows & _).
apply filter_none. intros r [Hs Hr]%list_elem_of_filter.
destruct (Hrows r Hr) as [[_ ?]|[(? & _)|[? _]]]; lia.
Qed.

Lemma dda_scan2_no_ms1 : rows (where_level 1 (where_scan 2 d)) = [].
Proof.
destruct Hd as (_ & _ & Hrows & _).
apply filter_none. intros r [Hs Hr]%list_elem_of_filter.
destruct (Hrows r Hr) as [[? _]|[(_ & ? & _)|[? _]]]; lia.
Qed.

Lemma dda_scan2_ms2 :
∃ r rs, rows (where_level 2 (where_scan 2 d)) = r :: rs
      ∧ rows (where_scan 2 d) = r :: rs
      ∧ precursor_mz r = Some 500%Q.
Proof.
destruct Hd as (_ & _ & Hrows & Hscans).
assert (Hall : rows (where_level 2 (where_scan 2 d)) = rows (where_scan 2 d)).
{ apply filter_all. intros r [Hs Hr]%list_elem_of_filter.
  destruct (Hrows r Hr) as [[? _]|[(_ & ? & _)|[? _]]]; [lia|done|lia]. }
destruct (rows (where_scan 2 d)) as [|r rs] eqn:E.
{ destruct (where_scan_rows_not_nil d 2); [apply Hscans; set_solver|done]. }
exists r, rs. split_and!; [done..|].
assert (Hr : r ∈ rows (where_scan 2 d)) by (rewrite E; left).
apply list_elem_of_filter in Hr as [Hs Hr].
destruct (Hrows r Hr) as [[? _]|[(_ & _ & ?)|[? _]]]; [lia|done|lia].
Qed.
End DdaExample.

Lemma round_2_3 : Py.round 2.3 = 2.
Proof. reflexivity. Qed.

Lemma round_1 : Py.round 1 = 1.
Proof. reflexivity. Qed.

Theorem dda_click_holds_ms1_panel (d : DataFrame) :
  dda_example d →
  let ready := dda_ready d in
  (let t1 := Py.exec (MS1MS2Tab.on_click (click_at 2.3)) ready in
   MS1MS2Tab.current_scan t1 = Some 2
   ∧ spectra (MS1MS2Tab.ax_ms2 t1) = [peaks_of 2 d]
   ∧ spans (MS1MS2Tab.ax_ms2 t1)
     = [(Some (500 - 1.5 + 1.45)%Q, Some (500 + 1.5 - 1.45)%Q)]
   ∧ spectra (MS1MS2Tab.ax_ms1 t1) = spectra (MS1MS2Tab.ax_ms1 ready)
   ∧ spectra (MS1MS2Tab.ax_ms1 ready) = [])
  ∧ (let t2 := Py.exec (MS1MS2Tab.on_click (click_at 2.3))
                 (Py.exec (MS1MS2Tab.on_click (click_at 1)) ready) in
     MS1MS2Tab.current_scan t2 = Some 2
     ∧ spectra (MS1MS2Tab.ax_ms1 t2) = [peaks_of 1 d]
     ∧ spectra (MS1MS2Tab.ax_ms2 t2) = [peaks_of 2 d]
     ∧ spans (MS1MS2Tab.ax_ms1 t2) = [(Some 498.5%Q, Some 501.5%Q)]).
Proof.
  intros Hd ready. unfold dda_ready in ready.
  pose proof Hd as (Hcols & Hprec & _ & Hscans).
  destruct (ms1ms2_process_data_run
              (Py.exec (MS1MS2Tab.set_data d) MS1MS2Tab.init) d)
    as (lo & hi & cm & Hrun); [done|done|by apply dda_rows_not_nil|].
  assert (Hready : ready = (MS1MS2Tab.process_data
             (Py.exec (MS1MS2Tab.set_data d) MS1MS2Tab.init)).2) by done.
  rewrite Hrun, (dda_scan_list d Hd) in Hready. cbn in Hready.
  clearbody ready. clear Hrun.
  assert (Hdf : MS1MS2Tab.df ready = Some d) by (by rewrite Hready).
  assert (Hall : MS1MS2Tab.all_scans ready = [1; 2; 3]) by (by rewrite Hready).
  assert (Hlo : MS1MS2Tab.instance_dict ready !! "all_mz_min"%string
                = Some (Some lo)) by (by rewrite Hready).
  assert (Hhi : MS1MS2Tab.instance_dict ready !! "all_mz_max"%string
                = Some (Some hi)) by (by rewrite Hready).
  assert (Hsl : MS1MS2Tab.scan_line ready = None) by (by rewrite Hready).
  assert (Hsh1 : MS1MS2Tab.ms2_shading_ms1 ready = None) by (by rewrite Hready).
  assert (Hsh2 : MS1MS2Tab.ms2_shading_ms2 ready = None) by (by rewrite Hready).
  assert (Hax1 : spectra (MS1MS2Tab.ax_ms1 ready) = []) by (by rewrite Hready).
  clear Hready.
  destruct (dda_scan2_ms2 d Hd) as (r & rs & Hr2 & Hr2' & Hp).
  assert (Hclick2 : ∀ t, MS1MS2Tab.df t = Some d →
            MS1MS2Tab.all_scans t = [1; 2; 3] →
            Py.exec (MS1MS2Tab.on_click (click_at 2.3)) t
            = Py.exec (MS1MS2Tab.update_scan 2) t).
  { intros t Hdft Hallt. unfold click_at, Py.exec.
    destruct (ms1ms2_on_click_resolves t 2.3) as (n & -> & _ & Hn & _);
      [by eauto|by rewrite Hallt|].
    rewrite Hn; [reflexivity|]. rewrite Hallt, round_2_3. set_solver. }
  assert (Hclick1 : ∀ t, MS1MS2Tab.df t = Some d →
            MS1MS2Tab.all_scans t = [1; 2; 3] →
            Py.exec (MS1MS2Tab.on_click (click_at 1)) t
            = Py.exec (MS1MS2Tab.update_scan 1) t).
  { intros t Hdft Hallt. unfold click_at, Py.exec.
    destruct (ms1ms2_on_click_resolves t 1) as (n & -> & _ & Hn & _);
      [by eauto|by rewrite Hallt|].
    rewrite Hn; [reflexivity|]. rewrite Hallt, round_1. set_solver. }
  split.
  - intros t1. subst t1. rewrite (Hclick2 ready Hdf Hall).
    destruct (ms1ms2_update_scan_ms2 ready d 2 r rs Hdf Hcols Hprec
                (dda_scan2_no_ms1 d Hd) Hr2)
      as (_ & Hcur & _ & _ & _ & Hs1 & _ & Hs2 & Hb2).
    { by rewrite Hsl. }
    { by rewrite Hsh2. }
    split; [exact Hcur|]. split.
    { rewrite Hs2. unfold peaks_of. rewrite Hr2'. reflexivity. }
    split.
    { rewrite Hb2, Hp. reflexivity. }
    split; [exact Hs1|exact Hax1].
  - intros t2. subst t2.
    rewrite (Hclick1 ready Hdf Hall).
    destruct (ms1ms2_update_scan_ms1 ready d 1 lo hi Hdf Hcols)
      as (_ & _ & Hdf1 & Hall1 & Hsl1 & _ & Hsh1' & _ & Ht1 & Hs1 & Hb1).
    { rewrite (dda_scan1_ms1 d Hd). apply where_scan_rows_not_nil, Hscans.
      set_solver. }
    { by apply dda_scan1_no_ms2. }
    { exact Hlo. }
    { exact Hhi. }
    { by rewrite Hsl. }
    { by rewrite Hsh1. }
    set (t1 := Py.exec (MS1MS2Tab.update_scan 1) ready) in *. clearbody t1.
    rewrite Hall in Hall1.
    rewrite (Hclick2 t1 Hdf1 Hall1).
    destruct (ms1ms2_update_scan_ms2 t1 d 2 r rs Hdf1 Hcols Hprec
                (dda_scan2_no_ms1 d Hd) Hr2)
      as (_ & Hcur & _ & _ & _ & Hs1' & Hb1' & Hs2 & _).
    { by rewrite Hsl1. }
    { by rewrite Hsh1', Hsh2. }
    split; [exact Hcur|]. split.
    { rewrite Hs1', Hs1. unfold peaks_of. rewrite (dda_scan1_ms1 d Hd).
      reflexivity. }
    split.
    { rewrite Hs2. unfold peaks_of. rewrite Hr2'. reflexivity. }
    rewrite Hb1', Hb1, Ht1, Hp. reflexivity.
Qed.

(** ** Processing in the MS1-only tabs *)

Lemma wp_frame {S A B} (f : S → B) (m : Py.M S A) s Q :
  preserves f m → (∀ r s', f s' = f s → Q r s') → wp m s Q.
Proof. intros Hp HQ. apply HQ, Hp. Qed.

Lemma simple_process_no_ms1 (t : SimpleMS1Tab.Tab) d :
  SimpleMS1Tab.df t = Some d → required_cols ⊆ columns d →
  rows (where_level 1 d) = [] →
  SimpleMS1Tab.process_ms1_data t
  = (inr tt,
     SimpleMS1Tab.set_message_boxes (SimpleMS1Tab.message_boxes t ++ [ErrNoMS1])
       (SimpleMS1Tab.set_df (Some (where_level 1 d)) t)).
Proof.
  intros Hd Hcols Hrows. apply wp_run.
  assert (Hem : empty (where_level 1 d) = true) by (by apply empty_true).
  destruct t; simpl in Hd |- *; subst.
  unfold SimpleMS1Tab.process_ms1_data, SimpleMS1Tab.message_box.
  wp_step. wp_step.
  unfold has_columns. rewrite bool_decide_eq_true_2 by done. cbn [negb].
  wp_run_all. rewrite Hem. wp_run_all. cbn. done.
Qed.

Lemma zoom_process_no_ms1 (t : ZoomViewerTab.Tab) d :
  ZoomViewerTab.df t = Some d → required_cols ⊆ columns d →
  rows (where_level 1 d) = [] →
  ZoomViewerTab.process_ms1_data t
  = (inr tt,
     ZoomViewerTab.set_message_boxes (ZoomViewerTab.message_boxes t ++ [ErrNoMS1])
       (ZoomViewerTab.set_df (Some (where_level 1 d)) t)).
Proof.
  intros Hd Hcols Hrows. apply wp_run.
  assert (Hem : empty (where_level 1 d) = true) by (by apply empty_true).
  destruct t; simpl in Hd |- *; subst.
  unfold ZoomViewerTab.process_ms1_data, ZoomViewerTab.message_box.
  wp_step. wp_step.
  unfold has_columns. rewrite bool_decide_eq_true_2 by done. cbn [negb].
  wp_run_all. rewrite Hem. wp_run_all. cbn. done.
Qed.

Lemma simple_message_box_preserves {B} (f : SimpleMS1Tab.Tab → B) m :
  (∀ v t, f (SimpleMS1Tab.set_message_boxes v t) = f t) →
  preserves f (SimpleMS1Tab.message_box m).
Proof. intros H s. apply H. Qed.

Lemma zoom_message_box_preserves {B} (f : ZoomViewerTab.Tab → B) m :
  (∀ v t, f (ZoomViewerTab.set_message_boxes v t) = f t) →
  preserves f (ZoomViewerTab.message_box m).
Proof. intros H s. apply H. Qed.

(** After a successful [process_ms1_data] the stored table is the MS1 subset
    with its scans renumbered, and the scan list is the list of its scans. *)
Lemma simple_process_renumbers (t : SimpleMS1Tab.Tab) d :
  SimpleMS1Tab.df t = Some d → required_cols ⊆ columns d →
  rows (where_level 1 d) ≠ [] →
  let t' := Py.exec SimpleMS1Tab.process_ms1_data t in
  SimpleMS1Tab.df t' = Some (renumbered (where_level 1 d))
  ∧ SimpleMS1Tab.all_scans t'
    = (sort_values (groupby_sum (renumbered (where_level 1 d)))).*1.
Proof.
  intros Hd Hcols Hrows t'. subst t'.
  assert (Hem : empty (where_level 1 d) = false).
  { apply (empty_false _ "scan_number"); [|done]. apply Hcols. set_solver. }
  apply (wp_exec _ _ (λ s, SimpleMS1Tab.df s = _ ∧ SimpleMS1Tab.all_scans s = _)).
  destruct t; simpl in Hd |- *; subst.
  unfold SimpleMS1Tab.process_ms1_data.
  wp_step. wp_step.
  unfold has_columns. rewrite bool_decide_eq_true_2 by done. cbn [negb].
  wp_run_all. rewrite Hem. do 4 first [wp_step | wp_df].
  eapply (wp_frame (λ s, (SimpleMS1Tab.df s, SimpleMS1Tab.all_scans s))).
  - unfold SimpleMS1Tab.message_box.
    assert (Undrawn (λ s, (SimpleMS1Tab.df s, SimpleMS1Tab.all_scans s)))
      by (by split).
    assert (∀ n, preserves
              (λ s, (SimpleMS1Tab.df s, SimpleMS1Tab.all_scans s))
              (SimpleMS1Tab.update_scan n)).
    { intros n s.
      by rewrite simple_update_scan_df, simple_update_scan_all_scans. }
    frame.
  - intros [e|[]] s' [= Hdf Hall]; cbn.
    + unfold SimpleMS1Tab.message_box. apply wp_modify_end. cbn.
      by rewrite Hdf, Hall.
    + by rewrite Hdf, Hall.
Qed.

Lemma loc_assign_scan_numbers (labels : list nat) v (l : list Peak) k :
  scan_number <$> ((λ p : nat * Peak,
                      if bool_decide (p.1 ∈ labels) then with_Max v p.2 else p.2)
                     <$> imap (λ i r, ((k + i)%nat, r)) l)
  = scan_number <$> l.
Proof.
  revert k. induction l as [|x l IH]; intros k; [done|].
  cbn [imap fmap list_fmap]. f_equal.
  - cbn. by case_bool_decide.
  - rewrite <- (IH (S k)). do 2 f_equal.
    apply imap_ext. intros i r _. cbn. f_equal. lia.
Qed.

Lemma flagged_scan_numbers d :
  scan_number <$> rows (flagged d) = scan_number <$> rows d.
Proof.
  unfold flagged, loc_assign_Max, labelled. cbn [rows assign_Max].
  rewrite (loc_assign_scan_numbers _ 1 (with_Max 0 <$> rows d) 0).
  rewrite <- list_fmap_compose. by apply list_fmap_ext.
Qed.

Section ZoomProcess.
#[local] Arguments where_level : simpl never.
#[local] Arguments where_max : simpl never.
#[local] Arguments map_scan_number : simpl never.
#[local] Arguments assign_Max : simpl never.
#[local] Arguments loc_assign_Max : simpl never.
#[local] Arguments groupby_idxmax : simpl never.
#[local] Arguments groupby_sum : simpl never.
#[local] Arguments sort_values : simpl never.

Lemma zoom_process_renumbers (t : ZoomViewerTab.Tab) d :
ZoomViewerTab.df t = Some d → required_cols ⊆ columns d →
rows (where_level 1 d) ≠ [] →
let t' := Py.exec ZoomViewerTab.process_ms1_data t in
ZoomViewerTab.df t' = Some (flagged (renumbered (where_level 1 d)))
∧ ZoomViewerTab.all_scans t'
  = (sort_values (groupby_sum (flagged (renumbered (where_level 1 d))))).*1.
Proof.
intros Hd Hcols Hrows t'. subst t'.
assert (Hem : empty (where_level 1 d) = false).
{ apply (empty_false _ "scan_number"); [|done]. apply Hcols. set_solver. }
apply (wp_exec _ _ (λ s, ZoomViewerTab.df s = _ ∧ ZoomViewerTab.all_scans s = _)).
destruct t; simpl in Hd |- *; subst.
unfold ZoomViewerTab.process_ms1_data.
wp_step. wp_step.
unfold has_columns. rewrite bool_decide_eq_true_2 by done. cbn [negb].
wp_run_all. rewrite Hem. do 7 first [wp_step | wp_df].
fold (renumbered (where_level 1 d)).
fold (flagged (renumbered (where_level 1 d))).
set (d' := flagged (renumbered (where_level 1 d))).
assert (Hframe : ∀ n, preserves
          (λ s, (ZoomViewerTab.df s, ZoomViewerTab.all_scans s))
          (ZoomViewerTab.update_scan n)).
{ intros n s0. by rewrite zoom_update_scan_df, zoom_update_scan_all_scans. }
assert (Undrawn (λ s, (ZoomViewerTab.df s, ZoomViewerTab.all_scans s)))
  by (by split).
destruct (empty (where_max d')) eqn:Hemx; cbn [negb].
2: destruct (rows (where_max d')) as [|r rs] eqn:Hr;
     [by rewrite empty_true in Hemx|].
- do 2 wp_step.
  eapply (wp_frame (λ s, (ZoomViewerTab.df s, ZoomViewerTab.all_scans s)));
    [frame|].
  intros [e|[]] s' [= Hdf Hall]; cbn in Hdf, Hall; cbn;
    [unfold ZoomViewerTab.message_box; apply wp_modify_end; cbn|];
    by rewrite Hdf, Hall.
- do 4 wp_step.
  eapply (wp_frame (λ s, (ZoomViewerTab.df s, ZoomViewerTab.all_scans s)));
    [frame|].
  intros [e|[]] s' [= Hdf Hall]; cbn in Hdf, Hall; cbn;
    [unfold ZoomViewerTab.message_box; apply wp_modify_end; cbn|];
    by rewrite Hdf, Hall.
Qed.
End ZoomProcess.

(** * The claims *)

(** ** C1: the end-to-end click on an MS2 scan *)

Lemma dda_table_is_dda_example : dda_example dda_table.
Proof.
  split_and!.
  - by apply (bool_decide_unpack _).
  - by apply (bool_decide_unpack _).
  - apply Forall_forall. by apply (bool_decide_unpack _).
  - intros s Hs.
    repeat (apply elem_of_cons in Hs as [->|Hs]); [| | |by apply elem_of_nil in Hs].
    + exists (peak 1 100.5 1000 1 None). split; [|done]. set_solver.
    + exists (peak 2 150 500 2 (Some 500%Q)). split; [|done]. set_solver.
    + exists (peak 3 101 2000 1 None). split; [|done]. set_solver.
Qed.

(** C1, as stated, fails on the example session: right after processing,
    the click at x = 2.3 selects scan 2 but leaves the MS1 panel without any
    spectrum, so it does not render the peaks of scan 1. *)
Lemma dda_click_ms1_panel_not_redrawn :
  let t1 := Py.exec (MS1MS2Tab.on_click (click_at 2.3)) (dda_ready dda_table) in
  ¬ (MS1MS2Tab.current_scan t1 = Some 2
     ∧ spectra (MS1MS2Tab.ax_ms1 t1) = [peaks_of 1 dda_table]
     ∧ spectra (MS1MS2Tab.ax_ms2 t1) = [peaks_of 2 dda_table]
     ∧ spans (MS1MS2Tab.ax_ms1 t1) = [(Some 498.5%Q, Some 501.5%Q)]).
Proof.
  intros t1 (_ & H & _).
  assert (E : spectra (MS1MS2Tab.ax_ms1 t1) = []) by (by vm_compute).
  rewrite E in H. discriminate.
Qed.

Lemma dda_click_holds_ms1_panel_witness :
  dda_example dda_table
  ∧ spectra (MS1MS2Tab.ax_ms1
               (Py.exec (MS1MS2Tab.on_click (click_at 2.3))
                  (Py.exec (MS1MS2Tab.on_click (click_at 1))
                     (dda_ready dda_table))))
    = [peaks_of 1 dda_table].
Proof.
  split; [exact dda_table_is_dda_example|].
  exact (proj1 (proj2 (proj2
    (dda_click_holds_ms1_panel dda_table dda_table_is_dda_example)))).
Defined.

(** ** C2: processing a table without MS1 rows *)

(** The sibling failure path: with a required column missing,
    [process_ms1_data] reports the error and changes nothing else. *)
Lemma simple_process_missing_columns (t : SimpleMS1Tab.Tab) d :
  SimpleMS1Tab.df t = Some d → ¬ required_cols ⊆ columns d →
  SimpleMS1Tab.process_ms1_data t
  = (inr tt,
     SimpleMS1Tab.set_message_boxes
       (SimpleMS1Tab.message_boxes t ++ [ErrMissingColumns required_cols]) t).
Proof.
  intros Hd Hcols. apply wp_run.
  destruct t; simpl in Hd |- *; subst.
  unfold SimpleMS1Tab.process_ms1_data, SimpleMS1Tab.message_box.
  wp_step. wp_step.
  unfold has_columns. rewrite bool_decide_eq_false_2 by done. cbn [negb].
  wp_run_all. cbn. done.
Qed.

(** C2 (code defect): when the table held by the MS1 viewers has no MS1
    row, [process_ms1_data] returns normally after the error dialog and
    leaves [current_scan] and the scan list as they were, but the stored
    table has already been overwritten by its (empty) MS1 subset; so, for a
    table with at least one row, the stored table is not the same after
    the failed call as before it. *)
Theorem process_without_ms1_overwrites_table
    (d : DataFrame) (ts : SimpleMS1Tab.Tab) (tz : ZoomViewerTab.Tab) :
  required_cols ⊆ columns d → rows (where_level 1 d) = [] →
  SimpleMS1Tab.df ts = Some d → ZoomViewerTab.df tz = Some d →
  let ts' := Py.exec SimpleMS1Tab.process_ms1_data ts in
  let tz' := Py.exec ZoomViewerTab.process_ms1_data tz in
  (Py.outcome SimpleMS1Tab.process_ms1_data ts = inr tt
   ∧ SimpleMS1Tab.message_boxes ts'
     = SimpleMS1Tab.message_boxes ts ++ [ErrNoMS1]
   ∧ SimpleMS1Tab.current_scan ts' = SimpleMS1Tab.current_scan ts
   ∧ SimpleMS1Tab.all_scans ts' = SimpleMS1Tab.all_scans ts
   ∧ SimpleMS1Tab.df ts' = Some (where_level 1 d)
   ∧ (rows d ≠ [] → SimpleMS1Tab.df ts' ≠ SimpleMS1Tab.df ts))
  ∧ (Py.outcome ZoomViewerTab.process_ms1_data tz = inr tt
     ∧ ZoomViewerTab.message_boxes tz'
       = ZoomViewerTab.message_boxes tz ++ [ErrNoMS1]
     ∧ ZoomViewerTab.current_scan tz' = ZoomViewerTab.current_scan tz
     ∧ ZoomViewerTab.all_scans tz' = ZoomViewerTab.all_scans tz
     ∧ ZoomViewerTab.df tz' = Some (where_level 1 d)
     ∧ (rows d ≠ [] → ZoomViewerTab.df tz' ≠ ZoomViewerTab.df tz)).
Proof.
  intros Hcols Hrows Hds Hdz ts' tz'. subst ts' tz'.
  unfold Py.exec, Py.outcome.
  rewrite (simple_process_no_ms1 ts d Hds Hcols Hrows).
  rewrite (zoom_process_no_ms1 tz d Hdz Hcols Hrows).
  split; (split_and!; [reflexivity..|]); intros Hne; cbn.
  - rewrite Hds. intros [= E]. apply Hne. rewrite <- E. exact Hrows.
  - rewrite Hdz. intros [= E]. apply Hne. rewrite <- E. exact Hrows.
Qed.

Lemma process_without_ms1_overwrites_table_witness :
  SimpleMS1Tab.df (Py.exec (SimpleMS1Tab.set_data prm_table) SimpleMS1Tab.init)
  = Some prm_table
  ∧ SimpleMS1Tab.df
      (Py.exec SimpleMS1Tab.process_ms1_data
         (Py.exec (SimpleMS1Tab.set_data prm_table) SimpleMS1Tab.init))
    = Some {| columns := loader_columns; rows := [] |}
  ∧ ZoomViewerTab.df
      (Py.exec ZoomViewerTab.process_ms1_data
         (Py.exec (ZoomViewerTab.set_data prm_table) ZoomViewerTab.init))
    = Some {| columns := loader_columns; rows := [] |}.
Proof.
  assert (Hcols : required_cols ⊆ columns prm_table)
    by (by apply (bool_decide_unpack _)).
  assert (Hrows : rows (where_level 1 prm_table) = []) by reflexivity.
  pose proof (process_without_ms1_overwrites_table prm_table
                (Py.exec (SimpleMS1Tab.set_data prm_table) SimpleMS1Tab.init)
                (Py.exec (ZoomViewerTab.set_data prm_table) ZoomViewerTab.init)
                Hcols Hrows eq_refl eq_refl) as [Hs Hz].
  split; [reflexivity|]. split.
  - exact (proj1 (proj2 (proj2 (proj2 (proj2 Hs))))).
  - exact (proj1 (proj2 (proj2 (proj2 (proj2 Hz))))).
Defined.

(** ** C3: which scan a click selects *)

Lemma round_half_even (x : Q) :
  (x - inject_Z (Qfloor x) == 1 # 2)%Q → Z.even (Py.round x) = true.
Proof.
  intros E. unfold Py.round.
  rewrite (proj1 (Qeq_alt _ _) E).
  destruct (Z.even (Qfloor x)) eqn:Ev; [done|].
  rewrite Z.even_add, Ev. done.
Qed.

(** C3, as stated, fails in the DDA tab: with scans 1 and 3 listed, a click
    at x = 2.3 selects scan 1 although scan 3 is strictly closer to x; with
    scans 0 and 3 listed, a click at x = 1.5, equidistant from both, selects
    the larger scan 3. *)
Lemma click_not_nearest_to_x :
  (MS1MS2Tab.all_scans (dda_ready gap_table) = [1; 3]
   ∧ MS1MS2Tab.current_scan
       (Py.exec (MS1MS2Tab.on_click (click_at 2.3)) (dda_ready gap_table))
     = Some 1
   ∧ (Qabs (inject_Z 3 - 2.3) < Qabs (inject_Z 1 - 2.3))%Q)
  ∧ (MS1MS2Tab.all_scans (dda_ready tie_table) = [0; 3]
     ∧ MS1MS2Tab.current_scan
         (Py.exec (MS1MS2Tab.on_click (click_at 1.5)) (dda_ready tie_table))
       = Some 3
     ∧ (Qabs (inject_Z 3 - 1.5) == Qabs (inject_Z 0 - 1.5))%Q).
Proof. split; (split_and!; [by vm_compute..]). Qed.

(** C3 (amended): [round] gives an integer nearest to x, the even one at a
    half, and the integer itself at an integer.  A click at x on the
    chromatogram of a tab that holds a table and a non-empty scan list
    selects [round x] when it is listed (so a click exactly on a listed
    scan selects that scan); otherwise it selects a listed scan at minimum
    distance from [round x], not from x, and in an ascending scan list the
    smaller of two scans equidistant from [round x]. *)
Theorem click_selects_nearest_to_rounded
    (ts : SimpleMS1Tab.Tab) (tm : MS1MS2Tab.Tab) (x : Q) :
  is_Some (SimpleMS1Tab.df ts) → SimpleMS1Tab.all_scans ts ≠ [] →
  is_Some (MS1MS2Tab.df tm) → MS1MS2Tab.all_scans tm ≠ [] →
  let r := Py.round x in
  ((Qabs (x - inject_Z r) <= 1 # 2)%Q
   ∧ ((x - inject_Z (Qfloor x) == 1 # 2)%Q → Z.even r = true)
   ∧ (∀ k, (x == inject_Z k)%Q → r = k))
  ∧ (∃ n,
       SimpleMS1Tab.on_click (simple_click_at x) ts
       = SimpleMS1Tab.update_scan n ts
       ∧ n ∈ SimpleMS1Tab.all_scans ts
       ∧ (r ∈ SimpleMS1Tab.all_scans ts → n = r)
       ∧ (∀ k, k ∈ SimpleMS1Tab.all_scans ts → (x == inject_Z k)%Q → n = k)
       ∧ (∀ y, y ∈ SimpleMS1Tab.all_scans ts →
               Z.abs (n - r) ≤ Z.abs (y - r))
       ∧ (StronglySorted Z.lt (SimpleMS1Tab.all_scans ts) →
          ∀ y, y ∈ SimpleMS1Tab.all_scans ts →
               Z.abs (y - r) = Z.abs (n - r) → n ≤ y))
  ∧ (∃ n,
       MS1MS2Tab.on_click (click_at x) tm = MS1MS2Tab.update_scan n tm
       ∧ n ∈ MS1MS2Tab.all_scans tm
       ∧ (r ∈ MS1MS2Tab.all_scans tm → n = r)
       ∧ (∀ k, k ∈ MS1MS2Tab.all_scans tm → (x == inject_Z k)%Q → n = k)
       ∧ (∀ y, y ∈ MS1MS2Tab.all_scans tm →
               Z.abs (n - r) ≤ Z.abs (y - r))
       ∧ (StronglySorted Z.lt (MS1MS2Tab.all_scans tm) →
          ∀ y, y ∈ MS1MS2Tab.all_scans tm →
               Z.abs (y - r) = Z.abs (n - r) → n ≤ y)).
Proof.
  intros Hds Hns Hdm Hnm r.
  assert (Hint : ∀ k, (x == inject_Z k)%Q → r = k).
  { intros k E. unfold r. rewrite (round_proper _ _ E). apply round_inject_Z. }
  split_and!.
  - apply round_nearest.
  - apply round_half_even.
  - exact Hint.
  - destruct (simple_on_click_resolves ts x Hds Hns)
      as (n & Hrun & Hin & Hr & Hmin & Htie).
    exists n. split_and!; [exact Hrun|exact Hin|exact Hr| |exact Hmin|exact Htie].
    intros k Hk E. rewrite <- (Hint k E) in Hk |- *. by apply Hr.
  - destruct (ms1ms2_on_click_resolves tm x Hdm Hnm)
      as (n & Hrun & Hin & Hr & Hmin & Htie).
    exists n. split_and!; [exact Hrun|exact Hin|exact Hr| |exact Hmin|exact Htie].
    intros k Hk E. rewrite <- (Hint k E) in Hk |- *. by apply Hr.
Qed.

Lemma click_selects_nearest_to_rounded_witness :
  ∃ n, MS1MS2Tab.on_click (click_at 2.3) (dda_ready gap_table)
       = MS1MS2Tab.update_scan n (dda_ready gap_table)
     ∧ n ∈ MS1MS2Tab.all_scans (dda_ready gap_table)
     ∧ (∀ y, y ∈ MS1MS2Tab.all_scans (dda_ready gap_table) →
             Z.abs (n - Py.round 2.3) ≤ Z.abs (y - Py.round 2.3)).
Proof.
  assert (H1 : is_Some (SimpleMS1Tab.df (simple_ready gap_table)))
    by (vm_compute; eauto).
  assert (H2 : SimpleMS1Tab.all_scans (simple_ready gap_table) ≠ [])
    by (by vm_compute).
  assert (H3 : is_Some (MS1MS2Tab.df (dda_ready gap_table)))
    by (vm_compute; eauto).
  assert (H4 : MS1MS2Tab.all_scans (dda_ready gap_table) ≠ [])
    by (by vm_compute).
  destruct (click_selects_nearest_to_rounded
              (simple_ready gap_table) (dda_ready gap_table) 2.3 H1 H2 H3 H4)
    as (_ & _ & n & Hrun & Hin & _ & _ & Hmin & _).
  exists n. split_and!; [exact Hrun|exact Hin|exact Hmin].
Defined.

(** ** C4: loading a new table *)

(** C4, as stated, fails: with scan 2 selected, loading another table
    leaves scan 2 selected, in the DDA tab and in the MS1 tab alike. *)
Lemma set_data_keeps_selection :
  (let t := Py.exec (MS1MS2Tab.on_click (click_at 2.3)) (dda_ready dda_table) in
   MS1MS2Tab.current_scan t = Some 2
   ∧ MS1MS2Tab.current_scan (Py.exec (MS1MS2Tab.set_data gap_table) t) = Some 2
   ∧ MS1MS2Tab.current_scan (Py.exec (MS1MS2Tab.set_data gap_table) t) ≠ None)
  ∧ (let t := simple_ready dda_table in
     SimpleMS1Tab.current_scan t = Some 2
     ∧ SimpleMS1Tab.current_scan (Py.exec (SimpleMS1Tab.set_data gap_table) t)
       = Some 2
     ∧ SimpleMS1Tab.current_scan (Py.exec (SimpleMS1Tab.set_data gap_table) t)
       ≠ None).
Proof. split; (split_and!; [by vm_compute..]). Qed.

(** C4 (amended): in every tab [set_data] stores the new table, updates
    the status line and enables the process button; it leaves
    [current_scan] and the scan list exactly as they were, whatever they
    held. *)
Theorem set_data_keeps_current_scan (d : DataFrame) :
  (∀ t : SimpleMS1Tab.Tab,
     let t' := Py.exec (SimpleMS1Tab.set_data d) t in
     Py.outcome (SimpleMS1Tab.set_data d) t = inr tt
     ∧ SimpleMS1Tab.df t' = Some d
     ∧ SimpleMS1Tab.current_scan t' = SimpleMS1Tab.current_scan t
     ∧ SimpleMS1Tab.all_scans t' = SimpleMS1Tab.all_scans t
     ∧ SimpleMS1Tab.process_button_enabled t' = true)
  ∧ (∀ t : MS1MS2Tab.Tab,
       let t' := Py.exec (MS1MS2Tab.set_data d) t in
       Py.outcome (MS1MS2Tab.set_data d) t = inr tt
       ∧ MS1MS2Tab.df t' = Some d
       ∧ MS1MS2Tab.current_scan t' = MS1MS2Tab.current_scan t
       ∧ MS1MS2Tab.all_scans t' = MS1MS2Tab.all_scans t
       ∧ MS1MS2Tab.process_button_enabled t' = true)
  ∧ (∀ t : ZoomViewerTab.Tab,
       let t' := Py.exec (ZoomViewerTab.set_data d) t in
       Py.outcome (ZoomViewerTab.set_data d) t = inr tt
       ∧ ZoomViewerTab.df t' = Some d
       ∧ ZoomViewerTab.current_scan t' = ZoomViewerTab.current_scan t
       ∧ ZoomViewerTab.all_scans t' = ZoomViewerTab.all_scans t
       ∧ ZoomViewerTab.process_button_enabled t' = true).
Proof. split_and!; intros t; split_and!; reflexivity. Qed.

(** ** C5: the precursor bands *)

(** C5 (code defect): selecting a scan with MS2 peaks only, first of which
    carries precursor m/z p, draws on the MS2 panel the band
    [p - 1.5 + 1.45, p + 1.5 - 1.45] and leaves the spectrum of the MS1 panel
    alone.  The band [p - 1.5, p + 1.5] is added to the MS1 panel exactly
    when the title of that panel is non-empty and does not contain
    "No MS1 data": the test is on the title, not on a spectrum being shown,
    so a panel that carries the title set by processing and no spectrum
    gets the band all the same. *)
Theorem precursor_bands_follow_title_check
    (t : MS1MS2Tab.Tab) (d : DataFrame) (n : Z) (r : Peak) (rs : list Peak)
    (p : Q) :
  MS1MS2Tab.df t = Some d → required_cols ⊆ columns d →
  "precursor_mz"%string ∈ columns d →
  rows (where_level 1 (where_scan n d)) = [] →
  rows (where_level 2 (where_scan n d)) = r :: rs →
  precursor_mz r = Some p →
  handle_on MS1MS2Tab.AxChrom (MS1MS2Tab.scan_line t) →
  handle_on MS1MS2Tab.AxMS2 (MS1MS2Tab.ms2_shading_ms2 t) →
  let t' := Py.exec (MS1MS2Tab.update_scan n) t in
  let title_passes :=
    negb (bool_decide (title (MS1MS2Tab.ax_ms1 t) = ""))
    && negb (Py.contains "No MS1 data" (title (MS1MS2Tab.ax_ms1 t))) in
  MS1MS2Tab.current_scan t' = Some n
  ∧ spans (MS1MS2Tab.ax_ms2 t')
    = [(Some (p - 1.5 + 1.45)%Q, Some (p + 1.5 - 1.45)%Q)]
  ∧ spectra (MS1MS2Tab.ax_ms1 t') = spectra (MS1MS2Tab.ax_ms1 t)
  ∧ spans (MS1MS2Tab.ax_ms1 t')
    = spans (MS1MS2Tab.ax_ms1 t)
      ++ (if title_passes then [(Some (p - 1.5)%Q, Some (p + 1.5)%Q)] else [])
  ∧ (title (MS1MS2Tab.ax_ms1 t) = "MS1 Spectrum" →
     spectra (MS1MS2Tab.ax_ms1 t) = [] → spans (MS1MS2Tab.ax_ms1 t) = [] →
     spectra (MS1MS2Tab.ax_ms1 t') = []
     ∧ spans (MS1MS2Tab.ax_ms1 t')
       = [(Some (p - 1.5)%Q, Some (p + 1.5)%Q)]).
Proof.
  intros Hd Hcols Hprec Hms1 Hms2 Hp Hsl Hsh t' title_passes.
  destruct (ms1ms2_update_scan_ms2 t d n r rs Hd Hcols Hprec Hms1 Hms2 Hsl Hsh)
    as (_ & Hcur & _ & _ & _ & Hsp1 & Hb1 & _ & Hb2).
  fold t' in Hcur, Hsp1, Hb1, Hb2. rewrite Hp in Hb1, Hb2.
  cbn [fmap option_fmap option_map] in Hb1, Hb2.
  fold title_passes in Hb1.
  split_and!; [exact Hcur|exact Hb2|exact Hsp1|exact Hb1|].
  intros Ht Hs Hb. split; [by rewrite Hsp1|].
  rewrite Hb1, Hb. subst title_passes. by rewrite Ht.
Qed.

Lemma precursor_bands_follow_title_check_witness :
  Py.exec (MS1MS2Tab.update_scan 1) (dda_ready prm_table)
  = Py.exec (MS1MS2Tab.on_click (click_at 1)) (dda_ready prm_table)
  ∧ spectra (MS1MS2Tab.ax_ms1
               (Py.exec (MS1MS2Tab.update_scan 1) (dda_ready prm_table)))
    = []
  ∧ spans (MS1MS2Tab.ax_ms1
             (Py.exec (MS1MS2Tab.update_scan 1) (dda_ready prm_table)))
    = [(Some (500 - 1.5)%Q, Some (500 + 1.5)%Q)]
  ∧ spans (MS1MS2Tab.ax_ms1
             (Py.exec (MS1MS2Tab.update_scan_with_ms1_priority 1 None)
                (dda_ready prm_table)))
    = [].
Proof.
  assert (Hcols : required_cols ⊆ columns prm_table)
    by (by apply (bool_decide_unpack _)).
  assert (Hprec : "precursor_mz"%string ∈ columns prm_table)
    by (by apply (bool_decide_unpack _)).
  pose proof (precursor_bands_follow_title_check (dda_ready prm_table)
                prm_table 1
                (peak 1 150 500 2 (Some 500%Q))
                [peak 1 250 700 2 (Some 500%Q)] 500
                eq_refl Hcols Hprec eq_refl eq_refl eq_refl I I)
    as (_ & _ & _ & _ & H).
  split; [by vm_compute|].
  destruct (H eq_refl eq_refl eq_refl) as [H1 H2].
  split_and!; [exact H1|exact H2|by vm_compute].
Defined.

(** ** C6: the backward search for an MS1 scan *)

(** C6: on a tab that holds a table, [find_ms1_scan target] returns
    normally and changes nothing; its candidates are the listed scans not
    above [target], taken in descending order (strictly descending when the
    scan list has no duplicate); the result is the largest listed scan not
    above [target] that has a peak of MS level 1, and [None] exactly when
    there is no such scan.  Over scans 40 (MS1), 41 (MS2), 42 (MS2) the call
    with 42 returns 40, and over a table of MS2 scans only it returns
    [None]. *)
Theorem find_ms1_scan_backward
    (t : MS1MS2Tab.Tab) (d : DataFrame) (target : Z) :
  MS1MS2Tab.df t = Some d →
  "scan_number"%string ∈ columns d → "ms_level"%string ∈ columns d →
  let candidate_scans :=
    Py.sort_reverse (filter (λ scan, scan ≤ target) (MS1MS2Tab.all_scans t)) in
  (∀ s, s ∈ candidate_scans ↔ s ∈ MS1MS2Tab.all_scans t ∧ s ≤ target)
  ∧ StronglySorted Z.ge candidate_scans
  ∧ (NoDup (MS1MS2Tab.all_scans t) → StronglySorted Z.gt candidate_scans)
  ∧ (∃ r, MS1MS2Tab.find_ms1_scan target t = (inr r, t)
        ∧ (∀ s, r = Some s ↔
                s ∈ MS1MS2Tab.all_scans t ∧ s ≤ target ∧ has_level d 1 s
                ∧ ∀ y, y ∈ MS1MS2Tab.all_scans t → y ≤ target →
                       has_level d 1 y → y ≤ s)
        ∧ (r = None ↔
           ∀ y, y ∈ MS1MS2Tab.all_scans t → y ≤ target → ¬ has_level d 1 y))
  ∧ Py.outcome (MS1MS2Tab.find_ms1_scan 42) (dda_ready backward_table)
    = inr (Some 40)
  ∧ (∀ target', Py.outcome (MS1MS2Tab.find_ms1_scan target')
                  (dda_ready prm_table) = inr None).
Proof.
  intros Hd Hc1 Hc2 candidate_scans. split_and!.
  - intros s. unfold candidate_scans.
    rewrite sort_reverse_elem, list_elem_of_filter. tauto.
  - apply sort_reverse_descending.
  - intros Hnd. apply sort_reverse_strict. by apply NoDup_filter.
  - by apply find_ms1_scan_run.
  - by vm_compute.
  - intros target'.
    assert (Hdf : MS1MS2Tab.df (dda_ready prm_table) = Some prm_table)
      by (by vm_compute).
    assert (Hcs : "scan_number"%string ∈ columns prm_table)
      by (by apply (bool_decide_unpack _)).
    assert (Hcl : "ms_level"%string ∈ columns prm_table)
      by (by apply (bool_decide_unpack _)).
    destruct (find_ms1_scan_run (dda_ready prm_table) prm_table target'
                Hdf Hcs Hcl) as (r & Hrun & _ & Hnone).
    unfold Py.outcome. rewrite Hrun. cbn. f_equal. apply Hnone.
    intros y _ _ (p & Hp & _ & Hl).
    assert (Hall : Forall (λ p, ms_level p = 2) (rows prm_table))
      by (by apply (bool_decide_unpack _)).
    rewrite Forall_forall in Hall. specialize (Hall p Hp). lia.
Qed.

Lemma find_ms1_scan_backward_witness :
  ∃ r, MS1MS2Tab.find_ms1_scan 42 (dda_ready backward_table)
       = (inr r, dda_ready backward_table)
     ∧ (r = Some 40 ↔
        40 ∈ MS1MS2Tab.all_scans (dda_ready backward_table) ∧ 40 ≤ 42
        ∧ has_level backward_table 1 40
        ∧ ∀ y, y ∈ MS1MS2Tab.all_scans (dda_ready backward_table) → y ≤ 42 →
               has_level backward_table 1 y → y ≤ 40).
Proof.
  assert (Hdf : MS1MS2Tab.df (dda_ready backward_table) = Some backward_table)
    by (by vm_compute).
  assert (Hcs : "scan_number"%string ∈ columns backward_table)
    by (by apply (bool_decide_unpack _)).
  assert (Hcl : "ms_level"%string ∈ columns backward_table)
    by (by apply (bool_decide_unpack _)).
  destruct (find_ms1_scan_backward (dda_ready backward_table) backward_table 42
              Hdf Hcs Hcl) as (_ & _ & _ & (r & Hrun & Hsome & _) & _).
  exists r. split; [exact Hrun|exact (Hsome 40)].
Defined.

(** ** C7: dense renumbering *)

(** C7: for a table with an MS1 row held by the MS1 viewers,
    [process_ms1_data] stores the MS1 subset with its scan numbers mapped
    through [scan_mapping] (the zoom viewer then flags the top peak of each
    scan, which changes no scan number).  The sorted unique old scan numbers
    are strictly ascending; the i-th of them (from 0) is mapped to i + 1, so
    the mapping is strictly order-preserving; the new scan numbers are
    exactly 1..N; and the rows of a new scan are the rows of the old scan,
    in particular as many.  On scan numbers 5, 5, 9, 9, 9, 20 the mapping is
    5 to 1, 9 to 2, 20 to 3 and the new column is 1, 1, 2, 2, 2, 3. *)
Theorem renumbering_is_dense_and_monotone
    (d0 : DataFrame) (ts : SimpleMS1Tab.Tab) (tz : ZoomViewerTab.Tab) :
  required_cols ⊆ columns d0 → rows (where_level 1 d0) ≠ [] →
  SimpleMS1Tab.df ts = Some d0 → ZoomViewerTab.df tz = Some d0 →
  let d := where_level 1 d0 in
  let unique_scans := Py.sorted (unique (scan_number <$> rows d)) in
  let scan_mapping := Py.dict_of_swapped (Py.enumerate 1 unique_scans) in
  let d' := map_scan_number scan_mapping d in
  SimpleMS1Tab.df (Py.exec SimpleMS1Tab.process_ms1_data ts) = Some d'
  ∧ ZoomViewerTab.df (Py.exec ZoomViewerTab.process_ms1_data tz)
    = Some (flagged d')
  ∧ scan_number <$> rows (flagged d') = scan_number <$> rows d'
  ∧ StronglySorted Z.lt unique_scans
  ∧ (∀ s, s ∈ unique_scans ↔ s ∈ scan_number <$> rows d)
  ∧ (∀ i old, unique_scans !! i = Some old →
              scan_mapping !! old = Some (Z.of_nat i + 1))
  ∧ (∀ old, is_Some (scan_mapping !! old) ↔ old ∈ unique_scans)
  ∧ (∀ a b na nb, scan_mapping !! a = Some na → scan_mapping !! b = Some nb →
                  (a < b ↔ na < nb))
  ∧ (∀ n, n ∈ scan_number <$> rows d'
          ↔ 1 ≤ n ≤ Z.of_nat (length unique_scans))
  ∧ (∀ old new, scan_mapping !! old = Some new →
                rows (where_scan new d')
                = with_scan_number new <$> rows (where_scan old d))
  ∧ (∀ old new, scan_mapping !! old = Some new →
                length (rows (where_scan new d'))
                = length (rows (where_scan old d)))
  ∧ Py.dict_of_swapped
      (Py.enumerate 1 (Py.sorted (unique [5; 5; 9; 9; 9; 20])))
    = {[ 5 := 1; 9 := 2; 20 := 3 ]}
  ∧ scan_number <$> rows (renumbered sparse_table) = [1; 1; 2; 2; 2; 3].
Proof.
  intros Hcols Hrows Hds Hdz d unique_scans scan_mapping d'.
  pose proof (unique_scans_NoDup d) as Hnd.
  split_and!.
  - exact (proj1 (simple_process_renumbers ts d0 Hds Hcols Hrows)).
  - exact (proj1 (zoom_process_renumbers tz d0 Hdz Hcols Hrows)).
  - apply flagged_scan_numbers.
  - apply unique_scans_ascending.
  - intros s. apply unique_scans_elem.
  - intros i old Hi. by apply scan_mapping_lookup.
  - intros old. by apply scan_mapping_dom.
  - apply (renumber_monotone d).
  - apply (renumber_dense d).
  - apply (renumber_group d).
  - apply (renumber_count d).
  - by vm_compute.
  - by vm_compute.
Qed.

Lemma renumbering_is_dense_and_monotone_witness :
  SimpleMS1Tab.df
    (Py.exec SimpleMS1Tab.process_ms1_data
       (Py.exec (SimpleMS1Tab.set_data sparse_table) SimpleMS1Tab.init))
  = Some (map_scan_number
            (Py.dict_of_swapped
               (Py.enumerate 1
                  (Py.sorted
                     (unique
                        (scan_number <$> rows (where_level 1 sparse_table))))))
            (where_level 1 sparse_table))
  ∧ scan_number
      <$> rows (map_scan_number
                  (Py.dict_of_swapped
                     (Py.enumerate 1
                        (Py.sorted
                           (unique
                              (scan_number
                                 <$> rows (where_level 1 sparse_table))))))
                  (where_level 1 sparse_table))
    = [1; 1; 2; 2; 2; 3].
Proof.
  assert (Hcols : required_cols ⊆ columns sparse_table)
    by (by apply (bool_decide_unpack _)).
  assert (Hrows : rows (where_level 1 sparse_table) ≠ []) by (by vm_compute).
  split; [|by vm_compute].
  exact (proj1 (renumbering_is_dense_and_monotone sparse_table
                  (Py.exec (SimpleMS1Tab.set_data sparse_table)
                     SimpleMS1Tab.init)
                  (Py.exec (ZoomViewerTab.set_data sparse_table)
                     ZoomViewerTab.init)
                  Hcols Hrows eq_refl eq_refl)).
Defined.

(** ** C8: the variable-height panel *)

(** C8: when the MS1 viewers show a scan whose largest intensity m is
    positive, the variable-height panel draws each peak of the scan at its
    intensity divided by m, times 100; the largest intensity is attained by
    a peak of the scan, every peak of that intensity is drawn at exactly
    100, and no peak is drawn higher. *)
Theorem variable_panel_scales_own_max_to_100
    (d : DataFrame) (n : Z) (m : Q) :
  "scan_number"%string ∈ columns d → "intensity"%string ∈ columns d →
  "mz"%string ∈ columns d →
  max (intensity <$> rows (where_scan n d)) = Some m → (0 < m)%Q →
  let mz_values := mz <$> rows (where_scan n d) in
  let intensity_values := intensity <$> rows (where_scan n d) in
  let intensity_percent_var := percent_of (Some m) <$> intensity_values in
  (∀ (t : SimpleMS1Tab.Tab) lo hi,
     SimpleMS1Tab.df t = Some d →
     SimpleMS1Tab.instance_dict t !! "all_mz_min"%string = Some (Some lo) →
     SimpleMS1Tab.instance_dict t !! "all_mz_max"%string = Some (Some hi) →
     spectra (SimpleMS1Tab.ax_ms1_var (Py.exec (SimpleMS1Tab.update_scan n) t))
     = [(mz_values, intensity_percent_var)])
  ∧ (∀ (t : ZoomViewerTab.Tab) lo hi,
       ZoomViewerTab.df t = Some d → "Max"%string ∈ columns d →
       ZoomViewerTab.instance_dict t !! "all_mz_min"%string = Some (Some lo) →
       ZoomViewerTab.instance_dict t !! "all_mz_max"%string = Some (Some hi) →
       spectra (ZoomViewerTab.ax_ms1_var
                  (Py.exec (ZoomViewerTab.update_scan n) t))
       = [(mz_values, intensity_percent_var)])
  ∧ (∃ i, intensity_values !! i = Some m)
  ∧ (∀ i x, intensity_values !! i = Some x → (x == m)%Q →
            ∃ v, intensity_percent_var !! i = Some (Some v) ∧ (v == 100)%Q)
  ∧ (∀ i x, intensity_values !! i = Some x →
            ∃ v, intensity_percent_var !! i = Some (Some v) ∧ (v <= 100)%Q).
Proof.
  intros Hc1 Hc2 Hc3 Hmax Hm mz_values intensity_values intensity_percent_var.
  assert (Hrows : rows (where_scan n d) ≠ []).
  { intros E. rewrite E in Hmax. discriminate. }
  destruct (variable_heights intensity_values m Hmax Hm) as (Hex & H100 & Hle).
  fold intensity_values in Hmax. rewrite Hmax in H100, Hle.
  split_and!.
  - intros t lo hi Hd Hlo Hhi.
    rewrite (simple_update_scan_variable t d n lo hi) by done.
    fold intensity_values. by rewrite Hmax.
  - intros t lo hi Hd Hc4 Hlo Hhi.
    rewrite (zoom_update_scan_variable t d n lo hi) by done.
    fold intensity_values. by rewrite Hmax.
  - exact Hex.
  - exact H100.
  - exact Hle.
Qed.

Lemma variable_panel_scales_own_max_to_100_witness :
  ∃ v, (percent_of (Some 50%Q)
          <$> (intensity
                 <$> rows (where_scan 2 (renumbered sparse_table))))
       !! 2%nat = Some (Some v)
     ∧ (v == 100)%Q.
Proof.
  assert (Hc1 : "scan_number"%string ∈ columns (renumbered sparse_table))
    by (by apply (bool_decide_unpack _)).
  assert (Hc2 : "intensity"%string ∈ columns (renumbered sparse_table))
    by (by apply (bool_decide_unpack _)).
  assert (Hc3 : "mz"%string ∈ columns (renumbered sparse_table))
    by (by apply (bool_decide_unpack _)).
  assert (Hm : (0 < 50)%Q) by reflexivity.
  destruct (variable_panel_scales_own_max_to_100
              (renumbered sparse_table) 2 50 Hc1 Hc2 Hc3 eq_refl Hm)
    as (_ & _ & _ & H100 & _).
  apply (H100 2%nat 50%Q); reflexivity.
Defined.

(** ** C9: the arrow keys at the ends of the scan list *)

(** C9: in every tab, the left key with the first listed scan selected,
    and the right key with the last scan of a strictly ascending scan list
    selected, return normally and leave the whole state of the tab as it
    was; the scan list that processing stores is strictly ascending. *)
Theorem arrow_key_at_boundary_is_noop :
  (∀ (t : SimpleMS1Tab.Tab) s,
     SimpleMS1Tab.current_scan t = Some s →
     (head (SimpleMS1Tab.all_scans t) = Some s →
      SimpleMS1Tab.keyPressEvent SimpleMS1Tab.Key_Left t = (inr tt, t))
     ∧ (StronglySorted Z.lt (SimpleMS1Tab.all_scans t) →
        last (SimpleMS1Tab.all_scans t) = Some s →
        SimpleMS1Tab.keyPressEvent SimpleMS1Tab.Key_Right t = (inr tt, t)))
  ∧ (∀ (t : MS1MS2Tab.Tab) s,
       MS1MS2Tab.current_scan t = Some s →
       (head (MS1MS2Tab.all_scans t) = Some s →
        MS1MS2Tab.keyPressEvent MS1MS2Tab.Key_Left t = (inr tt, t))
       ∧ (StronglySorted Z.lt (MS1MS2Tab.all_scans t) →
          last (MS1MS2Tab.all_scans t) = Some s →
          MS1MS2Tab.keyPressEvent MS1MS2Tab.Key_Right t = (inr tt, t)))
  ∧ (∀ (t : ZoomViewerTab.Tab) s,
       ZoomViewerTab.current_scan t = Some s →
       (head (ZoomViewerTab.all_scans t) = Some s →
        ZoomViewerTab.keyPressEvent ZoomViewerTab.Key_Left t = (inr tt, t))
       ∧ (StronglySorted Z.lt (ZoomViewerTab.all_scans t) →
          last (ZoomViewerTab.all_scans t) = Some s →
          ZoomViewerTab.keyPressEvent ZoomViewerTab.Key_Right t = (inr tt, t)))
  ∧ (∀ d, StronglySorted Z.lt (sort_values (groupby_sum d)).*1).
Proof.
  split_and!.
  - intros t s Hcur. split.
    + by apply simple_key_left_first.
    + by apply simple_key_right_last.
  - intros t s Hcur. split.
    + by apply ms1ms2_key_left_first.
    + by apply ms1ms2_key_right_last.
  - intros t s Hcur. split.
    + by apply zoom_key_left_first.
    + by apply zoom_key_right_last.
  - intros d. rewrite chromatogram_keys. apply unique_scans_ascending.
Qed.

Lemma arrow_key_at_boundary_is_noop_witness :
  MS1MS2Tab.keyPressEvent MS1MS2Tab.Key_Left
    (Py.exec (MS1MS2Tab.update_scan 1) (dda_ready dda_table))
  = (inr tt, Py.exec (MS1MS2Tab.update_scan 1) (dda_ready dda_table))
  ∧ SimpleMS1Tab.keyPressEvent SimpleMS1Tab.Key_Right (simple_ready dda_table)
    = (inr tt, simple_ready dda_table).
Proof.
  destruct arrow_key_at_boundary_is_noop as (Hs & Hm & _ & _).
  split.
  - apply (proj1 (Hm (Py.exec (MS1MS2Tab.update_scan 1) (dda_ready dda_table))
                    1 ltac:(by vm_compute))).
    by vm_compute.
  - apply (proj2 (Hs (simple_ready dda_table) 2 ltac:(by vm_compute))).
    + vm_compute. repeat constructor.
    + by vm_compute.
Defined.

(** ** C10: a click always resolves to a listed scan *)

(** C10: in every tab that holds a table and a non-empty scan list, a
    click on the chromatogram at any x runs [update_scan] on an element of
    the scan list.  When the scan list is the one computed from the stored
    table, as it is right after processing, every listed scan has rows in
    that table. *)
Theorem click_resolves_to_listed_scan (x : Q) :
  (∀ t : SimpleMS1Tab.Tab,
     is_Some (SimpleMS1Tab.df t) → SimpleMS1Tab.all_scans t ≠ [] →
     ∃ n, SimpleMS1Tab.on_click (simple_click_at x) t
          = SimpleMS1Tab.update_scan n t
        ∧ n ∈ SimpleMS1Tab.all_scans t)
  ∧ (∀ t : MS1MS2Tab.Tab,
       is_Some (MS1MS2Tab.df t) → MS1MS2Tab.all_scans t ≠ [] →
       ∃ n, MS1MS2Tab.on_click (click_at x) t = MS1MS2Tab.update_scan n t
          ∧ n ∈ MS1MS2Tab.all_scans t)
  ∧ (∀ t : ZoomViewerTab.Tab,
       is_Some (ZoomViewerTab.df t) → ZoomViewerTab.all_scans t ≠ [] →
       ∃ n, ZoomViewerTab.on_click
              (ZoomViewerTab.mkMouseEvent (Some ZoomViewerTab.AxChrom) (Some x))
              t
            = ZoomViewerTab.update_scan n t
          ∧ n ∈ ZoomViewerTab.all_scans t)
  ∧ (∀ scans o n, scans_of_table scans o → n ∈ scans →
                  ∃ d, o = Some d ∧ rows (where_scan n d) ≠ [])
  ∧ (∀ (t : MS1MS2Tab.Tab) d,
       MS1MS2Tab.df t = Some d → required_cols ⊆ columns d → rows d ≠ [] →
       scans_of_table
         (MS1MS2Tab.all_scans (Py.exec MS1MS2Tab.process_data t))
         (MS1MS2Tab.df (Py.exec MS1MS2Tab.process_data t)))
  ∧ (∀ (t : SimpleMS1Tab.Tab) d,
       SimpleMS1Tab.df t = Some d → required_cols ⊆ columns d →
       rows (where_level 1 d) ≠ [] →
       scans_of_table
         (SimpleMS1Tab.all_scans (Py.exec SimpleMS1Tab.process_ms1_data t))
         (SimpleMS1Tab.df (Py.exec SimpleMS1Tab.process_ms1_data t))).
Proof.
  split_and!.
  - intros t Hd Hne.
    destruct (simple_on_click_resolves t x Hd Hne) as (n & Hrun & Hin & _).
    by exists n.
  - intros t Hd Hne.
    destruct (ms1ms2_on_click_resolves t x Hd Hne) as (n & Hrun & Hin & _).
    by exists n.
  - intros t Hd Hne.
    destruct (zoom_on_click_resolves t x Hd Hne) as (n & Hrun & Hin & _).
    by exists n.
  - intros scans o n (d & -> & ->) Hn. exists d. split; [done|].
    apply where_scan_rows_not_nil. by apply chromatogram_keys_elem.
  - intros t d Hd Hcols Hrows.
    destruct (ms1ms2_process_data_run t d Hd Hcols Hrows)
      as (lo & hi & cm & Hrun).
    unfold Py.exec. rewrite Hrun. exists d. by split.
  - intros t d Hd Hcols Hrows.
    destruct (simple_process_renumbers t d Hd Hcols Hrows) as [Hdf Hall].
    eexists. split; [exact Hdf|exact Hall].
Qed.

Lemma click_resolves_to_listed_scan_witness :
  ∃ n, MS1MS2Tab.on_click (click_at (-7.25)) (dda_ready dda_table)
       = MS1MS2Tab.update_scan n (dda_ready dda_table)
     ∧ n ∈ MS1MS2Tab.all_scans (dda_ready dda_table).
Proof.
  apply (proj1 (proj2 (click_resolves_to_listed_scan (-7.25)))).
  - vm_compute. eauto.
  - by vm_compute.
Defined.

(** * Further properties of the tabs *)

(** ** Clicks that are ignored *)

(** X1: a click is ignored, with nothing at all changed, when the tab
    holds no table, when the click is not on the chromatogram, when it
    carries no x coordinate, or when the scan list is empty. *)
Theorem click_guards_are_noops :
  (∀ (t : SimpleMS1Tab.Tab) e,
     SimpleMS1Tab.df t = None
     ∨ SimpleMS1Tab.inaxes e ≠ Some SimpleMS1Tab.AxChrom
     ∨ SimpleMS1Tab.xdata e = None
     ∨ SimpleMS1Tab.all_scans t = [] →
     SimpleMS1Tab.on_click e t = (inr tt, t))
  ∧ (∀ (t : ZoomViewerTab.Tab) e,
       ZoomViewerTab.df t = None
       ∨ ZoomViewerTab.inaxes e ≠ Some ZoomViewerTab.AxChrom
       ∨ ZoomViewerTab.xdata e = None
       ∨ ZoomViewerTab.all_scans t = [] →
       ZoomViewerTab.on_click e t = (inr tt, t))
  ∧ (∀ (t : MS1MS2Tab.Tab) e,
       MS1MS2Tab.df t = None
       ∨ MS1MS2Tab.inaxes e ≠ Some MS1MS2Tab.AxChrom
       ∨ MS1MS2Tab.xdata e = None
       ∨ MS1MS2Tab.all_scans t = [] →
       MS1MS2Tab.on_click e t = (inr tt, t)).
Proof.
  split_and!.
  - intros t [ia xd] H. unfold SimpleMS1Tab.on_click. rewrite run_get.
    cbn in H |- *.
    destruct (SimpleMS1Tab.df t), ia as [[]|], xd; try reflexivity;
      try (destruct H as [?|[?|[?|?]]]; done).
    destruct H as [?|[?|[?|H]]]; try done.
    by rewrite bool_decide_eq_true_2.
  - intros t [ia xd] H. unfold ZoomViewerTab.on_click. rewrite run_get.
    cbn in H |- *.
    destruct (ZoomViewerTab.df t), ia as [[]|], xd; try reflexivity;
      try (destruct H as [?|[?|[?|?]]]; done).
    destruct H as [?|[?|[?|H]]]; try done.
    by rewrite bool_decide_eq_true_2.
  - intros t [ia xd] H. unfold MS1MS2Tab.on_click. rewrite run_get.
    cbn in H |- *.
    destruct (MS1MS2Tab.df t), ia as [[]|], xd; try reflexivity;
      try (destruct H as [?|[?|[?|?]]]; done).
    destruct H as [?|[?|[?|H]]]; try done.
    by rewrite bool_decide_eq_true_2.
Qed.

Lemma click_guards_are_noops_witness :
  MS1MS2Tab.on_click
    (MS1MS2Tab.mkMouseEvent (Some MS1MS2Tab.AxMS1) (Some 2%Q))
    (dda_ready dda_table)
  = (inr tt, dda_ready dda_table)
  ∧ SimpleMS1Tab.on_click (simple_click_at 2)
      (Py.exec (SimpleMS1Tab.set_data dda_table) SimpleMS1Tab.init)
    = (inr tt, Py.exec (SimpleMS1Tab.set_data dda_table) SimpleMS1Tab.init).
Proof.
  destruct click_guards_are_noops as (Hs & _ & Hm). split.
  - apply Hm. right. left. discriminate.
  - apply Hs. right. right. right. reflexivity.
Defined.

(** ** Arrow keys *)

Lemma list_find_lookup (x : Z) (l : list Z) i :
  NoDup l → l !! i = Some x → list_find (λ y, y = x) l = Some (i, x).
Proof.
  intros Hnd Hi. apply list_find_Some. split_and!; [done|done|].
  intros j y Hj Hlt ->.
  pose proof (NoDup_lookup l i j x Hnd Hi Hj). lia.
Qed.

Lemma run_index_lookup {S B} (x : Z) (l : list Z) i (k : nat → Py.M S B) s :
  NoDup l → l !! i = Some x → (Py.index x l ≫= k) s = k i s.
Proof.
  intros Hnd Hi. unfold Py.index. by rewrite (list_find_lookup x l i).
Qed.

Lemma run_index_absent {S B} (x : Z) (l : list Z) (k : nat → Py.M S B) s :
  x ∉ l → (Py.index x l ≫= k) s = (inl Py.ValueError, s).
Proof.
  intros Hx. unfold Py.index.
  destruct (list_find (λ y, y = x) l) as [[i y]|] eqn:E; [|done].
  apply list_find_Some in E as (Hi & -> & _).
  destruct Hx. by eapply list_elem_of_lookup_2.
Qed.

Lemma run_getitem {S A B} (x : A) (l : list A) i (k : A → Py.M S B) s :
  l !! i = Some x → (Py.getitem l i ≫= k) s = k x s.
Proof.
  intros E. unfold Py.getitem, mbind, Py_bind, Py.bind. by rewrite E.
Qed.

Ltac key_steps Hcur Hne Hnd Hi :=
  rewrite run_get, Hcur;
  rewrite bool_decide_eq_false_2 by exact Hne;
  rewrite (run_index_lookup _ _ _ _ _ Hnd Hi).

(** X2: with the scan at position i of a duplicate-free scan list
    selected, the left key runs [update_scan] on the scan at position i - 1
    (when i > 0) and the right key on the scan at position i + 1 (when there
    is one); any other key changes nothing. *)
Theorem arrow_keys_step_to_neighbour :
  (∀ (t : SimpleMS1Tab.Tab) i cur,
     SimpleMS1Tab.current_scan t = Some cur →
     NoDup (SimpleMS1Tab.all_scans t) →
     SimpleMS1Tab.all_scans t !! i = Some cur →
     (∀ s, SimpleMS1Tab.all_scans t !! (i - 1)%nat = Some s → (0 < i)%nat →
           SimpleMS1Tab.keyPressEvent SimpleMS1Tab.Key_Left t
           = SimpleMS1Tab.update_scan s t)
     ∧ (∀ s, SimpleMS1Tab.all_scans t !! (i + 1)%nat = Some s →
             SimpleMS1Tab.keyPressEvent SimpleMS1Tab.Key_Right t
             = SimpleMS1Tab.update_scan s t)
     ∧ SimpleMS1Tab.keyPressEvent SimpleMS1Tab.Key_Other t = (inr tt, t))
  ∧ (∀ (t : ZoomViewerTab.Tab) i cur,
       ZoomViewerTab.current_scan t = Some cur →
       NoDup (ZoomViewerTab.all_scans t) →
       ZoomViewerTab.all_scans t !! i = Some cur →
       (∀ s, ZoomViewerTab.all_scans t !! (i - 1)%nat = Some s → (0 < i)%nat →
             ZoomViewerTab.keyPressEvent ZoomViewerTab.Key_Left t
             = ZoomViewerTab.update_scan s t)
       ∧ (∀ s, ZoomViewerTab.all_scans t !! (i + 1)%nat = Some s →
               ZoomViewerTab.keyPressEvent ZoomViewerTab.Key_Right t
               = ZoomViewerTab.update_scan s t)
       ∧ ZoomViewerTab.keyPressEvent ZoomViewerTab.Key_Other t = (inr tt, t))
  ∧ (∀ (t : MS1MS2Tab.Tab) i cur,
       MS1MS2Tab.current_scan t = Some cur →
       NoDup (MS1MS2Tab.all_scans t) →
       MS1MS2Tab.all_scans t !! i = Some cur →
       (∀ s, MS1MS2Tab.all_scans t !! (i - 1)%nat = Some s → (0 < i)%nat →
             MS1MS2Tab.keyPressEvent MS1MS2Tab.Key_Left t
             = MS1MS2Tab.update_scan s t)
       ∧ (∀ s, MS1MS2Tab.all_scans t !! (i + 1)%nat = Some s →
               MS1MS2Tab.keyPressEvent MS1MS2Tab.Key_Right t
               = MS1MS2Tab.update_scan s t)
       ∧ MS1MS2Tab.keyPressEvent MS1MS2Tab.Key_Other t = (inr tt, t)).
Proof.
  split_and!; intros t i cur Hcur Hnd Hi.
  all: assert (Hne : ¬ (_ = [])) by (intros E; by rewrite E in Hi).
  - split_and!.
    + intros s Hs Hpos. unfold SimpleMS1Tab.keyPressEvent.
      key_steps Hcur Hne Hnd Hi.
      rewrite bool_decide_eq_true_2 by done. by rewrite (run_getitem s).
    + intros s Hs. unfold SimpleMS1Tab.keyPressEvent.
      key_steps Hcur Hne Hnd Hi.
      pose proof (lookup_lt_Some _ _ _ Hs).
      rewrite bool_decide_eq_true_2 by lia. by rewrite (run_getitem s).
    + unfold SimpleMS1Tab.keyPressEvent. by key_steps Hcur Hne Hnd Hi.
  - split_and!.
    + intros s Hs Hpos. unfold ZoomViewerTab.keyPressEvent.
      key_steps Hcur Hne Hnd Hi.
      rewrite bool_decide_eq_true_2 by done. by rewrite (run_getitem s).
    + intros s Hs. unfold ZoomViewerTab.keyPressEvent.
      key_steps Hcur Hne Hnd Hi.
      pose proof (lookup_lt_Some _ _ _ Hs).
      rewrite bool_decide_eq_true_2 by lia. by rewrite (run_getitem s).
    + unfold ZoomViewerTab.keyPressEvent. by key_steps Hcur Hne Hnd Hi.
  - split_and!.
    + intros s Hs Hpos. unfold MS1MS2Tab.keyPressEvent.
      key_steps Hcur Hne Hnd Hi.
      rewrite bool_decide_eq_true_2 by done. by rewrite (run_getitem s).
    + intros s Hs. unfold MS1MS2Tab.keyPressEvent.
      key_steps Hcur Hne Hnd Hi.
      pose proof (lookup_lt_Some _ _ _ Hs).
      rewrite bool_decide_eq_true_2 by lia. by rewrite (run_getitem s).
    + unfold MS1MS2Tab.keyPressEvent. by key_steps Hcur Hne Hnd Hi.
Qed.

Lemma arrow_keys_step_to_neighbour_witness :
  MS1MS2Tab.keyPressEvent MS1MS2Tab.Key_Left
    (Py.exec (MS1MS2Tab.on_click (click_at 2)) (dda_ready dda_table))
  = MS1MS2Tab.update_scan 1
      (Py.exec (MS1MS2Tab.on_click (click_at 2)) (dda_ready dda_table))
  ∧ MS1MS2Tab.keyPressEvent MS1MS2Tab.Key_Right
      (Py.exec (MS1MS2Tab.on_click (click_at 2)) (dda_ready dda_table))
    = MS1MS2Tab.update_scan 3
        (Py.exec (MS1MS2Tab.on_click (click_at 2)) (dda_ready dda_table)).
Proof.
  destruct arrow_keys_step_to_neighbour as (_ & _ & Hm).
  assert (Hnd : NoDup (MS1MS2Tab.all_scans
            (Py.exec (MS1MS2Tab.on_click (click_at 2)) (dda_ready dda_table)))).
  { vm_compute. apply (bool_decide_unpack _). by vm_compute. }
  destruct (Hm (Py.exec (MS1MS2Tab.on_click (click_at 2)) (dda_ready dda_table))
              1%nat 2 ltac:(by vm_compute) Hnd ltac:(by vm_compute))
    as (Hl & Hr & _).
  split.
  - apply Hl; [by vm_compute|lia].
  - apply Hr. by vm_compute.
Defined.

(** X3: a key press without a selection, or with an empty scan list,
    changes nothing. *)
Theorem key_press_without_selection_is_noop :
  (∀ (t : SimpleMS1Tab.Tab) key,
     SimpleMS1Tab.current_scan t = None ∨ SimpleMS1Tab.all_scans t = [] →
     SimpleMS1Tab.keyPressEvent key t = (inr tt, t))
  ∧ (∀ (t : ZoomViewerTab.Tab) key,
       ZoomViewerTab.current_scan t = None ∨ ZoomViewerTab.all_scans t = [] →
       ZoomViewerTab.keyPressEvent key t = (inr tt, t))
  ∧ (∀ (t : MS1MS2Tab.Tab) key,
       MS1MS2Tab.current_scan t = None ∨ MS1MS2Tab.all_scans t = [] →
       MS1MS2Tab.keyPressEvent key t = (inr tt, t)).
Proof.
  split_and!; intros t key H.
  - unfold SimpleMS1Tab.keyPressEvent. rewrite run_get.
    destruct (SimpleMS1Tab.current_scan t); [|done].
    destruct H as [?|H]; [done|]. by rewrite bool_decide_eq_true_2.
  - unfold ZoomViewerTab.keyPressEvent. rewrite run_get.
    destruct (ZoomViewerTab.current_scan t); [|done].
    destruct H as [?|H]; [done|]. by rewrite bool_decide_eq_true_2.
  - unfold MS1MS2Tab.keyPressEvent. rewrite run_get.
    destruct (MS1MS2Tab.current_scan t); [|done].
    destruct H as [?|H]; [done|]. by rewrite bool_decide_eq_true_2.
Qed.

Lemma key_press_without_selection_is_noop_witness :
  MS1MS2Tab.keyPressEvent MS1MS2Tab.Key_Right (dda_ready dda_table)
  = (inr tt, dda_ready dda_table).
Proof.
  apply (proj2 (proj2 key_press_without_selection_is_noop)).
  left. reflexivity.
Defined.

(** X4: when the selected scan is not in the (non-empty) scan list, every
    key press, arrow or not, raises [ValueError] out of the handler and
    changes nothing: the position of the selection is looked up before the
    key is examined.  The DDA tab gets into that state when a second table
    is loaded and processed while a scan of the first is selected. *)
Theorem key_press_on_unlisted_selection_raises :
  (∀ (t : SimpleMS1Tab.Tab) key cur,
     SimpleMS1Tab.current_scan t = Some cur →
     SimpleMS1Tab.all_scans t ≠ [] → cur ∉ SimpleMS1Tab.all_scans t →
     SimpleMS1Tab.keyPressEvent key t = (inl Py.ValueError, t))
  ∧ (∀ (t : ZoomViewerTab.Tab) key cur,
       ZoomViewerTab.current_scan t = Some cur →
       ZoomViewerTab.all_scans t ≠ [] → cur ∉ ZoomViewerTab.all_scans t →
       ZoomViewerTab.keyPressEvent key t = (inl Py.ValueError, t))
  ∧ (∀ (t : MS1MS2Tab.Tab) key cur,
       MS1MS2Tab.current_scan t = Some cur →
       MS1MS2Tab.all_scans t ≠ [] → cur ∉ MS1MS2Tab.all_scans t →
       MS1MS2Tab.keyPressEvent key t = (inl Py.ValueError, t))
  ∧ (MS1MS2Tab.current_scan dda_reloaded = Some 2
     ∧ MS1MS2Tab.all_scans dda_reloaded = [1; 3]).
Proof.
  split_and!; [| | |by vm_compute|by vm_compute].
  - intros t key cur Hcur Hne Hout. unfold SimpleMS1Tab.keyPressEvent.
    rewrite run_get, Hcur. rewrite bool_decide_eq_false_2 by done.
    by rewrite run_index_absent.
  - intros t key cur Hcur Hne Hout. unfold ZoomViewerTab.keyPressEvent.
    rewrite run_get, Hcur. rewrite bool_decide_eq_false_2 by done.
    by rewrite run_index_absent.
  - intros t key cur Hcur Hne Hout. unfold MS1MS2Tab.keyPressEvent.
    rewrite run_get, Hcur. rewrite bool_decide_eq_false_2 by done.
    by rewrite run_index_absent.
Qed.

Lemma key_press_on_unlisted_selection_raises_witness :
  MS1MS2Tab.keyPressEvent MS1MS2Tab.Key_Other dda_reloaded
  = (inl Py.ValueError, dda_reloaded).
Proof.
  apply (proj1 (proj2 (proj2 key_press_on_unlisted_selection_raises))
           dda_reloaded MS1MS2Tab.Key_Other 2).
  - by vm_compute.
  - by vm_compute.
  - assert (E : MS1MS2Tab.all_scans dda_reloaded = [1; 3]) by (by vm_compute).
    rewrite E. apply (bool_decide_unpack _). by vm_compute.
Defined.

(** ** Processing that cannot start *)

(** X5: pressing the process button on a tab without a table only shows
    the warning dialog, and on a table that lacks a required column only
    the error dialog naming the required columns; the stored table, the
    selection, the scan list and the figure stay as they were. *)
Theorem process_refusals_change_nothing :
  (∀ t : SimpleMS1Tab.Tab,
     (SimpleMS1Tab.df t = None →
      SimpleMS1Tab.process_ms1_data t
      = (inr tt, SimpleMS1Tab.set_message_boxes
                   (SimpleMS1Tab.message_boxes t ++ [WarnNoData]) t))
     ∧ (∀ d, SimpleMS1Tab.df t = Some d → ¬ required_cols ⊆ columns d →
             SimpleMS1Tab.process_ms1_data t
             = (inr tt, SimpleMS1Tab.set_message_boxes
                          (SimpleMS1Tab.message_boxes t
                           ++ [ErrMissingColumns required_cols]) t)))
  ∧ (∀ t : ZoomViewerTab.Tab,
       (ZoomViewerTab.df t = None →
        ZoomViewerTab.process_ms1_data t
        = (inr tt, ZoomViewerTab.set_message_boxes
                     (ZoomViewerTab.message_boxes t ++ [WarnNoData]) t))
       ∧ (∀ d, ZoomViewerTab.df t = Some d → ¬ required_cols ⊆ columns d →
               ZoomViewerTab.process_ms1_data t
               = (inr tt, ZoomViewerTab.set_message_boxes
                            (ZoomViewerTab.message_boxes t
                             ++ [ErrMissingColumns required_cols]) t)))
  ∧ (∀ t : MS1MS2Tab.Tab,
       (MS1MS2Tab.df t = None →
        MS1MS2Tab.process_data t
        = (inr tt, MS1MS2Tab.set_message_boxes
                     (MS1MS2Tab.message_boxes t ++ [WarnNoData]) t))
       ∧ (∀ d, MS1MS2Tab.df t = Some d → ¬ required_cols ⊆ columns d →
               MS1MS2Tab.process_data t
               = (inr tt, MS1MS2Tab.set_message_boxes
                            (MS1MS2Tab.message_boxes t
                             ++ [ErrMissingColumns required_cols]) t))).
Proof.
  split_and!; intros t; split.
  - intros Hd. unfold SimpleMS1Tab.process_ms1_data. rewrite run_get, Hd.
    reflexivity.
  - intros d Hd Hcols. apply wp_run.
    destruct t; simpl in Hd |- *; subst.
    unfold SimpleMS1Tab.process_ms1_data, SimpleMS1Tab.message_box.
    wp_step. wp_step.
    unfold has_columns. rewrite bool_decide_eq_false_2 by done. cbn [negb].
    wp_run_all. cbn. done.
  - intros Hd. unfold ZoomViewerTab.process_ms1_data. rewrite run_get, Hd.
    reflexivity.
  - intros d Hd Hcols. apply wp_run.
    destruct t; simpl in Hd |- *; subst.
    unfold ZoomViewerTab.process_ms1_data, ZoomViewerTab.message_box.
    wp_step. wp_step.
    unfold has_columns. rewrite bool_decide_eq_false_2 by done. cbn [negb].
    wp_run_all. cbn. done.
  - intros Hd. unfold MS1MS2Tab.process_data. rewrite run_get, Hd.
    reflexivity.
  - intros d Hd Hcols. apply wp_run.
    destruct t; simpl in Hd |- *; subst.
    unfold MS1MS2Tab.process_data, MS1MS2Tab.message_box.
    wp_step. wp_step.
    unfold has_columns. rewrite bool_decide_eq_false_2 by done. cbn [negb].
    wp_run_all. cbn. done.
Qed.

Lemma process_refusals_change_nothing_witness :
  MS1MS2Tab.process_data MS1MS2Tab.init
  = (inr tt, MS1MS2Tab.set_message_boxes [WarnNoData] MS1MS2Tab.init)
  ∧ SimpleMS1Tab.message_boxes
      (Py.exec SimpleMS1Tab.process_ms1_data
         (Py.exec (SimpleMS1Tab.set_data no_intensity_table)
            (simple_ready dda_table)))
    = [ErrMissingColumns required_cols].
Proof.
  destruct process_refusals_change_nothing as (Hs & _ & Hm). split.
  - exact (proj1 (Hm MS1MS2Tab.init) eq_refl).
  - unfold Py.exec at 1.
    rewrite (proj2 (Hs (Py.exec (SimpleMS1Tab.set_data no_intensity_table)
                          (simple_ready dda_table)))
               no_intensity_table eq_refl).
    + by vm_compute.
    + intros H. assert (Hin : "intensity"%string ∈ required_cols)
        by (by apply (bool_decide_unpack _)).
      apply H in Hin. revert Hin. apply (bool_decide_unpack _). by vm_compute.
Defined.

(** ** Processing never lets an exception escape *)

Lemma wp_any {S A} (m : Py.M S A) s (Q : Py.Exn + A → S → Prop) :
  (∀ r s', Q r s') → wp m s Q.
Proof. intros H. apply H. Qed.

(** X6: whatever the state of the tab and whatever the table it holds,
    pressing the process button returns normally: an exception raised
    while processing is caught and reported in a dialog. *)
Theorem process_never_raises :
  (∀ t : SimpleMS1Tab.Tab,
     Py.outcome SimpleMS1Tab.process_ms1_data t = inr tt)
  ∧ (∀ t : ZoomViewerTab.Tab,
       Py.outcome ZoomViewerTab.process_ms1_data t = inr tt)
  ∧ (∀ t : MS1MS2Tab.Tab, Py.outcome MS1MS2Tab.process_data t = inr tt).
Proof.
  split_and!; intros t.
  - apply (wp_both _ _ (λ r _, r = inr tt)).
    unfold SimpleMS1Tab.process_ms1_data. apply wp_get.
    destruct (SimpleMS1Tab.df t); [|reflexivity].
    apply wp_try_except, wp_any. by intros [e|[]] s'.
  - apply (wp_both _ _ (λ r _, r = inr tt)).
    unfold ZoomViewerTab.process_ms1_data. apply wp_get.
    destruct (ZoomViewerTab.df t); [|reflexivity].
    apply wp_try_except, wp_any. by intros [e|[]] s'.
  - apply (wp_both _ _ (λ r _, r = inr tt)).
    unfold MS1MS2Tab.process_data. apply wp_get.
    destruct (MS1MS2Tab.df t); [|reflexivity].
    apply wp_try_except, wp_any. by intros [e|[]] s'.
Qed.

(** X7: the DDA tab, given a table with the required columns and no row,
    reports a processing error ([ValueError], from the NaN axis limit), and
    by then it has already emptied the scan list and redrawn the
    chromatogram without points; the stored table and the selection are as
    before. *)
Theorem dda_process_of_empty_table_fails_late (t : MS1MS2Tab.Tab) d :
  MS1MS2Tab.df t = Some d → required_cols ⊆ columns d → rows d = [] →
  let t' := Py.exec MS1MS2Tab.process_data t in
  Py.outcome MS1MS2Tab.process_data t = inr tt
  ∧ MS1MS2Tab.message_boxes t'
    = MS1MS2Tab.message_boxes t ++ [ErrProcessing Py.ValueError]
  ∧ MS1MS2Tab.all_scans t' = []
  ∧ artists (MS1MS2Tab.ax_chrom t') = [(MS1MS2Tab.artist_count t, Line2D [])]
  ∧ MS1MS2Tab.df t' = Some d
  ∧ MS1MS2Tab.current_scan t' = MS1MS2Tab.current_scan t
  ∧ MS1MS2Tab.ax_ms1 t' = MS1MS2Tab.ax_ms1 t
  ∧ MS1MS2Tab.ax_ms2 t' = MS1MS2Tab.ax_ms2 t.
Proof.
  intros Hd Hcols Hrows t'. subst t'.
  wp_start MS1MS2Tab.process_data t.
  destruct t; simpl in Hd |- *; subst.
  destruct d as [cols rs]. simpl in Hcols, Hrows. subst rs.
  unfold MS1MS2Tab.process_data, MS1MS2Tab.message_box.
  wp_step. wp_step.
  unfold has_columns. rewrite bool_decide_eq_true_2 by done. cbn [negb].
  cbn [groupby_sum sort_values rows fmap list_fmap].
  wp_run_all. cbn. done.
Qed.

Lemma dda_process_of_empty_table_fails_late_witness :
  MS1MS2Tab.message_boxes
    (Py.exec MS1MS2Tab.process_data
       (Py.exec (MS1MS2Tab.set_data no_rows_table) (dda_ready dda_table)))
  = [ErrProcessing Py.ValueError]
  ∧ MS1MS2Tab.all_scans
      (Py.exec MS1MS2Tab.process_data
         (Py.exec (MS1MS2Tab.set_data no_rows_table) (dda_ready dda_table)))
    = [].
Proof.
  assert (Hcols : required_cols ⊆ columns no_rows_table)
    by (by apply (bool_decide_unpack _)).
  destruct (dda_process_of_empty_table_fails_late
              (Py.exec (MS1MS2Tab.set_data no_rows_table) (dda_ready dda_table))
              no_rows_table eq_refl Hcols eq_refl)
    as (_ & Hbox & Hall & _).
  split; [exact Hbox|exact Hall].
Defined.

(** ** What navigation leaves alone *)

(** X8: no click and no key press ever changes the stored table or the
    scan list of a tab, whether the handler returns normally or raises. *)
Theorem navigation_keeps_table_and_scan_list :
  (∀ (t : SimpleMS1Tab.Tab) e key,
     SimpleMS1Tab.df (Py.exec (SimpleMS1Tab.on_click e) t) = SimpleMS1Tab.df t
     ∧ SimpleMS1Tab.all_scans (Py.exec (SimpleMS1Tab.on_click e) t)
       = SimpleMS1Tab.all_scans t
     ∧ SimpleMS1Tab.df (Py.exec (SimpleMS1Tab.keyPressEvent key) t)
       = SimpleMS1Tab.df t
     ∧ SimpleMS1Tab.all_scans (Py.exec (SimpleMS1Tab.keyPressEvent key) t)
       = SimpleMS1Tab.all_scans t)
  ∧ (∀ (t : ZoomViewerTab.Tab) e key,
       ZoomViewerTab.df (Py.exec (ZoomViewerTab.on_click e) t)
       = ZoomViewerTab.df t
       ∧ ZoomViewerTab.all_scans (Py.exec (ZoomViewerTab.on_click e) t)
         = ZoomViewerTab.all_scans t
       ∧ ZoomViewerTab.df (Py.exec (ZoomViewerTab.keyPressEvent key) t)
         = ZoomViewerTab.df t
       ∧ ZoomViewerTab.all_scans (Py.exec (ZoomViewerTab.keyPressEvent key) t)
         = ZoomViewerTab.all_scans t)
  ∧ (∀ (t : MS1MS2Tab.Tab) e key,
       MS1MS2Tab.df (Py.exec (MS1MS2Tab.on_click e) t) = MS1MS2Tab.df t
       ∧ MS1MS2Tab.all_scans (Py.exec (MS1MS2Tab.on_click e) t)
         = MS1MS2Tab.all_scans t
       ∧ MS1MS2Tab.df (Py.exec (MS1MS2Tab.keyPressEvent key) t)
         = MS1MS2Tab.df t
       ∧ MS1MS2Tab.all_scans (Py.exec (MS1MS2Tab.keyPressEvent key) t)
         = MS1MS2Tab.all_scans t).
Proof.
  split_and!; intros t e key.
  - assert (H1 : preserves SimpleMS1Tab.df (SimpleMS1Tab.on_click e))
      by (unfold SimpleMS1Tab.on_click; frame).
    assert (H2 : preserves SimpleMS1Tab.all_scans (SimpleMS1Tab.on_click e))
      by (unfold SimpleMS1Tab.on_click; frame).
    assert (H3 : preserves SimpleMS1Tab.df (SimpleMS1Tab.keyPressEvent key))
      by (unfold SimpleMS1Tab.keyPressEvent; frame).
    assert (H4 : preserves SimpleMS1Tab.all_scans
                   (SimpleMS1Tab.keyPressEvent key))
      by (unfold SimpleMS1Tab.keyPressEvent; frame).
    split_and!; [apply H1|apply H2|apply H3|apply H4].
  - assert (H1 : preserves ZoomViewerTab.df (ZoomViewerTab.on_click e))
      by (unfold ZoomViewerTab.on_click; frame).
    assert (H2 : preserves ZoomViewerTab.all_scans (ZoomViewerTab.on_click e))
      by (unfold ZoomViewerTab.on_click; frame).
    assert (H3 : preserves ZoomViewerTab.df (ZoomViewerTab.keyPressEvent key))
      by (unfold ZoomViewerTab.keyPressEvent; frame).
    assert (H4 : preserves ZoomViewerTab.all_scans
                   (ZoomViewerTab.keyPressEvent key))
      by (unfold ZoomViewerTab.keyPressEvent; frame).
    split_and!; [apply H1|apply H2|apply H3|apply H4].
  - assert (H1 : preserves MS1MS2Tab.df (MS1MS2Tab.on_click e))
      by (unfold MS1MS2Tab.on_click; frame).
    assert (H2 : preserves MS1MS2Tab.all_scans (MS1MS2Tab.on_click e))
      by (unfold MS1MS2Tab.on_click; frame).
    assert (H3 : preserves MS1MS2Tab.df (MS1MS2Tab.keyPressEvent key))
      by (unfold MS1MS2Tab.keyPressEvent; frame).
    assert (H4 : preserves MS1MS2Tab.all_scans (MS1MS2Tab.keyPressEvent key))
      by (unfold MS1MS2Tab.keyPressEvent; frame).
    split_and!; [apply H1|apply H2|apply H3|apply H4].
Qed.

(** ** The selection stays in the scan list *)

Lemma list_find_present (x : Z) (l : list Z) :
  x ∈ l → ∃ i, list_find (λ y, y = x) l = Some (i, x) ∧ l !! i = Some x.
Proof.
  intros Hx.
  destruct (list_find_elem_of (λ y, y = x) l x Hx eq_refl) as [[i y] E].
  pose proof E as (Hi & -> & _)%list_find_Some. by exists i.
Qed.

Lemma run_index_found {S B} (x : Z) (l : list Z) i y (k : nat → Py.M S B) s :
  list_find (λ y, y = x) l = Some (i, y) → (Py.index x l ≫= k) s = k i s.
Proof. intros E. unfold Py.index. by rewrite E. Qed.

Lemma simple_on_click_cases (t : SimpleMS1Tab.Tab) e :
  SimpleMS1Tab.on_click e t = (inr tt, t)
  ∨ ∃ n, n ∈ SimpleMS1Tab.all_scans t
       ∧ SimpleMS1Tab.on_click e t = SimpleMS1Tab.update_scan n t.
Proof.
  destruct e as [ia xd].
  destruct (SimpleMS1Tab.df t) as [d|] eqn:Hd; cycle 1.
  { left. unfold SimpleMS1Tab.on_click. by rewrite run_get, Hd. }
  destruct ia as [[]|]; try (left; unfold SimpleMS1Tab.on_click;
                             by rewrite run_get, Hd).
  destruct xd as [x|]; cycle 1.
  { left. unfold SimpleMS1Tab.on_click. by rewrite run_get, Hd. }
  destruct (decide (SimpleMS1Tab.all_scans t = [])) as [E|Hne].
  { left. unfold SimpleMS1Tab.on_click. rewrite run_get, Hd. cbn.
    by rewrite bool_decide_eq_true_2. }
  right.
  destruct (simple_on_click_resolves t x) as (n & Hrun & Hin & _);
    [by rewrite Hd|done|]. by exists n.
Qed.

Lemma zoom_on_click_cases (t : ZoomViewerTab.Tab) e :
  ZoomViewerTab.on_click e t = (inr tt, t)
  ∨ ∃ n, n ∈ ZoomViewerTab.all_scans t
       ∧ ZoomViewerTab.on_click e t = ZoomViewerTab.update_scan n t.
Proof.
  destruct e as [ia xd].
  destruct (ZoomViewerTab.df t) as [d|] eqn:Hd; cycle 1.
  { left. unfold ZoomViewerTab.on_click. by rewrite run_get, Hd. }
  destruct ia as [[]|]; try (left; unfold ZoomViewerTab.on_click;
                             by rewrite run_get, Hd).
  destruct xd as [x|]; cycle 1.
  { left. unfold ZoomViewerTab.on_click. by rewrite run_get, Hd. }
  destruct (decide (ZoomViewerTab.all_scans t = [])) as [E|Hne].
  { left. unfold ZoomViewerTab.on_click. rewrite run_get, Hd. cbn.
    by rewrite bool_decide_eq_true_2. }
  right.
  destruct (zoom_on_click_resolves t x) as (n & Hrun & Hin & _);
    [by rewrite Hd|done|]. by exists n.
Qed.

Lemma ms1ms2_on_click_cases (t : MS1MS2Tab.Tab) e :
  MS1MS2Tab.on_click e t = (inr tt, t)
  ∨ ∃ n, n ∈ MS1MS2Tab.all_scans t
       ∧ MS1MS2Tab.on_click e t = MS1MS2Tab.update_scan n t.
Proof.
  destruct e as [ia xd].
  destruct (MS1MS2Tab.df t) as [d|] eqn:Hd; cycle 1.
  { left. unfold MS1MS2Tab.on_click. by rewrite run_get, Hd. }
  destruct ia as [[]|]; try (left; unfold MS1MS2Tab.on_click;
                             by rewrite run_get, Hd).
  destruct xd as [x|]; cycle 1.
  { left. unfold MS1MS2Tab.on_click. by rewrite run_get, Hd. }
  destruct (decide (MS1MS2Tab.all_scans t = [])) as [E|Hne].
  { left. unfold MS1MS2Tab.on_click. rewrite run_get, Hd. cbn.
    by rewrite bool_decide_eq_true_2. }
  right.
  destruct (ms1ms2_on_click_resolves t x) as (n & Hrun & Hin & _);
    [by rewrite Hd|done|]. by exists n.
Qed.

Ltac key_cases t cur Hcur Hinv :=
  rewrite run_get, Hcur;
  let Hne := fresh "Hne" in
  case_bool_decide as Hne; [by left|];
  let i := fresh "i" in let Hf := fresh "Hf" in let Hi := fresh "Hi" in
  destruct (list_find_present cur _ (Hinv cur eq_refl)) as (i & Hf & Hi);
  rewrite (run_index_found _ _ _ _ _ _ Hf).

Lemma simple_key_cases (t : SimpleMS1Tab.Tab) key :
  selection_listed (SimpleMS1Tab.current_scan t) (SimpleMS1Tab.all_scans t) →
  SimpleMS1Tab.keyPressEvent key t = (inr tt, t)
  ∨ ∃ n, n ∈ SimpleMS1Tab.all_scans t
       ∧ SimpleMS1Tab.keyPressEvent key t = SimpleMS1Tab.update_scan n t.
Proof.
  intros Hinv. unfold SimpleMS1Tab.keyPressEvent.
  destruct (SimpleMS1Tab.current_scan t) as [cur|] eqn:Hcur;
    [|left; by rewrite run_get, Hcur].
  key_cases t cur Hcur Hinv.
  destruct key; [| |by left].
  - case_bool_decide as Hpos; [|by left].
    destruct (lookup_lt_is_Some_2 (SimpleMS1Tab.all_scans t) (i - 1))
      as [s Hs]; [apply lookup_lt_Some in Hi; lia|].
    right. exists s. split; [by eapply list_elem_of_lookup_2|].
    by rewrite (run_getitem s).
  - case_bool_decide as Hlt; [|by left].
    destruct (lookup_lt_is_Some_2 (SimpleMS1Tab.all_scans t) (i + 1))
      as [s Hs]; [lia|].
    right. exists s. split; [by eapply list_elem_of_lookup_2|].
    by rewrite (run_getitem s).
Qed.

Lemma zoom_key_cases (t : ZoomViewerTab.Tab) key :
  selection_listed (ZoomViewerTab.current_scan t) (ZoomViewerTab.all_scans t) →
  ZoomViewerTab.keyPressEvent key t = (inr tt, t)
  ∨ ∃ n, n ∈ ZoomViewerTab.all_scans t
       ∧ ZoomViewerTab.keyPressEvent key t = ZoomViewerTab.update_scan n t.
Proof.
  intros Hinv. unfold ZoomViewerTab.keyPressEvent.
  destruct (ZoomViewerTab.current_scan t) as [cur|] eqn:Hcur;
    [|left; by rewrite run_get, Hcur].
  key_cases t cur Hcur Hinv.
  destruct key; [| |by left].
  - case_bool_decide as Hpos; [|by left].
    destruct (lookup_lt_is_Some_2 (ZoomViewerTab.all_scans t) (i - 1))
      as [s Hs]; [apply lookup_lt_Some in Hi; lia|].
    right. exists s. split; [by eapply list_elem_of_lookup_2|].
    by rewrite (run_getitem s).
  - case_bool_decide as Hlt; [|by left].
    destruct (lookup_lt_is_Some_2 (ZoomViewerTab.all_scans t) (i + 1))
      as [s Hs]; [lia|].
    right. exists s. split; [by eapply list_elem_of_lookup_2|].
    by rewrite (run_getitem s).
Qed.

Lemma ms1ms2_key_cases (t : MS1MS2Tab.Tab) key :
  selection_listed (MS1MS2Tab.current_scan t) (MS1MS2Tab.all_scans t) →
  MS1MS2Tab.keyPressEvent key t = (inr tt, t)
  ∨ ∃ n, n ∈ MS1MS2Tab.all_scans t
       ∧ MS1MS2Tab.keyPressEvent key t = MS1MS2Tab.update_scan n t.
Proof.
  intros Hinv. unfold MS1MS2Tab.keyPressEvent.
  destruct (MS1MS2Tab.current_scan t) as [cur|] eqn:Hcur;
    [|left; by rewrite run_get, Hcur].
  key_cases t cur Hcur Hinv.
  destruct key; [| |by left].
  - case_bool_decide as Hpos; [|by left].
    destruct (lookup_lt_is_Some_2 (MS1MS2Tab.all_scans t) (i - 1))
      as [s Hs]; [apply lookup_lt_Some in Hi; lia|].
    right. exists s. split; [by eapply list_elem_of_lookup_2|].
    by rewrite (run_getitem s).
  - case_bool_decide as Hlt; [|by left].
    destruct (lookup_lt_is_Some_2 (MS1MS2Tab.all_scans t) (i + 1))
      as [s Hs]; [lia|].
    right. exists s. split; [by eapply list_elem_of_lookup_2|].
    by rewrite (run_getitem s).
Qed.

(** X9: in a tab whose selection is a listed scan (or absent), the
    selection is still a listed scan (or absent) after any click and after
    any key press: both handlers either change nothing or run
    [update_scan] on a listed scan. *)
Theorem selection_stays_listed :
  (∀ (t : SimpleMS1Tab.Tab) e key,
     selection_listed (SimpleMS1Tab.current_scan t) (SimpleMS1Tab.all_scans t) →
     let t1 := Py.exec (SimpleMS1Tab.on_click e) t in
     let t2 := Py.exec (SimpleMS1Tab.keyPressEvent key) t in
     selection_listed (SimpleMS1Tab.current_scan t1) (SimpleMS1Tab.all_scans t1)
     ∧ selection_listed (SimpleMS1Tab.current_scan t2)
         (SimpleMS1Tab.all_scans t2))
  ∧ (∀ (t : ZoomViewerTab.Tab) e key,
       selection_listed (ZoomViewerTab.current_scan t)
         (ZoomViewerTab.all_scans t) →
       let t1 := Py.exec (ZoomViewerTab.on_click e) t in
       let t2 := Py.exec (ZoomViewerTab.keyPressEvent key) t in
       selection_listed (ZoomViewerTab.current_scan t1)
         (ZoomViewerTab.all_scans t1)
       ∧ selection_listed (ZoomViewerTab.current_scan t2)
           (ZoomViewerTab.all_scans t2))
  ∧ (∀ (t : MS1MS2Tab.Tab) e key,
       selection_listed (MS1MS2Tab.current_scan t) (MS1MS2Tab.all_scans t) →
       let t1 := Py.exec (MS1MS2Tab.on_click e) t in
       let t2 := Py.exec (MS1MS2Tab.keyPressEvent key) t in
       selection_listed (MS1MS2Tab.current_scan t1) (MS1MS2Tab.all_scans t1)
       ∧ selection_listed (MS1MS2Tab.current_scan t2)
           (MS1MS2Tab.all_scans t2)).
Proof.
  split_and!; intros t e key Hinv t1 t2; subst t1 t2; unfold Py.exec.
  - split.
    + destruct (simple_on_click_cases t e) as [->|(n & Hn & ->)]; [done|].
      fold (Py.exec (SimpleMS1Tab.update_scan n) t).
      rewrite simple_update_scan_current. unfold Py.exec.
      rewrite (simple_update_scan_all_scans n t).
      by intros s [= <-].
    + destruct (simple_key_cases t key Hinv) as [->|(n & Hn & ->)]; [done|].
      fold (Py.exec (SimpleMS1Tab.update_scan n) t).
      rewrite simple_update_scan_current. unfold Py.exec.
      rewrite (simple_update_scan_all_scans n t).
      by intros s [= <-].
  - split.
    + destruct (zoom_on_click_cases t e) as [->|(n & Hn & ->)]; [done|].
      fold (Py.exec (ZoomViewerTab.update_scan n) t).
      rewrite zoom_update_scan_current. unfold Py.exec.
      rewrite (zoom_update_scan_all_scans n t).
      by intros s [= <-].
    + destruct (zoom_key_cases t key Hinv) as [->|(n & Hn & ->)]; [done|].
      fold (Py.exec (ZoomViewerTab.update_scan n) t).
      rewrite zoom_update_scan_current. unfold Py.exec.
      rewrite (zoom_update_scan_all_scans n t).
      by intros s [= <-].
  - split.
    + destruct (ms1ms2_on_click_cases t e) as [->|(n & Hn & ->)]; [done|].
      fold (Py.exec (MS1MS2Tab.update_scan n) t).
      rewrite ms1ms2_update_scan_current. unfold Py.exec.
      rewrite (ms1ms2_update_scan_all_scans n t).
      by intros s [= <-].
    + destruct (ms1ms2_key_cases t key Hinv) as [->|(n & Hn & ->)]; [done|].
      fold (Py.exec (MS1MS2Tab.update_scan n) t).
      rewrite ms1ms2_update_scan_current. unfold Py.exec.
      rewrite (ms1ms2_update_scan_all_scans n t).
      by intros s [= <-].
Qed.

Lemma selection_stays_listed_witness :
  selection_listed
    (MS1MS2Tab.current_scan
       (Py.exec (MS1MS2Tab.keyPressEvent MS1MS2Tab.Key_Right)
          (Py.exec (MS1MS2Tab.on_click (click_at 2)) (dda_ready dda_table))))
    (MS1MS2Tab.all_scans
       (Py.exec (MS1MS2Tab.keyPressEvent MS1MS2Tab.Key_Right)
          (Py.exec (MS1MS2Tab.on_click (click_at 2)) (dda_ready dda_table)))).
Proof.
  refine (proj2 (proj2 (proj2 selection_stays_listed)
                   (Py.exec (MS1MS2Tab.on_click (click_at 2))
                      (dda_ready dda_table))
                   (click_at 7.5) MS1MS2Tab.Key_Right _)).
  intros s Hs.
  assert (E : MS1MS2Tab.all_scans
                (Py.exec (MS1MS2Tab.on_click (click_at 2))
                   (dda_ready dda_table)) = [1; 2; 3]) by (by vm_compute).
  rewrite E. vm_compute in Hs. injection Hs as <-.
  apply (bool_decide_unpack _). by vm_compute.
Defined.

(** ** Selecting a scan in the MS1 tab *)

(** The artists of the chromatogram once the old marker is removed. *)
Lemma simple_update_scan_run (t : SimpleMS1Tab.Tab) d n lo hi :
  SimpleMS1Tab.df t = Some d →
  "scan_number"%string ∈ columns d →
  "intensity"%string ∈ columns d →
  "mz"%string ∈ columns d →
  rows (where_scan n d) ≠ [] →
  SimpleMS1Tab.instance_dict t !! "all_mz_min"%string = Some (Some lo) →
  SimpleMS1Tab.instance_dict t !! "all_mz_max"%string = Some (Some hi) →
  handle_on SimpleMS1Tab.AxChrom (SimpleMS1Tab.scan_line t) →
  let t' := Py.exec (SimpleMS1Tab.update_scan n) t in
  let mz_values := mz <$> rows (where_scan n d) in
  let intensity_values := intensity <$> rows (where_scan n d) in
  Py.outcome (SimpleMS1Tab.update_scan n) t = inr tt
  ∧ SimpleMS1Tab.current_scan t' = Some n
  ∧ SimpleMS1Tab.global_max_intensity t' = SimpleMS1Tab.global_max_intensity t
  ∧ SimpleMS1Tab.instance_dict t' = SimpleMS1Tab.instance_dict t
  ∧ SimpleMS1Tab.scan_line t'
    = Some (SimpleMS1Tab.AxChrom, SimpleMS1Tab.artist_count t)
  ∧ SimpleMS1Tab.artist_count t' = (SimpleMS1Tab.artist_count t + 5)%nat
  ∧ title (SimpleMS1Tab.ax_chrom t') = title (SimpleMS1Tab.ax_chrom t)
  ∧ artists (SimpleMS1Tab.ax_chrom t')
    = match SimpleMS1Tab.scan_line t with
      | Some h => filter (λ p, p.1 ≠ h.2) (artists (SimpleMS1Tab.ax_chrom t))
      | None => artists (SimpleMS1Tab.ax_chrom t)
      end ++ [(SimpleMS1Tab.artist_count t, AxVLine n)]
  ∧ spectra (SimpleMS1Tab.ax_ms1_var t')
    = [(mz_values, percent_of (max intensity_values) <$> intensity_values)]
  ∧ spectra (SimpleMS1Tab.ax_ms1_fixed t')
    = [(mz_values,
        percent_of (SimpleMS1Tab.global_max_intensity t) <$> intensity_values)]
  ∧ xlim (SimpleMS1Tab.ax_ms1_var t') = Some (lo, hi)
  ∧ ylim (SimpleMS1Tab.ax_ms1_var t') = Some (0%Q, 100%Q)
  ∧ xlim (SimpleMS1Tab.ax_ms1_fixed t') = Some (lo, hi)
  ∧ ylim (SimpleMS1Tab.ax_ms1_fixed t') = Some (0%Q, 100%Q).
Proof.
  intros Hd Hc1 Hc2 Hc3 Hrows Hlo Hhi Hsl t' mz_values intensity_values.
  subst t' mz_values intensity_values.
  wp_start (SimpleMS1Tab.update_scan n) t.
  destruct t; simpl in Hd, Hlo, Hhi, Hsl |- *; subst.
  unfold SimpleMS1Tab.update_scan. wp_run_all.
  rewrite (empty_false _ "scan_number") by done.
  wp_step. unfold SimpleMS1Tab.safe_remove_artist.
  destruct scan_line as [[a i]|]; simpl in Hsl; subst; wp_run_all; cbn;
    split_and!; first [reflexivity | lia].
Qed.

(** X10: selecting a scan that has no row in the stored table (which a
    click can do after a new table was loaded and not yet processed) only
    records the selection in the MS1 tabs: the marker and the panels keep
    showing the previous scan. *)
Theorem selecting_scan_without_rows_draws_nothing :
  (∀ (t : SimpleMS1Tab.Tab) d n,
     SimpleMS1Tab.df t = Some d → "scan_number"%string ∈ columns d →
     rows (where_scan n d) = [] →
     SimpleMS1Tab.update_scan n t
     = (inr tt, SimpleMS1Tab.set_current_scan (Some n) t))
  ∧ (∀ (t : ZoomViewerTab.Tab) d n,
       ZoomViewerTab.df t = Some d → "scan_number"%string ∈ columns d →
       rows (where_scan n d) = [] →
       ZoomViewerTab.update_scan n t
       = (inr tt, ZoomViewerTab.set_current_scan (Some n) t)).
Proof.
  split; intros t d n Hd Hc Hrows.
  - apply wp_run. destruct t; simpl in Hd |- *; subst.
    unfold SimpleMS1Tab.update_scan. wp_run_all.
    rewrite empty_true by done. wp_step. done.
  - apply wp_run. destruct t; simpl in Hd |- *; subst.
    unfold ZoomViewerTab.update_scan. wp_run_all.
    rewrite empty_true by done. wp_step. done.
Qed.

Lemma selecting_scan_without_rows_draws_nothing_witness :
  SimpleMS1Tab.on_click (simple_click_at 2)
    (Py.exec (SimpleMS1Tab.set_data gap_table) (simple_ready sparse_table))
  = (inr tt,
     SimpleMS1Tab.set_current_scan (Some 2)
       (Py.exec (SimpleMS1Tab.set_data gap_table) (simple_ready sparse_table))).
Proof.
  assert (Hc : "scan_number"%string ∈ columns gap_table)
    by (by apply (bool_decide_unpack _)).
  rewrite <- (proj1 selecting_scan_without_rows_draws_nothing
                (Py.exec (SimpleMS1Tab.set_data gap_table)
                   (simple_ready sparse_table))
                gap_table 2 eq_refl Hc eq_refl).
  by vm_compute.
Defined.

(** ** The marker of the selected scan *)

Lemma markers_removed (i : nat) (l : list (nat * Artist)) :
  (∀ k x, (k, AxVLine x) ∈ l → k = i) →
  omap (λ p : nat * Artist,
          match p.2 with AxVLine x => Some x | _ => None end)
       (filter (λ p, p.1 ≠ i) l) = [].
Proof.
  induction l as [|[j art] l IH]; intros Htr; [done|].
  rewrite filter_cons. cbn [fst].
  assert (IH' := IH (λ k x Hk, Htr k x ltac:(by right))).
  destruct (decide (j ≠ i)) as [Hne|He]; [|exact IH'].
  cbn. destruct art as [| | | |x| |]; try exact IH'.
  specialize (Htr j x ltac:(left)). done.
Qed.

Lemma markers_absent (l : list (nat * Artist)) :
  (∀ k x, (k, AxVLine x) ∉ l) →
  omap (λ p : nat * Artist,
          match p.2 with AxVLine x => Some x | _ => None end) l = [].
Proof.
  induction l as [|[j art] l IH]; intros Htr; [done|].
  assert (IH' := IH (λ k x Hk, Htr k x ltac:(by right))).
  cbn. destruct art as [| | | |x| |]; try exact IH'.
  destruct (Htr j x). left.
Qed.

Lemma others_kept (i : nat) (l : list (nat * Artist)) :
  (∀ art, (i, art) ∈ l → is_marker art = true) →
  filter (λ p : nat * Artist, is_marker p.2 = false) (filter (λ p, p.1 ≠ i) l)
  = filter (λ p : nat * Artist, is_marker p.2 = false) l.
Proof.
  induction l as [|[j art] l IH]; intros Hm; [done|].
  assert (IH' := IH (λ a Ha, Hm a ltac:(by right))).
  rewrite (filter_cons (λ p, p.1 ≠ i)). cbn [fst].
  destruct (decide (j ≠ i)) as [Hne|He].
  - rewrite !filter_cons. cbn [snd].
    destruct (decide (is_marker art = false)); by rewrite IH'.
  - apply dec_stable in He. subst j.
    rewrite filter_cons. cbn [snd].
    rewrite decide_False; [done|].
    rewrite (Hm art ltac:(left)). done.
Qed.

(** A selection in the MS1 tab keeps the marker tracked. *)
Lemma simple_marker_step (t : SimpleMS1Tab.Tab) d n lo hi :
  SimpleMS1Tab.df t = Some d →
  "scan_number"%string ∈ columns d →
  "intensity"%string ∈ columns d →
  "mz"%string ∈ columns d →
  rows (where_scan n d) ≠ [] →
  SimpleMS1Tab.instance_dict t !! "all_mz_min"%string = Some (Some lo) →
  SimpleMS1Tab.instance_dict t !! "all_mz_max"%string = Some (Some hi) →
  marker_tracked SimpleMS1Tab.AxChrom (SimpleMS1Tab.scan_line t)
    (SimpleMS1Tab.ax_chrom t) (SimpleMS1Tab.artist_count t) →
  let t' := Py.exec (SimpleMS1Tab.update_scan n) t in
  marker_lines (SimpleMS1Tab.ax_chrom t') = [n]
  ∧ other_artists (SimpleMS1Tab.ax_chrom t')
    = other_artists (SimpleMS1Tab.ax_chrom t)
  ∧ marker_tracked SimpleMS1Tab.AxChrom (SimpleMS1Tab.scan_line t')
      (SimpleMS1Tab.ax_chrom t') (SimpleMS1Tab.artist_count t').
Proof.
  intros Hd Hc1 Hc2 Hc3 Hrows Hlo Hhi (Hon & Hold & Hmk & Hoth & Hfresh) t'.
  destruct (simple_update_scan_run t d n lo hi Hd Hc1 Hc2 Hc3 Hrows Hlo Hhi
              Hon)
    as (_ & _ & _ & _ & Hsl & Hcount & _ & Hart & _).
  fold t' in Hsl, Hart, Hcount. clearbody t'.
  set (c := SimpleMS1Tab.artist_count t) in *.
  set (l := artists (SimpleMS1Tab.ax_chrom t)) in *.
  assert (Hkept : ∀ p, p ∈ artists (SimpleMS1Tab.ax_chrom t') →
                       p ∈ l ∨ p = (c, AxVLine n)).
  { intros p Hp. rewrite Hart in Hp. apply elem_of_app in Hp as [Hp|Hp].
    - left. destruct (SimpleMS1Tab.scan_line t) as [h|]; [|done].
      by apply list_elem_of_filter in Hp as [_ Hp].
    - right. by apply list_elem_of_singleton in Hp. }
  assert (Hm : marker_lines (SimpleMS1Tab.ax_chrom t') = [n]).
  { unfold marker_lines. rewrite Hart, omap_app.
    destruct (SimpleMS1Tab.scan_line t) as [[a i]|] eqn:Hline.
    - rewrite markers_removed; [done|].
      intros k x Hk. specialize (Hmk k x Hk). by simplify_eq.
    - rewrite markers_absent; [done|].
      intros k x Hk. by specialize (Hmk k x Hk). }
  assert (Ho : other_artists (SimpleMS1Tab.ax_chrom t')
               = other_artists (SimpleMS1Tab.ax_chrom t)).
  { unfold other_artists. rewrite Hart, filter_app. cbn. rewrite app_nil_r.
    destruct (SimpleMS1Tab.scan_line t) as [[a i]|] eqn:Hline; [|done].
    simpl in Hon. subst a. apply others_kept.
    intros art Hin. by apply (Hoth i). }
  split_and!; [exact Hm|exact Ho|].
  rewrite Hsl, Hcount. split_and!.
  - done.
  - intros h [= <-]. cbn. lia.
  - intros i x Hi. destruct (Hkept _ Hi) as [Hin|E]; [|by simplify_eq].
    exfalso. pose proof (Hfresh _ Hin) as Hlt. cbn in Hlt.
    rewrite Hart in Hi. apply elem_of_app in Hi as [Hi|Hi].
    + destruct (SimpleMS1Tab.scan_line t) as [[a j]|] eqn:Hline.
      * apply list_elem_of_filter in Hi as [Hne _]. cbn in Hne.
        specialize (Hmk i x Hin). by simplify_eq.
      * by specialize (Hmk i x Hin).
    + apply list_elem_of_singleton in Hi. simplify_eq. fold c in Hlt. lia.
  - intros i art [= <-] Hi. destruct (Hkept _ Hi) as [Hin|E]; [|by simplify_eq].
    pose proof (Hfresh _ Hin) as Hlt. cbn in Hlt. fold c in Hlt. lia.
  - intros p Hp. destruct (Hkept _ Hp) as [Hin | ->].
    + pose proof (Hfresh _ Hin). fold c in H. lia.
    + cbn. lia.
Qed.

(** ** The MS1 tab after processing *)

Lemma renumbered_rows_not_nil d : rows d ≠ [] → rows (renumbered d) ≠ [].
Proof. intros H. unfold renumbered, map_scan_number. cbn. by apply fmap_not_nil. Qed.

Lemma renumbered_columns d : columns (renumbered d) = columns d.
Proof. done. Qed.

Lemma renumbered_intensity d :
  intensity <$> rows (renumbered d) = intensity <$> rows d.
Proof.
  unfold renumbered, map_scan_number. cbn. rewrite <- list_fmap_compose.
  apply list_fmap_ext. intros i r _. cbn. by destruct (_ !! _).
Qed.

Lemma renumbered_mz d : mz <$> rows (renumbered d) = mz <$> rows d.
Proof.
  unfold renumbered, map_scan_number. cbn. rewrite <- list_fmap_compose.
  apply list_fmap_ext. intros i r _. cbn. by destruct (_ !! _).
Qed.

Lemma wp_eq {S A} (m : Py.M S A) s p :
  wp m s (λ r0 s0, (r0, s0) = p) → m s = p.
Proof. unfold wp. by destruct (m s). Qed.

Lemma wp_try_except_self {S A} (m : Py.M S A) h s :
  wp m s (λ r s', match r with
                  | inl e => wp (h e) s'
                               (λ r0 s0, (r0, s0) = Py.try_except m h s)
                  | inr x => (inr x, s') = Py.try_except m h s
                  end).
Proof.
  unfold wp, Py.try_except. destruct (m s) as [[e|x] s']; [|done].
  cbn. by destruct (h e s').
Qed.

Section SimpleProcess.
#[local] Arguments where_level : simpl never.
#[local] Arguments map_scan_number : simpl never.
#[local] Arguments groupby_sum : simpl never.
#[local] Arguments sort_values : simpl never.
#[local] Arguments renumbered : simpl never.

(** A successful [process_ms1_data], up to the automatic selection of the
  middle scan: the tab [s1] on which that selection runs. *)
Lemma simple_process_run (t : SimpleMS1Tab.Tab) d :
SimpleMS1Tab.df t = Some d → required_cols ⊆ columns d →
rows (where_level 1 d) ≠ [] →
let d' := renumbered (where_level 1 d) in
let chrom_df := sort_values (groupby_sum d') in
∃ s1 middle lo hi,
  chrom_df.*1 !! (length chrom_df.*1 / 2)%nat = Some middle
  ∧ min (mz <$> rows d') = Some lo ∧ max (mz <$> rows d') = Some hi
  ∧ SimpleMS1Tab.process_ms1_data t
    = Py.try_except (SimpleMS1Tab.update_scan middle)
        (λ e, SimpleMS1Tab.message_box (ErrProcessing e)) s1
  ∧ s1 = SimpleMS1Tab.mkTab (Some d') (SimpleMS1Tab.current_scan t)
           chrom_df.*1 (max (intensity <$> rows d'))
           (SimpleMS1Tab.scan_line t)
           (<["all_mz_max"%string := Some (hi + 10)%Q]>
              (<["all_mz_min"%string := Some (lo - 10)%Q]>
                 (SimpleMS1Tab.instance_dict t)))
           {| title := "MS1 Chromatogram";
              artists := [(SimpleMS1Tab.artist_count t, Line2D chrom_df)];
              xlim := None; ylim := None; xticks := None |}
           {| title := "MS1 Spectrum (Variable Height)"; artists := [];
              xlim := Some ((lo - 10)%Q, (hi + 10)%Q); ylim := None;
              xticks := None |}
           {| title := "MS1 Spectrum (Fixed Height)"; artists := [];
              xlim := Some ((lo - 10)%Q, (hi + 10)%Q);
              ylim := Some (0%Q, 100%Q); xticks := None |}
           (SimpleMS1Tab.StProcessed (length chrom_df.*1))
           (SimpleMS1Tab.process_button_enabled t)
           (SimpleMS1Tab.message_boxes t)
           (S (SimpleMS1Tab.artist_count t)).
Proof.
intros Hd Hcols Hrows d' chrom_df.
assert (Hem : empty (where_level 1 d) = false).
{ apply (empty_false _ "scan_number"); [|done]. apply Hcols. set_solver. }
assert (Hrows' : rows d' ≠ []) by (by apply renumbered_rows_not_nil).
destruct (min_is_Some (mz <$> rows d')) as [lo Hlo]; [by apply fmap_not_nil|].
destruct (max_is_Some (mz <$> rows d')) as [hi Hhi]; [by apply fmap_not_nil|].
assert (Hne : chrom_df.*1 ≠ []).
{ apply fmap_not_nil. by apply chromatogram_length. }
destruct (lookup_lt_is_Some_2 chrom_df.*1 (length chrom_df.*1 / 2))
  as [middle Hmid].
{ destruct (chrom_df.*1); [done|]. cbn [length].
  apply Nat.Div0.div_lt_upper_bound. lia. }
destruct t; simpl in Hd |- *; subst.
eexists _, middle, lo, hi.
split_and!; [exact Hmid|exact Hlo|exact Hhi| |].
- apply wp_eq. unfold SimpleMS1Tab.process_ms1_data.
  wp_step. wp_step.
  unfold has_columns. rewrite bool_decide_eq_true_2 by done. cbn [negb].
  wp_run_all. rewrite Hem. do 4 first [wp_step | wp_df].
  fold (renumbered (where_level 1 d)). fold d'.
  wp_run_all.
  unfold SimpleMS1Tab.setup_spectrum_plots. fold chrom_df.
  rewrite Hlo, Hhi. cbn [fmap option_fmap option_map].
  wp_run_all.
  rewrite bool_decide_eq_false_2 by exact Hne. cbn [negb].
  wp_step.
  apply wp_try_except_self.
- reflexivity.
Qed.
End SimpleProcess.

(** ** The scan list of the MS1 tabs is 1..N *)

Lemma scans_upto_elem (N : nat) n :
  n ∈ scans_upto N ↔ 1 ≤ n ≤ Z.of_nat N.
Proof.
  unfold scans_upto. rewrite list_elem_of_fmap. split.
  - intros (i & -> & Hi). apply elem_of_seq in Hi. lia.
  - intros Hn. exists (Z.to_nat (n - 1)). split; [lia|].
    apply elem_of_seq. lia.
Qed.

Lemma scans_upto_lookup (N i : nat) :
  (i < N)%nat → scans_upto N !! i = Some (Z.of_nat i + 1).
Proof.
  intros Hi. unfold scans_upto. rewrite list_lookup_fmap.
  by rewrite lookup_seq_lt.
Qed.

Lemma scans_upto_length (N : nat) : length (scans_upto N) = N.
Proof. unfold scans_upto. by rewrite length_fmap, length_seq. Qed.

Lemma scans_upto_ascending (N : nat) : StronglySorted Z.lt (scans_upto N).
Proof.
  unfold scans_upto. generalize 0%nat.
  induction N as [|N IH]; intros k; cbn; constructor; [apply IH|].
  apply Forall_forall. intros x (i & -> & Hi)%list_elem_of_fmap.
  apply elem_of_seq in Hi. lia.
Qed.

Lemma renumbered_scan_list d :
  (sort_values (groupby_sum (renumbered d))).*1
  = scans_upto (length (Py.sorted (unique (scan_number <$> rows d)))).
Proof.
  apply StronglySorted_lt_unique.
  - rewrite chromatogram_keys. apply unique_scans_ascending.
  - apply scans_upto_ascending.
  - intros n. rewrite chromatogram_keys, unique_scans_elem, scans_upto_elem.
    apply (renumber_dense d).
Qed.

Lemma middle_of_scans_upto (N : nat) :
  (0 < N)%nat →
  scans_upto N !! (length (scans_upto N) / 2)%nat
  = Some (Z.of_nat (N / 2) + 1).
Proof.
  intros HN. rewrite scans_upto_length. apply scans_upto_lookup.
  apply Nat.Div0.div_lt_upper_bound. lia.
Qed.

(** ** A successful processing in the MS1 tab *)

Lemma simple_process_ok (t : SimpleMS1Tab.Tab) d :
  SimpleMS1Tab.df t = Some d → required_cols ⊆ columns d →
  rows (where_level 1 d) ≠ [] →
  handle_on SimpleMS1Tab.AxChrom (SimpleMS1Tab.scan_line t) →
  let d' := renumbered (where_level 1 d) in
  let chrom_df := sort_values (groupby_sum d') in
  let N := length (Py.sorted (unique (scan_number
                                        <$> rows (where_level 1 d)))) in
  ∃ s1 lo hi,
    SimpleMS1Tab.process_ms1_data t
    = SimpleMS1Tab.update_scan (Z.of_nat (N / 2) + 1) s1
    ∧ Py.outcome (SimpleMS1Tab.update_scan (Z.of_nat (N / 2) + 1)) s1 = inr tt
    ∧ (0 < N)%nat
    ∧ rows (where_scan (Z.of_nat (N / 2) + 1) d') ≠ []
    ∧ SimpleMS1Tab.df s1 = Some d'
    ∧ SimpleMS1Tab.all_scans s1 = scans_upto N
    ∧ SimpleMS1Tab.global_max_intensity s1
      = max (intensity <$> rows (where_level 1 d))
    ∧ SimpleMS1Tab.scan_line s1 = SimpleMS1Tab.scan_line t
    ∧ SimpleMS1Tab.instance_dict s1 !! "all_mz_min"%string = Some (Some lo)
    ∧ SimpleMS1Tab.instance_dict s1 !! "all_mz_max"%string = Some (Some hi)
    ∧ SimpleMS1Tab.ax_chrom s1
      = {| title := "MS1 Chromatogram";
           artists := [(SimpleMS1Tab.artist_count t, Line2D chrom_df)];
           xlim := None; ylim := None; xticks := None |}
    ∧ SimpleMS1Tab.artist_count s1 = S (SimpleMS1Tab.artist_count t)
    ∧ SimpleMS1Tab.message_boxes s1 = SimpleMS1Tab.message_boxes t.
Proof.
  intros Hd Hcols Hrows Hon d' chrom_df N.
  destruct (simple_process_run t d Hd Hcols Hrows)
    as (s1 & middle & lo & hi & Hmid & Hlo & Hhi & Hrun & Hs1).
  fold d' in Hmid, Hlo, Hhi, Hrun, Hs1. fold chrom_df in Hmid, Hs1.
  assert (Hc : ∀ name, name ∈ required_cols → name ∈ columns d)
    by (intros ?; apply Hcols).
  assert (Hlist : chrom_df.*1 = scans_upto N) by apply renumbered_scan_list.
  assert (HN : (0 < N)%nat).
  { destruct N; [|lia]. rewrite Hlist in Hmid. done. }
  assert (Hmiddle : middle = Z.of_nat (N / 2) + 1).
  { rewrite Hlist, middle_of_scans_upto in Hmid by done. by simplify_eq. }
  subst middle.
  assert (Hscan : rows (where_scan (Z.of_nat (N / 2) + 1) d') ≠ []).
  { apply where_scan_rows_not_nil, chromatogram_keys_elem.
    fold chrom_df. by eapply list_elem_of_lookup_2. }
  assert (Hdf : SimpleMS1Tab.df s1 = Some d') by (by rewrite Hs1).
  assert (Hlo1 : SimpleMS1Tab.instance_dict s1 !! "all_mz_min"%string
                 = Some (Some (lo - 10)%Q)).
  { rewrite Hs1. cbn. rewrite lookup_insert_ne by done.
    by rewrite lookup_insert_eq. }
  assert (Hhi1 : SimpleMS1Tab.instance_dict s1 !! "all_mz_max"%string
                 = Some (Some (hi + 10)%Q)).
  { rewrite Hs1. cbn. by rewrite lookup_insert_eq. }
  assert (Hon1 : handle_on SimpleMS1Tab.AxChrom (SimpleMS1Tab.scan_line s1))
    by (by rewrite Hs1).
  destruct (simple_update_scan_run s1 d' (Z.of_nat (N / 2) + 1)
              (lo - 10)%Q (hi + 10)%Q Hdf)
    as (Hout & _); [apply Hc; set_solver..|done|done|done|done|].
  exists s1, (lo - 10)%Q, (hi + 10)%Q.
  split_and!; try done.
  - rewrite Hrun. unfold Py.try_except. unfold Py.outcome in Hout.
    destruct (SimpleMS1Tab.update_scan _ s1) as [[e|[]] s']; [done|done].
  - by rewrite Hs1.
  - rewrite Hs1. cbn [SimpleMS1Tab.global_max_intensity]. unfold d'.
    by rewrite renumbered_intensity.
  - by rewrite Hs1.
  - by rewrite Hs1.
  - by rewrite Hs1.
  - by rewrite Hs1.
Qed.

Ltac mem_cases H :=
  repeat first [ apply elem_of_cons in H as [H|H]
               | apply elem_of_nil in H; destruct H ].

(** X11: when the MS1 tab selects a scan that has rows, and the marker
    was tracked by [scan_line], the chromatogram afterwards carries exactly
    one marker line, at the selected scan, tracked again; its other artists
    (the chromatogram trace) are as before. *)
Theorem simple_selection_moves_the_marker
    (t : SimpleMS1Tab.Tab) d n lo hi :
  SimpleMS1Tab.df t = Some d →
  "scan_number"%string ∈ columns d →
  "intensity"%string ∈ columns d →
  "mz"%string ∈ columns d →
  rows (where_scan n d) ≠ [] →
  SimpleMS1Tab.instance_dict t !! "all_mz_min"%string = Some (Some lo) →
  SimpleMS1Tab.instance_dict t !! "all_mz_max"%string = Some (Some hi) →
  marker_tracked SimpleMS1Tab.AxChrom (SimpleMS1Tab.scan_line t)
    (SimpleMS1Tab.ax_chrom t) (SimpleMS1Tab.artist_count t) →
  let t' := Py.exec (SimpleMS1Tab.update_scan n) t in
  marker_lines (SimpleMS1Tab.ax_chrom t') = [n]
  ∧ other_artists (SimpleMS1Tab.ax_chrom t')
    = other_artists (SimpleMS1Tab.ax_chrom t)
  ∧ marker_tracked SimpleMS1Tab.AxChrom (SimpleMS1Tab.scan_line t')
      (SimpleMS1Tab.ax_chrom t') (SimpleMS1Tab.artist_count t').
Proof. apply simple_marker_step. Qed.

Lemma simple_selection_moves_the_marker_witness :
  marker_lines (SimpleMS1Tab.ax_chrom (simple_ready sparse_table)) = [2]
  ∧ marker_lines
      (SimpleMS1Tab.ax_chrom
         (Py.exec (SimpleMS1Tab.update_scan 3) (simple_ready sparse_table)))
    = [3].
Proof.
  split; [by vm_compute|].
  assert (Hc1 : "scan_number"%string ∈ columns (renumbered sparse_table))
    by (by apply (bool_decide_unpack _)).
  assert (Hc2 : "intensity"%string ∈ columns (renumbered sparse_table))
    by (by apply (bool_decide_unpack _)).
  assert (Hc3 : "mz"%string ∈ columns (renumbered sparse_table))
    by (by apply (bool_decide_unpack _)).
  assert (Hrows : rows (where_scan 3 (renumbered sparse_table)) ≠ [])
    by (by vm_compute).
  refine (proj1 (simple_selection_moves_the_marker
                   (simple_ready sparse_table) (renumbered sparse_table) 3
                   (100 - 10)%Q (102 + 10)%Q _ Hc1 Hc2 Hc3 Hrows _ _ _)).
  - by vm_compute.
  - by vm_compute.
  - by vm_compute.
  - unfold marker_tracked.
    eassert (E1 : SimpleMS1Tab.scan_line (simple_ready sparse_table) = _)
      by (vm_compute; reflexivity).
    eassert (E2 : artists (SimpleMS1Tab.ax_chrom (simple_ready sparse_table))
                  = _) by (vm_compute; reflexivity).
    eassert (E3 : SimpleMS1Tab.artist_count (simple_ready sparse_table) = _)
      by (vm_compute; reflexivity).
    rewrite E1, E2, E3. split_and!.
    + reflexivity.
    + intros h [= <-]. cbn. lia.
    + intros i x Hi. mem_cases Hi; by simplify_eq.
    + intros i art [= <-] Hi. mem_cases Hi; by simplify_eq.
    + intros p Hp. mem_cases Hp; subst p; cbn; lia.
Defined.

(** ** What a successful processing leaves behind *)

Lemma simple_update_scan_message_boxes n :
  preserves SimpleMS1Tab.message_boxes (SimpleMS1Tab.update_scan n).
Proof.
  assert (Undrawn SimpleMS1Tab.message_boxes) by (by split).
  unfold SimpleMS1Tab.update_scan. frame.
Qed.

(** X12: processing a table that has MS1 rows and the required columns
    succeeds without a dialog in the MS1 tab: the stored table is the MS1
    subset with scans renumbered, the scan list is 1, ..., N for the N
    distinct MS1 scans, the global maximum is the largest MS1 intensity, and
    the scan in the middle, number N div 2 + 1, is selected and carries the
    only marker on the freshly drawn chromatogram. *)
Theorem simple_process_selects_middle_scan (t : SimpleMS1Tab.Tab) d :
  SimpleMS1Tab.df t = Some d → required_cols ⊆ columns d →
  rows (where_level 1 d) ≠ [] →
  marker_tracked SimpleMS1Tab.AxChrom (SimpleMS1Tab.scan_line t)
    (SimpleMS1Tab.ax_chrom t) (SimpleMS1Tab.artist_count t) →
  let d' := renumbered (where_level 1 d) in
  let N := length (Py.sorted (unique (scan_number
                                        <$> rows (where_level 1 d)))) in
  let t' := Py.exec SimpleMS1Tab.process_ms1_data t in
  SimpleMS1Tab.message_boxes t' = SimpleMS1Tab.message_boxes t
  ∧ SimpleMS1Tab.df t' = Some d'
  ∧ SimpleMS1Tab.all_scans t' = scans_upto N
  ∧ (0 < N)%nat
  ∧ SimpleMS1Tab.current_scan t' = Some (Z.of_nat (N / 2) + 1)
  ∧ SimpleMS1Tab.global_max_intensity t' = max (intensity <$> rows d')
  ∧ marker_lines (SimpleMS1Tab.ax_chrom t') = [Z.of_nat (N / 2) + 1]
  ∧ other_artists (SimpleMS1Tab.ax_chrom t')
    = [(SimpleMS1Tab.artist_count t, Line2D (sort_values (groupby_sum d')))]
  ∧ marker_tracked SimpleMS1Tab.AxChrom (SimpleMS1Tab.scan_line t')
      (SimpleMS1Tab.ax_chrom t') (SimpleMS1Tab.artist_count t').
Proof.
  intros Hd Hcols Hrows (Hon & Hold & Hmk & Hoth & Hfresh) d' N t'.
  destruct (simple_process_ok t d Hd Hcols Hrows Hon)
    as (s1 & lo & hi & Hrun & Hout & HN & Hscan & Hdf & Hall & Hgm & Hsl
        & Hlo & Hhi & Hchrom & Hcount & Hbox).
  fold d' in Hscan, Hdf, Hchrom. fold N in Hrun, Hout, HN, Hscan, Hall.
  assert (Hc : ∀ name, name ∈ required_cols → name ∈ columns d)
    by (intros ?; apply Hcols).
  assert (Ht' : t' = Py.exec (SimpleMS1Tab.update_scan (Z.of_nat (N / 2) + 1))
                       s1) by (unfold t', Py.exec; by rewrite Hrun).
  assert (Htr1 : marker_tracked SimpleMS1Tab.AxChrom
                   (SimpleMS1Tab.scan_line s1) (SimpleMS1Tab.ax_chrom s1)
                   (SimpleMS1Tab.artist_count s1)).
  { rewrite Hsl, Hchrom, Hcount. split_and!; cbn [artists].
    - done.
    - intros h Hh. specialize (Hold h Hh). lia.
    - intros i x Hi. mem_cases Hi. by simplify_eq.
    - intros i art Hh Hi. mem_cases Hi. simplify_eq.
      specialize (Hold _ Hh). cbn in Hold. lia.
    - intros p Hp. mem_cases Hp. subst p. cbn. lia. }
  destruct (simple_marker_step s1 d' (Z.of_nat (N / 2) + 1) lo hi Hdf)
    as (Hm & Ho & Htr'); [apply Hc; set_solver..|done|done|done|done|].
  rewrite <- Ht' in Hm, Ho, Htr'.
  split_and!.
  - rewrite Ht'. unfold Py.exec.
    by rewrite (simple_update_scan_message_boxes _ s1).
  - rewrite Ht'. unfold Py.exec. by rewrite (simple_update_scan_df _ s1).
  - rewrite Ht'. unfold Py.exec.
    by rewrite (simple_update_scan_all_scans _ s1).
  - done.
  - rewrite Ht'. apply simple_update_scan_current.
  - destruct (simple_update_scan_run s1 d' (Z.of_nat (N / 2) + 1) lo hi Hdf)
      as (_ & _ & Hg & _); [apply Hc; set_solver..|done|done|done| |].
    { by rewrite Hsl. }
    rewrite <- Ht' in Hg. rewrite Hg, Hgm. unfold d'.
    by rewrite renumbered_intensity.
  - exact Hm.
  - rewrite Ho. unfold other_artists. by rewrite Hchrom.
  - exact Htr'.
Qed.

Lemma simple_process_selects_middle_scan_witness :
  SimpleMS1Tab.all_scans (simple_ready sparse_table) = scans_upto 3
  ∧ SimpleMS1Tab.current_scan (simple_ready sparse_table) = Some 2.
Proof.
  assert (Hcols : required_cols ⊆ columns sparse_table)
    by (by apply (bool_decide_unpack _)).
  assert (Hrows : rows (where_level 1 sparse_table) ≠ []) by (by vm_compute).
  assert (Htr : marker_tracked SimpleMS1Tab.AxChrom
                  (SimpleMS1Tab.scan_line
                     (Py.exec (SimpleMS1Tab.set_data sparse_table)
                        SimpleMS1Tab.init))
                  (SimpleMS1Tab.ax_chrom
                     (Py.exec (SimpleMS1Tab.set_data sparse_table)
                        SimpleMS1Tab.init))
                  (SimpleMS1Tab.artist_count
                     (Py.exec (SimpleMS1Tab.set_data sparse_table)
                        SimpleMS1Tab.init))).
  { unfold marker_tracked.
    eassert (E1 : SimpleMS1Tab.scan_line _ = _) by (vm_compute; reflexivity).
    eassert (E2 : artists (SimpleMS1Tab.ax_chrom
                             (Py.exec (SimpleMS1Tab.set_data sparse_table)
                                SimpleMS1Tab.init)) = _)
      by (vm_compute; reflexivity).
    eassert (E3 : SimpleMS1Tab.artist_count
                    (Py.exec (SimpleMS1Tab.set_data sparse_table)
                       SimpleMS1Tab.init) = _) by (vm_compute; reflexivity).
    rewrite E1, E2, E3. split_and!.
    + reflexivity.
    + intros h [=].
    + intros i x Hi. mem_cases Hi; by simplify_eq.
    + intros i art [=].
    + intros p Hp. mem_cases Hp; subst p; cbn; lia. }
  destruct (simple_process_selects_middle_scan
              (Py.exec (SimpleMS1Tab.set_data sparse_table) SimpleMS1Tab.init)
              sparse_table eq_refl Hcols Hrows Htr)
    as (_ & _ & Hall & _ & Hcur & _).
  split; [exact Hall|exact Hcur].
Defined.

(** ** The fixed-height panel *)

Lemma percent_of_smaller_max (g m x : Q) :
  (0 < m)%Q → (m <= g)%Q → (0 <= x)%Q →
  ∃ v w, percent_of (Some g) x = Some v ∧ percent_of (Some m) x = Some w
       ∧ (v <= w)%Q.
Proof.
  intros Hm Hmg Hx. unfold percent_of.
  assert (Hg : (0 < g)%Q) by (eapply Qlt_le_trans; eauto).
  destruct (Qeq_bool g 0) eqn:Eg.
  { apply Qeq_bool_eq in Eg. rewrite Eg in Hg. by apply Qlt_irrefl in Hg. }
  destruct (Qeq_bool m 0) eqn:Em.
  { apply Qeq_bool_eq in Em. rewrite Em in Hm. by apply Qlt_irrefl in Hm. }
  eexists _, _. split_and!; [done|done|].
  apply Qmult_le_compat_r; [|done].
  apply Qle_shift_div_r; [done|].
  assert (E : (x / m * g == x * g / m)%Q).
  { field. intros E. rewrite E in Hm. by apply Qlt_irrefl in Hm. }
  rewrite E. apply Qle_shift_div_l; [done|].
  rewrite (Qmult_comm x m), (Qmult_comm x g).
  by apply Qmult_le_compat_r.
Qed.

Lemma where_scan_intensity_elem d n x :
  x ∈ intensity <$> rows (where_scan n d) → x ∈ intensity <$> rows d.
Proof.
  intros (r & -> & Hr)%list_elem_of_fmap.
  apply list_elem_of_filter in Hr as [_ Hr]. by apply list_elem_of_fmap_2.
Qed.

(** X13: in an MS1 tab whose global maximum g is the largest intensity
    of the stored table and is positive (as after processing), selecting a
    scan draws its peaks on the fixed-height panel at intensity / g * 100:
    never above 100, at exactly 100 for a peak of intensity g, and, for a
    non-negative intensity, never above the height of the same peak on the
    variable-height panel.  The selection keeps the table and the global
    maximum. *)
Theorem simple_fixed_panel_is_bounded (t : SimpleMS1Tab.Tab) d n lo hi g :
  SimpleMS1Tab.df t = Some d →
  "scan_number"%string ∈ columns d →
  "intensity"%string ∈ columns d →
  "mz"%string ∈ columns d →
  rows (where_scan n d) ≠ [] →
  SimpleMS1Tab.instance_dict t !! "all_mz_min"%string = Some (Some lo) →
  SimpleMS1Tab.instance_dict t !! "all_mz_max"%string = Some (Some hi) →
  handle_on SimpleMS1Tab.AxChrom (SimpleMS1Tab.scan_line t) →
  SimpleMS1Tab.global_max_intensity t = max (intensity <$> rows d) →
  max (intensity <$> rows d) = Some g → (0 < g)%Q →
  let t' := Py.exec (SimpleMS1Tab.update_scan n) t in
  let intensity_values := intensity <$> rows (where_scan n d) in
  let fixed := percent_of (Some g) <$> intensity_values in
  spectra (SimpleMS1Tab.ax_ms1_fixed t')
  = [(mz <$> rows (where_scan n d), fixed)]
  ∧ ylim (SimpleMS1Tab.ax_ms1_fixed t') = Some (0%Q, 100%Q)
  ∧ (∀ i x, intensity_values !! i = Some x →
       ∃ v, fixed !! i = Some (Some v) ∧ (v <= 100)%Q
            ∧ ((x == g)%Q → (v == 100)%Q))
  ∧ (∀ m, max intensity_values = Some m → (0 < m)%Q →
       ∀ i x, intensity_values !! i = Some x → (0 <= x)%Q →
         ∃ v w, fixed !! i = Some (Some v)
              ∧ (percent_of (Some m) <$> intensity_values) !! i
                = Some (Some w)
              ∧ (v <= w)%Q)
  ∧ SimpleMS1Tab.df t' = Some d
  ∧ SimpleMS1Tab.global_max_intensity t' = max (intensity <$> rows d).
Proof.
  intros Hd Hc1 Hc2 Hc3 Hrows Hlo Hhi Hon Hgm Hg Hpos t' intensity_values
         fixed.
  destruct (simple_update_scan_run t d n lo hi Hd Hc1 Hc2 Hc3 Hrows Hlo Hhi
              Hon)
    as (_ & _ & Hg' & _ & _ & _ & _ & _ & _ & Hfix & _ & _ & _ & Hyl).
  fold t' in Hg', Hfix, Hyl. fold intensity_values in Hfix.
  rewrite Hgm, Hg in Hfix.
  split_and!.
  - exact Hfix.
  - exact Hyl.
  - intros i x Hi.
    assert (Hx : (x <= g)%Q).
    { apply (max_upper (intensity <$> rows d)); [done|].
      apply (where_scan_intensity_elem d n). by eapply list_elem_of_lookup_2. }
    destruct (percent_of_le_100 g x Hpos Hx) as (v & Hv & Hle).
    exists v. unfold fixed. rewrite list_lookup_fmap, Hi.
    cbn [fmap option_fmap option_map].
    split_and!; [by rewrite Hv|done|].
    intros E. destruct (percent_of_own_max g x Hpos E) as (v' & Hv' & H100).
    by simplify_eq.
  - intros m Hm Hmpos i x Hi Hx.
    assert (Hmg : (m <= g)%Q).
    { apply (max_upper (intensity <$> rows d)); [done|].
      apply (where_scan_intensity_elem d n). by apply max_elem. }
    destruct (percent_of_smaller_max g m x Hmpos Hmg Hx)
      as (v & w & Hv & Hw & Hle).
    exists v, w. unfold fixed. rewrite !list_lookup_fmap, Hi.
    cbn [fmap option_fmap option_map].
    by rewrite Hv, Hw.
  - unfold t', Py.exec. by rewrite (simple_update_scan_df n t).
  - by rewrite Hg', Hgm.
Qed.

Lemma simple_fixed_panel_is_bounded_witness :
  spectra (SimpleMS1Tab.ax_ms1_fixed
             (Py.exec (SimpleMS1Tab.update_scan 1) (simple_ready sparse_table)))
  = [(mz <$> rows (where_scan 1 (renumbered sparse_table)),
      percent_of (Some 60%Q)
        <$> (intensity <$> rows (where_scan 1 (renumbered sparse_table))))].
Proof.
  assert (Hc1 : "scan_number"%string ∈ columns (renumbered sparse_table))
    by (by apply (bool_decide_unpack _)).
  assert (Hc2 : "intensity"%string ∈ columns (renumbered sparse_table))
    by (by apply (bool_decide_unpack _)).
  assert (Hc3 : "mz"%string ∈ columns (renumbered sparse_table))
    by (by apply (bool_decide_unpack _)).
  assert (Hrows : rows (where_scan 1 (renumbered sparse_table)) ≠ [])
    by (by vm_compute).
  assert (Hpos : (0 < 60)%Q) by reflexivity.
  refine (proj1 (simple_fixed_panel_is_bounded
                   (simple_ready sparse_table) (renumbered sparse_table) 1
                   (100 - 10)%Q (102 + 10)%Q 60 _ Hc1 Hc2 Hc3 Hrows
                   _ _ _ _ _ Hpos)); by vm_compute.
Defined.

(** ** The DDA tab: selecting an MS1 scan *)

(** X14: selecting, in the DDA tab, a scan that has MS1 peaks only
    redraws the MS1 panel from that scan (title with the scan number, x
    range from processing, y range from 0 to a tenth of the scan's largest
    intensity, no precursor band) and leaves the MS2 panel and its band
    exactly as they were. *)
Theorem dda_ms1_selection_holds_ms2_panel (t : MS1MS2Tab.Tab) d n lo hi mx :
  MS1MS2Tab.df t = Some d → required_cols ⊆ columns d →
  rows (where_level 1 (where_scan n d)) ≠ [] →
  rows (where_level 2 (where_scan n d)) = [] →
  max (intensity <$> rows (where_level 1 (where_scan n d))) = Some mx →
  MS1MS2Tab.instance_dict t !! "all_mz_min"%string = Some (Some lo) →
  MS1MS2Tab.instance_dict t !! "all_mz_max"%string = Some (Some hi) →
  handle_on MS1MS2Tab.AxChrom (MS1MS2Tab.scan_line t) →
  handle_on MS1MS2Tab.AxMS1 (MS1MS2Tab.ms2_shading_ms1 t) →
  let t' := Py.exec (MS1MS2Tab.update_scan n) t in
  Py.outcome (MS1MS2Tab.update_scan n) t = inr tt
  ∧ MS1MS2Tab.current_scan t' = Some n
  ∧ MS1MS2Tab.ax_ms2 t' = MS1MS2Tab.ax_ms2 t
  ∧ MS1MS2Tab.ms2_shading_ms2 t' = MS1MS2Tab.ms2_shading_ms2 t
  ∧ MS1MS2Tab.ms2_shading_ms1 t' = None
  ∧ title (MS1MS2Tab.ax_ms1 t') = ("MS1 Spectrum - Scan " +:+ Py.str n)%string
  ∧ spectra (MS1MS2Tab.ax_ms1 t')
    = [(mz <$> rows (where_level 1 (where_scan n d)),
        Some ∘ intensity <$> rows (where_level 1 (where_scan n d)))]
  ∧ spans (MS1MS2Tab.ax_ms1 t') = []
  ∧ xlim (MS1MS2Tab.ax_ms1 t') = Some (lo, hi)
  ∧ ylim (MS1MS2Tab.ax_ms1 t') = Some (0%Q, (mx / 10)%Q)
  ∧ MS1MS2Tab.status_label t' = MS1MS2Tab.StScan n true false.
Proof.
  intros Hd Hcols Hms1 Hms2 Hmx Hlo Hhi Hsl Hsh t'. subst t'.
  wp_start (MS1MS2Tab.update_scan n) t.
  destruct t; simpl in *; subst.
  assert (Hc : ∀ name, name ∈ required_cols → name ∈ columns d)
    by (intros ?; apply Hcols).
  assert ("scan_number"%string ∈ columns d) by (apply Hc; set_solver).
  assert ("ms_level"%string ∈ columns d) by (apply Hc; set_solver).
  assert ("mz"%string ∈ columns d) by (apply Hc; set_solver).
  assert ("intensity"%string ∈ columns d) by (apply Hc; set_solver).
  pose proof Hmx as Hmx'. cbn in Hmx'.
  unfold MS1MS2Tab.update_scan, MS1MS2Tab.safe_remove_artist.
  destruct scan_line as [[a i]|], ms2_shading_ms1 as [[a' i']|];
    simpl in Hsl, Hsh; subst; wp_run_all.
  all: rewrite (empty_false (where_level 1 _) "scan_number") by done.
  all: rewrite (empty_true (where_level 2 _)) by done.
  all: cbn [negb]; rewrite ?Hmx, ?Hmx'; wp_run_all.
  all: rewrite ?Hmx, ?Hmx'; wp_run_all.
  all: cbn; done.
Qed.

Lemma dda_ms1_selection_holds_ms2_panel_witness :
  MS1MS2Tab.ax_ms2
    (Py.exec (MS1MS2Tab.update_scan 3)
       (Py.exec (MS1MS2Tab.update_scan 2) (dda_ready dda_table)))
  = MS1MS2Tab.ax_ms2
      (Py.exec (MS1MS2Tab.update_scan 2) (dda_ready dda_table))
  ∧ ylim (MS1MS2Tab.ax_ms1
            (Py.exec (MS1MS2Tab.update_scan 3)
               (Py.exec (MS1MS2Tab.update_scan 2) (dda_ready dda_table))))
    = Some (0%Q, (2000 / 10)%Q).
Proof.
  assert (Hcols : required_cols ⊆ columns dda_table)
    by (by apply (bool_decide_unpack _)).
  assert (Hms1 : rows (where_level 1 (where_scan 3 dda_table)) ≠ [])
    by (by vm_compute).
  destruct (dda_ms1_selection_holds_ms2_panel
              (Py.exec (MS1MS2Tab.update_scan 2) (dda_ready dda_table))
              dda_table 3 (100.5 - 10)%Q (200.25 + 10)%Q 2000)
    as (_ & _ & Hms2 & _ & _ & _ & _ & _ & _ & Hyl & _);
    [by vm_compute|exact Hcols|exact Hms1|by vm_compute..|].
  split; [exact Hms2|exact Hyl].
Defined.

(** ** The DDA tab: the update that gives priority to an MS1 scan *)





(** ** The DDA tab after processing *)

Lemma min_loop_lower (x : Q) (l : list Q) y :
  y ∈ x :: l → (foldl Qmin x l <= y)%Q.
Proof.
  revert x y. induction l as [|z l IH]; intros x y Hy; simpl.
  - apply list_elem_of_singleton in Hy as ->. apply Qle_refl.
  - assert (Hbot : (foldl Qmin (Qmin x z) l <= Qmin x z)%Q)
      by (apply IH; left).
    apply elem_of_cons in Hy as [->|Hy].
    + eapply Qle_trans; [done|apply (Q.le_min_l x z)].
    + apply elem_of_cons in Hy as [->|Hy].
      * eapply Qle_trans; [done|apply (Q.le_min_r x z)].
      * apply IH. by right.
Qed.

Lemma min_lower (l : list Q) m y : min l = Some m → y ∈ l → (m <= y)%Q.
Proof. destruct l; intros [= <-] Hy. by apply min_loop_lower. Qed.

Lemma chromatogram_point d s y :
  (s, y) ∈ sort_values (groupby_sum d) →
  y = sum (intensity <$> rows (where_scan s d)).
Proof.
  unfold sort_values. rewrite merge_sort_Permutation. unfold groupby_sum.
  intros (s' & [= -> ->] & _)%list_elem_of_fmap. done.
Qed.

(** The table whose m/z values give the x range of the spectrum panels: the
    MS1 rows when there are any, all rows otherwise. *)
Lemma ms1ms2_process_data_explicit (t : MS1MS2Tab.Tab) d lo hi m :
  MS1MS2Tab.df t = Some d → required_cols ⊆ columns d →
  max (sort_values (groupby_sum d)).*2 = Some m →
  (if negb (empty (where_level 1 d))
   then min (mz <$> rows (where_level 1 d)) else min (mz <$> rows d))
  = Some lo →
  (if negb (empty (where_level 1 d))
   then max (mz <$> rows (where_level 1 d)) else max (mz <$> rows d))
  = Some hi →
  MS1MS2Tab.process_data t
  = (inr tt,
     MS1MS2Tab.mkTab (Some d) (MS1MS2Tab.current_scan t)
       (sort_values (groupby_sum d)).*1
       (MS1MS2Tab.scan_line t) (MS1MS2Tab.ms2_shading_ms1 t)
       (MS1MS2Tab.ms2_shading_ms2 t)
       (<["all_mz_max"%string := Some (hi + 10)%Q]>
          (<["all_mz_min"%string := Some (lo - 10)%Q]>
             (<["chrom_max_intensity"%string := Some (m * 1.05)%Q]>
                (MS1MS2Tab.instance_dict t))))
       {| title := "Chromatogram (All MS Levels)";
          artists := [(MS1MS2Tab.artist_count t,
                       Line2D (sort_values (groupby_sum d)))];
          xlim := None; ylim := Some (0%Q, (m * 1.05)%Q); xticks := None |}
       (with_title "MS1 Spectrum" blank)
       (with_title "MS2 Spectrum" blank)
       (MS1MS2Tab.StProcessed (length (sort_values (groupby_sum d)).*1))
       (MS1MS2Tab.process_button_enabled t)
       (MS1MS2Tab.message_boxes t)
       (S (MS1MS2Tab.artist_count t))).
Proof.
  intros Hd Hcols Hm Hlo Hhi.
  apply wp_run. destruct t; simpl in *; subst.
  unfold MS1MS2Tab.process_data.
  wp_step. wp_step.
  unfold has_columns. rewrite bool_decide_eq_true_2 by done. cbn [negb].
  rewrite Hm. unfold MS1MS2Tab.setup_spectrum_plots.
  destruct (negb (empty (where_level 1 d))); rewrite Hlo, Hhi;
    wp_run_all; cbn; done.
Qed.

(** X16: processing a non-empty table with the required columns in the
    DDA tab draws, as the only artist of the chromatogram, one point per
    distinct scan number of the table, all MS levels together: the scan
    numbers strictly ascending, each with the sum of the intensities of
    all rows of that scan; the scan list is the list of these scan numbers
    and the y range is [0, 1.05 * the largest total]. *)
Theorem dda_chromatogram_totals (t : MS1MS2Tab.Tab) d :
  MS1MS2Tab.df t = Some d → required_cols ⊆ columns d → rows d ≠ [] →
  let t' := Py.exec MS1MS2Tab.process_data t in
  let chrom_df := sort_values (groupby_sum d) in
  ∃ m,
    artists (MS1MS2Tab.ax_chrom t')
    = [(MS1MS2Tab.artist_count t, Line2D chrom_df)]
    ∧ MS1MS2Tab.all_scans t' = chrom_df.*1
    ∧ StronglySorted Z.lt chrom_df.*1
    ∧ (∀ s, s ∈ chrom_df.*1 ↔ ∃ r, r ∈ rows d ∧ scan_number r = s)
    ∧ (∀ s y, (s, y) ∈ chrom_df →
              y = sum (intensity <$> rows (where_scan s d)))
    ∧ max chrom_df.*2 = Some m
    ∧ (∀ s y, (s, y) ∈ chrom_df → (y <= m)%Q)
    ∧ ylim (MS1MS2Tab.ax_chrom t') = Some (0%Q, (m * 1.05)%Q)
    ∧ MS1MS2Tab.message_boxes t' = MS1MS2Tab.message_boxes t.
Proof.
  intros Hd Hcols Hrows t' chrom_df. subst chrom_df.
  destruct (max_is_Some ((sort_values (groupby_sum d)).*2)) as [m Hm].
  { by apply fmap_not_nil, chromatogram_length. }
  assert (Hlohi : ∃ lo hi,
    (if negb (empty (where_level 1 d))
     then min (mz <$> rows (where_level 1 d)) else min (mz <$> rows d)) = Some lo
    ∧ (if negb (empty (where_level 1 d))
       then max (mz <$> rows (where_level 1 d)) else max (mz <$> rows d))
      = Some hi).
  { destruct (empty (where_level 1 d)) eqn:Hem; cbn [negb].
    - destruct (min_is_Some (mz <$> rows d)) as [lo Hlo];
        [by apply fmap_not_nil|].
      destruct (max_is_Some (mz <$> rows d)) as [hi Hhi];
        [by apply fmap_not_nil|].
      eauto.
    - assert (Hne : rows (where_level 1 d) ≠ []).
      { intros E. by rewrite empty_true in Hem. }
      destruct (min_is_Some (mz <$> rows (where_level 1 d))) as [lo Hlo];
        [by apply fmap_not_nil|].
      destruct (max_is_Some (mz <$> rows (where_level 1 d))) as [hi Hhi];
        [by apply fmap_not_nil|].
      eauto. }
  destruct Hlohi as (lo & hi & Hlo & Hhi).
  pose proof (ms1ms2_process_data_explicit t d lo hi m Hd Hcols Hm Hlo Hhi)
    as Hrun.
  assert (Ht' : t' = (MS1MS2Tab.process_data t).2) by done.
  rewrite Hrun in Ht'. cbn [snd] in Ht'. clear Hrun.
  exists m.
  split_and!.
  - by rewrite Ht'.
  - by rewrite Ht'.
  - rewrite chromatogram_keys. apply unique_scans_ascending.
  - apply chromatogram_keys_elem.
  - apply chromatogram_point.
  - exact Hm.
  - intros s y Hin. apply (max_upper _ _ _ Hm).
    apply (list_elem_of_fmap_2 snd _ (s, y)) in Hin. exact Hin.
  - by rewrite Ht'.
  - by rewrite Ht'.
Qed.

Lemma dda_chromatogram_totals_witness :
  artists (MS1MS2Tab.ax_chrom (dda_ready dda_table))
  = [(3%nat, Line2D [(1, 4000%Q); (2, 1200%Q); (3, 2000%Q)])].
Proof.
  assert (Hcols : required_cols ⊆ columns dda_table)
    by (by apply (bool_decide_unpack _)).
  assert (Hrows : rows dda_table ≠ []) by (by vm_compute).
  destruct (dda_chromatogram_totals
              (Py.exec (MS1MS2Tab.set_data dda_table) MS1MS2Tab.init)
              dda_table eq_refl Hcols Hrows)
    as (m & Hart & _).
  unfold dda_ready. rewrite Hart. by vm_compute.
Defined.

(** X17: after processing in the DDA tab, the x range kept for the
    spectrum panels runs from 10 below the smallest to 10 above the largest
    m/z of the MS1 rows of the table, or of all rows when the table has no
    MS1 row; so every such peak lies inside the range with a margin of
    10. *)
Theorem dda_mz_range_covers_ms1_peaks (t : MS1MS2Tab.Tab) d :
  MS1MS2Tab.df t = Some d → required_cols ⊆ columns d → rows d ≠ [] →
  let t' := Py.exec MS1MS2Tab.process_data t in
  let basis := if negb (empty (where_level 1 d)) then where_level 1 d
               else d in
  ∃ lo hi,
    MS1MS2Tab.instance_dict t' !! "all_mz_min"%string = Some (Some lo)
    ∧ MS1MS2Tab.instance_dict t' !! "all_mz_max"%string = Some (Some hi)
    ∧ min (mz <$> rows basis) = Some (lo + 10)%Q
    ∧ max (mz <$> rows basis) = Some (hi - 10)%Q
    ∧ (∀ r, r ∈ rows basis → (lo + 10 <= mz r)%Q ∧ (mz r <= hi - 10)%Q)
    ∧ (rows (where_level 1 d) ≠ [] → basis = where_level 1 d)
    ∧ (rows (where_level 1 d) = [] → basis = d).
Proof.
  intros Hd Hcols Hrows t' basis.
  destruct (max_is_Some ((sort_values (groupby_sum d)).*2)) as [m Hm].
  { by apply fmap_not_nil, chromatogram_length. }
  assert (Hbasis : rows basis ≠ []).
  { unfold basis. destruct (empty (where_level 1 d)) eqn:Hem; cbn [negb];
      [done|]. intros E. by rewrite empty_true in Hem. }
  destruct (min_is_Some (mz <$> rows basis)) as [lo Hlo];
    [by apply fmap_not_nil|].
  destruct (max_is_Some (mz <$> rows basis)) as [hi Hhi];
    [by apply fmap_not_nil|].
  assert (Hlo' : (if negb (empty (where_level 1 d))
                  then min (mz <$> rows (where_level 1 d))
                  else min (mz <$> rows d)) = Some lo).
  { unfold basis in Hlo. by destruct (negb (empty (where_level 1 d))). }
  assert (Hhi' : (if negb (empty (where_level 1 d))
                  then max (mz <$> rows (where_level 1 d))
                  else max (mz <$> rows d)) = Some hi).
  { unfold basis in Hhi. by destruct (negb (empty (where_level 1 d))). }
  pose proof (ms1ms2_process_data_explicit t d lo hi m Hd Hcols Hm Hlo' Hhi')
    as Hrun.
  assert (Ht' : t' = (MS1MS2Tab.process_data t).2) by done.
  rewrite Hrun in Ht'. cbn [snd] in Ht'. clear Hrun.
  assert (Hc : "scan_number"%string ∈ columns d)
    by (apply Hcols; set_solver).
  exists (lo - 10)%Q, (hi + 10)%Q. split_and!.
  - rewrite Ht'. cbn. rewrite lookup_insert_ne by done.
    by rewrite lookup_insert_eq.
  - rewrite Ht'. cbn. by rewrite lookup_insert_eq.
  - rewrite Hlo. f_equal. unfold Qminus, Qplus, Qopp. destruct lo as [a b].
    cbn. f_equal; lia.
  - rewrite Hhi. f_equal. unfold Qminus, Qplus, Qopp. destruct hi as [a b].
    cbn. f_equal; lia.
  - intros r Hr. split.
    + assert (lo <= mz r)%Q
        by (apply (min_lower _ _ _ Hlo); by apply list_elem_of_fmap_2).
      lra.
    + assert (mz r <= hi)%Q
        by (apply (max_upper _ _ _ Hhi); by apply list_elem_of_fmap_2).
      lra.
  - intros Hne. unfold basis.
    by rewrite (empty_false _ "scan_number").
  - intros He. unfold basis. by rewrite empty_true.
Qed.

Lemma dda_mz_range_covers_ms1_peaks_witness :
  ∃ lo hi,
    MS1MS2Tab.instance_dict (dda_ready prm_table) !! "all_mz_min"%string
    = Some (Some lo)
    ∧ MS1MS2Tab.instance_dict (dda_ready prm_table) !! "all_mz_max"%string
      = Some (Some hi)
    ∧ min (mz <$> rows prm_table) = Some (lo + 10)%Q
    ∧ max (mz <$> rows prm_table) = Some (hi - 10)%Q.
Proof.
  assert (Hcols : required_cols ⊆ columns prm_table)
    by (by apply (bool_decide_unpack _)).
  assert (Hrows : rows prm_table ≠ []) by (by vm_compute).
  destruct (dda_mz_range_covers_ms1_peaks
              (Py.exec (MS1MS2Tab.set_data prm_table) MS1MS2Tab.init)
              prm_table eq_refl Hcols Hrows)
    as (lo & hi & Hlo & Hhi & Hmin & Hmax & _ & _ & Hb).
  rewrite (Hb eq_refl) in Hmin, Hmax.
  exists lo, hi. split_and!; [exact Hlo|exact Hhi|exact Hmin|exact Hmax].
Defined.

(** ** Processing twice *)

Lemma with_scan_number_same r : with_scan_number (scan_number r) r = r.
Proof. by destruct r. Qed.

Lemma renumbered_unique_scans d :
  Py.sorted (unique (scan_number <$> rows (renumbered d)))
  = scans_upto (length (Py.sorted (unique (scan_number <$> rows d)))).
Proof. rewrite <- chromatogram_keys. apply renumbered_scan_list. Qed.

Lemma scans_upto_mapping (N : nat) s :
  s ∈ scans_upto N →
  Py.dict_of_swapped (Py.enumerate 1 (scans_upto N)) !! s = Some s.
Proof.
  intros Hs. pose proof Hs as Hs'. apply scans_upto_elem in Hs'.
  assert (Hi : scans_upto N !! Z.to_nat (s - 1) = Some s).
  { rewrite scans_upto_lookup by lia. f_equal. lia. }
  apply scan_mapping_lookup in Hi;
    [|apply StronglySorted_lt_NoDup, scans_upto_ascending].
  rewrite Hi. f_equal. lia.
Qed.

(** Renumbering a table whose scans are already 1..N changes nothing. *)
Lemma renumbered_idempotent d : renumbered (renumbered d) = renumbered d.
Proof.
  unfold renumbered at 1. unfold map_scan_number.
  rewrite (renumbered_unique_scans d).
  set (N := length _).
  assert (Hall : ∀ r, r ∈ rows (renumbered d) → scan_number r ∈ scans_upto N).
  { intros r Hr. unfold N. rewrite <- renumbered_unique_scans.
    apply unique_scans_elem. by apply list_elem_of_fmap_2. }
  destruct (renumbered d) as [cols rs]. cbn [columns rows] in *.
  f_equal. rewrite <- (list_fmap_id rs) at 2.
  apply list_fmap_ext. intros i r Hr.
  rewrite (scans_upto_mapping N (scan_number r)).
  - apply with_scan_number_same.
  - apply Hall. by eapply list_elem_of_lookup_2.
Qed.

Lemma renumbered_levels d level :
  where_level level (renumbered (where_level level d))
  = renumbered (where_level level d).
Proof.
  unfold where_level at 1. destruct (renumbered _) as [cols rs] eqn:E.
  cbn [columns rows]. f_equal. apply filter_all. intros r Hr.
  assert (Hr' : r ∈ rows (renumbered (where_level level d)))
    by (by rewrite E).
  unfold renumbered, map_scan_number in Hr'. cbn [rows] in Hr'.
  apply list_elem_of_fmap in Hr' as (r0 & -> & Hr0).
  apply list_elem_of_filter in Hr0 as [Hl _].
  by destruct (_ !! _).
Qed.

(** X18: pressing the process button of the MS1 tab a second time gives
    the same stored table, scan list, selection and global maximum as the
    first time: the table is already the MS1 subset, and renumbering scans
    that are already 1, ..., N changes nothing. *)
Theorem simple_process_twice_is_process_once (t : SimpleMS1Tab.Tab) d :
  SimpleMS1Tab.df t = Some d → required_cols ⊆ columns d →
  rows (where_level 1 d) ≠ [] →
  handle_on SimpleMS1Tab.AxChrom (SimpleMS1Tab.scan_line t) →
  let t1 := Py.exec SimpleMS1Tab.process_ms1_data t in
  let t2 := Py.exec SimpleMS1Tab.process_ms1_data t1 in
  SimpleMS1Tab.df t2 = SimpleMS1Tab.df t1
  ∧ SimpleMS1Tab.all_scans t2 = SimpleMS1Tab.all_scans t1
  ∧ SimpleMS1Tab.current_scan t2 = SimpleMS1Tab.current_scan t1
  ∧ SimpleMS1Tab.global_max_intensity t2
    = SimpleMS1Tab.global_max_intensity t1
  ∧ renumbered (renumbered (where_level 1 d)) = renumbered (where_level 1 d).
Proof.
  intros Hd Hcols Hrows Hon t1 t2.
  set (d' := renumbered (where_level 1 d)).
  assert (Hc : ∀ name, name ∈ required_cols → name ∈ columns d)
    by (intros ?; apply Hcols).
  destruct (simple_process_ok t d Hd Hcols Hrows Hon)
    as (s1 & lo & hi & Hrun & Hout & HN & Hscan & Hdf & Hall & Hgm & Hsl
        & Hlo & Hhi & _).
  fold d' in Hscan, Hdf.
  set (N := length _) in *.
  assert (Hon1 : handle_on SimpleMS1Tab.AxChrom (SimpleMS1Tab.scan_line s1))
    by (by rewrite Hsl).
  destruct (simple_update_scan_run s1 d' (Z.of_nat (N / 2) + 1) lo hi Hdf)
    as (_ & Hcur1 & Hg1 & _ & Hsl1 & _);
    [apply Hc; set_solver..|done|done|done|done|].
  assert (Ht1 : t1 = Py.exec (SimpleMS1Tab.update_scan (Z.of_nat (N / 2) + 1))
                       s1) by (unfold t1, Py.exec; by rewrite Hrun).
  rewrite <- Ht1 in Hcur1, Hg1, Hsl1.
  assert (Hdf1 : SimpleMS1Tab.df t1 = Some d').
  { rewrite Ht1. unfold Py.exec. by rewrite (simple_update_scan_df _ s1). }
  assert (Hall1 : SimpleMS1Tab.all_scans t1 = scans_upto N).
  { rewrite Ht1. unfold Py.exec.
    by rewrite (simple_update_scan_all_scans _ s1). }
  assert (Hlev : where_level 1 d' = d') by apply renumbered_levels.
  assert (Hren : renumbered d' = d') by apply renumbered_idempotent.
  assert (Hrows' : rows (where_level 1 d') ≠ []).
  { rewrite Hlev. by apply renumbered_rows_not_nil. }
  assert (Hon' : handle_on SimpleMS1Tab.AxChrom (SimpleMS1Tab.scan_line t1))
    by (by rewrite Hsl1).
  destruct (simple_process_ok t1 d' Hdf1 Hcols Hrows' Hon')
    as (s2 & lo2 & hi2 & Hrun2 & Hout2 & HN2 & Hscan2 & Hdf2 & Hall2 & Hgm2
        & Hsl2 & Hlo2 & Hhi2 & _).
  rewrite Hlev in Hrun2, Hout2, HN2, Hscan2, Hdf2, Hall2, Hgm2.
  rewrite Hren in Hscan2, Hdf2.
  assert (HN' : length (Py.sorted (unique (scan_number <$> rows d'))) = N).
  { unfold d'. by rewrite renumbered_unique_scans, scans_upto_length. }
  rewrite HN' in Hrun2, Hout2, HN2, Hscan2, Hall2.
  assert (Hon2 : handle_on SimpleMS1Tab.AxChrom (SimpleMS1Tab.scan_line s2))
    by (by rewrite Hsl2).
  destruct (simple_update_scan_run s2 d' (Z.of_nat (N / 2) + 1) lo2 hi2 Hdf2)
    as (_ & Hcur2 & Hg2 & _);
    [apply Hc; set_solver..|done|done|done|done|].
  assert (Ht2 : t2 = Py.exec (SimpleMS1Tab.update_scan (Z.of_nat (N / 2) + 1))
                       s2) by (unfold t2, Py.exec; by rewrite Hrun2).
  rewrite <- Ht2 in Hcur2, Hg2.
  split_and!.
  - rewrite Hdf1, Ht2. unfold Py.exec.
    by rewrite (simple_update_scan_df _ s2).
  - rewrite Hall1, Ht2. unfold Py.exec.
    by rewrite (simple_update_scan_all_scans _ s2).
  - by rewrite Hcur1, Hcur2.
  - rewrite Hg1, Hg2, Hgm, Hgm2. unfold d'. by rewrite renumbered_intensity.
  - exact Hren.
Qed.

Lemma simple_process_twice_is_process_once_witness :
  SimpleMS1Tab.df
    (Py.exec SimpleMS1Tab.process_ms1_data (simple_ready sparse_table))
  = SimpleMS1Tab.df (simple_ready sparse_table)
  ∧ SimpleMS1Tab.current_scan
      (Py.exec SimpleMS1Tab.process_ms1_data (simple_ready sparse_table))
    = SimpleMS1Tab.current_scan (simple_ready sparse_table).
Proof.
  assert (Hcols : required_cols ⊆ columns sparse_table)
    by (by apply (bool_decide_unpack _)).
  assert (Hrows : rows (where_level 1 sparse_table) ≠ []) by (by vm_compute).
  destruct (simple_process_twice_is_process_once
              (Py.exec (SimpleMS1Tab.set_data sparse_table) SimpleMS1Tab.init)
              sparse_table eq_refl Hcols Hrows I)
    as (Hdf & _ & Hcur & _).
  split; [exact Hdf|exact Hcur].
Defined.

(** ** The zoom viewer: the windows around the flagged peak *)

(** X19: when the zoom viewer selects a scan whose first flagged row
    has m/z c, the whole-spectrum panel is shaded over [c - 1, c + 3], the
    isotope panel shows [c - 0.5, c + 2.5] with y from 0 to 15 and is shaded
    over [c - 0.02, c + 0.02], and the resolution panel shows
    [c - 0.02, c + 0.02] with ticks at its two ends and at their midpoint,
    which is c; both lower panels draw the peaks at their intensity
    relative to the largest flagged intensity of the scan. *)
Theorem zoom_windows_follow_flagged_peak
    (t : ZoomViewerTab.Tab) d n lo hi r rs :
  ZoomViewerTab.df t = Some d →
  "scan_number"%string ∈ columns d →
  "intensity"%string ∈ columns d →
  "mz"%string ∈ columns d →
  "Max"%string ∈ columns d →
  rows (where_max (where_scan n d)) = r :: rs →
  ZoomViewerTab.instance_dict t !! "all_mz_min"%string = Some (Some lo) →
  ZoomViewerTab.instance_dict t !! "all_mz_max"%string = Some (Some hi) →
  handle_on ZoomViewerTab.AxChrom (ZoomViewerTab.scan_line t) →
  let t' := Py.exec (ZoomViewerTab.update_scan n) t in
  let c := mz r in
  let mz_values := mz <$> rows (where_scan n d) in
  let intensity_percent_fixed :=
    percent_of (max (intensity <$> r :: rs))
      <$> (intensity <$> rows (where_scan n d)) in
  Py.outcome (ZoomViewerTab.update_scan n) t = inr tt
  ∧ ZoomViewerTab.current_scan t' = Some n
  ∧ ZoomViewerTab.instance_dict t' !! "current_center_mz"%string
    = Some (Some c)
  ∧ spans (ZoomViewerTab.ax_ms1_var t') = [(Some (c - 1)%Q, Some (c + 3)%Q)]
  ∧ spans (ZoomViewerTab.ax_ms1_fixed t')
    = [(Some (c - 0.02)%Q, Some (c + 0.02)%Q)]
  ∧ spectra (ZoomViewerTab.ax_ms1_fixed t')
    = [(mz_values, intensity_percent_fixed)]
  ∧ xlim (ZoomViewerTab.ax_ms1_fixed t') = Some ((c - 0.5)%Q, (c + 2.5)%Q)
  ∧ ylim (ZoomViewerTab.ax_ms1_fixed t') = Some (0%Q, 15%Q)
  ∧ artists (ZoomViewerTab.ax_ms1_zoom t')
    = [((ZoomViewerTab.artist_count t + 5)%nat,
        Curve mz_values intensity_percent_fixed)]
  ∧ xlim (ZoomViewerTab.ax_ms1_zoom t') = Some ((c - 0.02)%Q, (c + 0.02)%Q)
  ∧ ylim (ZoomViewerTab.ax_ms1_zoom t') = Some (0%Q, 100%Q)
  ∧ xticks (ZoomViewerTab.ax_ms1_zoom t')
    = Some [Some (c - 0.02)%Q; Some ((c - 0.02 + (c + 0.02)) / 2)%Q;
            Some (c + 0.02)%Q]
  ∧ ((c - 0.02 + (c + 0.02)) / 2 == c)%Q.
Proof.
  intros Hd Hc1 Hc2 Hc3 Hc4 Hmax Hlo Hhi Hsl t' c mz_values
         intensity_percent_fixed.
  subst t' mz_values intensity_percent_fixed.
  assert (Hrows : rows (where_scan n d) ≠ []).
  { intros E. unfold where_max in Hmax. cbn in Hmax, E.
    rewrite E in Hmax. discriminate. }
  assert (Hem : empty (where_max (where_scan n d)) = false)
    by (apply (empty_false _ "scan_number"); [done|by rewrite Hmax]).
  pose proof Hmax as Hmax'. cbn in Hmax'.
  wp_start (ZoomViewerTab.update_scan n) t.
  destruct t; simpl in Hd, Hlo, Hhi, Hsl |- *; subst.
  unfold ZoomViewerTab.update_scan. wp_run_all.
  rewrite (empty_false _ "scan_number") by done.
  wp_step. unfold ZoomViewerTab.safe_remove_artist.
  destruct scan_line as [[a j]|]; simpl in Hsl; subst; wp_run_all.
  all: rewrite Hem; rewrite ?Hmax, ?Hmax'; wp_run_all.
  all: cbn [negb]; rewrite ?Hmax, ?Hmax'; cbn.
  all: split_and!; rewrite ?lookup_insert_eq; try reflexivity.
  all: try (do 3 f_equal; lia).
  all: try (subst c; field).
Qed.

Lemma zoom_windows_follow_flagged_peak_witness :
  xlim (ZoomViewerTab.ax_ms1_zoom
          (Py.exec (ZoomViewerTab.update_scan 2) (zoom_ready sparse_table)))
  = Some ((102 - 0.02)%Q, (102 + 0.02)%Q)
  ∧ spans (ZoomViewerTab.ax_ms1_var
             (Py.exec (ZoomViewerTab.update_scan 2) (zoom_ready sparse_table)))
    = [(Some (102 - 1)%Q, Some (102 + 3)%Q)].
Proof.
  assert (Hc1 : "scan_number"%string
                ∈ columns (flagged (renumbered sparse_table)))
    by (by apply (bool_decide_unpack _)).
  assert (Hc2 : "intensity"%string
                ∈ columns (flagged (renumbered sparse_table)))
    by (by apply (bool_decide_unpack _)).
  assert (Hc3 : "mz"%string ∈ columns (flagged (renumbered sparse_table)))
    by (by apply (bool_decide_unpack _)).
  assert (Hc4 : "Max"%string ∈ columns (flagged (renumbered sparse_table)))
    by (by apply (bool_decide_unpack _)).
  destruct (zoom_windows_follow_flagged_peak
              (zoom_ready sparse_table) (flagged (renumbered sparse_table)) 2
              (100 - 10)%Q (102 + 10)%Q
              (mkPeak 2 102 50 1 None 1) [])
    as (_ & _ & _ & Hvar & _ & _ & _ & _ & _ & Hxl & _);
    [by vm_compute|exact Hc1|exact Hc2|exact Hc3|exact Hc4|by vm_compute..|].
  split; [exact Hxl|exact Hvar].
Defined.

(** ** The main window: one table, three tabs *)

Lemma where_level_rows_not_nil d level :
  rows (where_level level d) ≠ [] → rows d ≠ [].
Proof. intros H E. apply H. unfold where_level. cbn. by rewrite E. Qed.

Lemma exec_on_simple_ms1_tab {A} (m : Py.M SimpleMS1Tab.Tab A) a :
  Py.exec (MSAnalysisApp.on_simple_ms1_tab m) a
  = MSAnalysisApp.set_simple_ms1_tab (Py.exec m (MSAnalysisApp.simple_ms1_tab a)) a.
Proof. reflexivity. Qed.

Lemma exec_on_ms1_ms2_tab {A} (m : Py.M MS1MS2Tab.Tab A) a :
  Py.exec (MSAnalysisApp.on_ms1_ms2_tab m) a
  = MSAnalysisApp.set_ms1_ms2_tab (Py.exec m (MSAnalysisApp.ms1_ms2_tab a)) a.
Proof. reflexivity. Qed.

Lemma exec_on_data_loaded d a :
  Py.exec (MSAnalysisApp.on_data_loaded d) a
  = MSAnalysisApp.mkApp (Some d)
      (MSAnalysisApp.SbLoaded (len d) (length (columns d)))
      (Py.exec (ZoomViewerTab.set_data d) (MSAnalysisApp.zoom_viewer_tab a))
      (Py.exec (SimpleMS1Tab.set_data d) (MSAnalysisApp.simple_ms1_tab a))
      (Py.exec (MS1MS2Tab.set_data d) (MSAnalysisApp.ms1_ms2_tab a)).
Proof. destruct a as [sd sb [] [] []]. reflexivity. Qed.

Lemma outcome_get_shared_data a :
  Py.outcome MSAnalysisApp.get_shared_data a
  = inr (MSAnalysisApp.shared_data a).
Proof. reflexivity. Qed.

(** X20: when the window receives a table that has MS1 rows and the
    required columns, and the MS1 tab and the DDA tab then process it, the
    window still holds the table as loaded and so does the DDA tab, whose
    scan list is the ascending list of the distinct scan numbers of the
    table; the MS1 tab holds the renumbered MS1 subset and lists 1, ..., N.
    The two tabs number the same scan differently: scan k + 1 of the MS1
    tab has the rows of the k-th (from 0) distinct MS1 scan number of the
    table, which the DDA tab lists under that original number. *)
Theorem app_tabs_number_scans_differently (d : DataFrame) :
  required_cols ⊆ columns d → rows (where_level 1 d) ≠ [] →
  let a := Py.exec (MSAnalysisApp.on_ms1_ms2_tab MS1MS2Tab.process_data)
             (Py.exec (MSAnalysisApp.on_simple_ms1_tab
                         SimpleMS1Tab.process_ms1_data)
                (Py.exec (MSAnalysisApp.on_data_loaded d)
                   MSAnalysisApp.init)) in
  let ms1_scans :=
    Py.sorted (unique (scan_number <$> rows (where_level 1 d))) in
  Py.outcome MSAnalysisApp.get_shared_data a = inr (Some d)
  ∧ MSAnalysisApp.status_bar a
    = MSAnalysisApp.SbLoaded (len d) (length (columns d))
  ∧ ZoomViewerTab.df (MSAnalysisApp.zoom_viewer_tab a) = Some d
  ∧ MS1MS2Tab.df (MSAnalysisApp.ms1_ms2_tab a) = Some d
  ∧ MS1MS2Tab.all_scans (MSAnalysisApp.ms1_ms2_tab a)
    = Py.sorted (unique (scan_number <$> rows d))
  ∧ SimpleMS1Tab.df (MSAnalysisApp.simple_ms1_tab a)
    = Some (renumbered (where_level 1 d))
  ∧ SimpleMS1Tab.all_scans (MSAnalysisApp.simple_ms1_tab a)
    = scans_upto (length ms1_scans)
  ∧ (∀ k old, ms1_scans !! k = Some old →
       old ∈ MS1MS2Tab.all_scans (MSAnalysisApp.ms1_ms2_tab a)
       ∧ Z.of_nat k + 1
         ∈ SimpleMS1Tab.all_scans (MSAnalysisApp.simple_ms1_tab a)
       ∧ rows (where_scan (Z.of_nat k + 1) (renumbered (where_level 1 d)))
         = with_scan_number (Z.of_nat k + 1)
             <$> rows (where_scan old (where_level 1 d))).
Proof.
  intros Hcols Hrows a ms1_scans.
  assert (Hrows0 : rows d ≠ []) by (by eapply where_level_rows_not_nil).
  subst a.
  rewrite outcome_get_shared_data, exec_on_ms1_ms2_tab,
    exec_on_simple_ms1_tab, exec_on_data_loaded.
  unfold MSAnalysisApp.set_ms1_ms2_tab, MSAnalysisApp.set_simple_ms1_tab.
  cbn [MSAnalysisApp.shared_data MSAnalysisApp.status_bar
       MSAnalysisApp.zoom_viewer_tab MSAnalysisApp.simple_ms1_tab
       MSAnalysisApp.ms1_ms2_tab MSAnalysisApp.init].
  set (ts := Py.exec (SimpleMS1Tab.set_data d) SimpleMS1Tab.init).
  set (tm := Py.exec (MS1MS2Tab.set_data d) MS1MS2Tab.init).
  assert (Hs0 : SimpleMS1Tab.df ts = Some d) by reflexivity.
  assert (Hm0 : MS1MS2Tab.df tm = Some d) by reflexivity.
  clearbody ts tm.
  destruct (simple_process_renumbers ts d Hs0 Hcols Hrows) as [Hsdf Hsall].
  destruct (ms1ms2_process_data_run tm d Hm0 Hcols Hrows0)
    as (lo & hi & cm & Hmrun).
  assert (Hm : Py.exec MS1MS2Tab.process_data tm
               = (MS1MS2Tab.process_data tm).2) by reflexivity.
  rewrite Hmrun in Hm. cbn [snd] in Hm. rewrite !Hm.
  cbn [MS1MS2Tab.df MS1MS2Tab.all_scans].
  rewrite Hsdf, Hsall, renumbered_scan_list, chromatogram_keys.
  fold ms1_scans.
  split_and!; try reflexivity.
  intros k old Hk. split_and!.
  - apply unique_scans_elem.
    assert (Hin : old ∈ scan_number <$> rows (where_level 1 d)).
    { apply unique_scans_elem. by eapply list_elem_of_lookup_2. }
    apply list_elem_of_fmap in Hin as (r & -> & Hr).
    apply list_elem_of_filter in Hr as [_ Hr].
    by apply list_elem_of_fmap_2.
  - apply scans_upto_elem. apply lookup_lt_Some in Hk. lia.
  - apply (renumber_group (where_level 1 d)).
    apply scan_mapping_lookup; [apply unique_scans_NoDup|done].
Qed.

Lemma app_tabs_number_scans_differently_witness :
  MS1MS2Tab.all_scans
    (MSAnalysisApp.ms1_ms2_tab
       (Py.exec (MSAnalysisApp.on_ms1_ms2_tab MS1MS2Tab.process_data)
          (Py.exec (MSAnalysisApp.on_simple_ms1_tab
                      SimpleMS1Tab.process_ms1_data)
             (Py.exec (MSAnalysisApp.on_data_loaded dda_table)
                MSAnalysisApp.init))))
  = [1; 2; 3]
  ∧ SimpleMS1Tab.all_scans
      (MSAnalysisApp.simple_ms1_tab
         (Py.exec (MSAnalysisApp.on_ms1_ms2_tab MS1MS2Tab.process_data)
            (Py.exec (MSAnalysisApp.on_simple_ms1_tab
                        SimpleMS1Tab.process_ms1_data)
               (Py.exec (MSAnalysisApp.on_data_loaded dda_table)
                  MSAnalysisApp.init))))
    = [1; 2].
Proof.
  assert (Hcols : required_cols ⊆ columns dda_table)
    by (by apply (bool_decide_unpack _)).
  assert (Hrows : rows (where_level 1 dda_table) ≠ []) by (by vm_compute).
  destruct (app_tabs_number_scans_differently dda_table Hcols Hrows)
    as (_ & _ & _ & _ & Hdda & _ & Hsimple & _).
  split.
  - rewrite Hdda. by vm_compute.
  - rewrite Hsimple. by vm_compute.
Defined.

(** ** The zoom viewer: which peak of a scan is flagged *)

(** [idxmax] returns the label of the first pair that holds the maximum:
    the pairs before it are strictly smaller, the pairs after it are not
    larger. *)
Lemma idxmax_loop_first_max (best : nat * Q) (l : list (nat * Q)) :
  ∃ pre v post,
    best :: l = pre ++ (idxmax_loop best l, v) :: post
    ∧ (∀ p, p ∈ pre → (p.2 < v)%Q)
    ∧ (∀ p, p ∈ post → (p.2 <= v)%Q).
Proof.
  revert best. induction l as [|p l IH]; intros best.
  - exists [], best.2, []. split; [by destruct best|].
    split; intros q Hq; by apply elem_of_nil in Hq.
  - cbn [idxmax_loop]. destruct (Qle_bool p.2 best.2) eqn:E.
    + apply Qle_bool_iff in E.
      destruct (IH best) as (pre & v & post & Heq & Hpre & Hpost).
      destruct pre as [|b pre'].
      * cbn [app] in Heq. injection Heq as Hb Hl.
        assert (Hv : best.2 = v) by (by rewrite Hb).
        exists [], v, (p :: post). split_and!.
        -- cbn [app]. rewrite <- Hb. by rewrite Hl.
        -- intros q Hq. by apply elem_of_nil in Hq.
        -- intros q [->|Hq]%elem_of_cons; [by rewrite <- Hv|by apply Hpost].
      * cbn [app] in Heq. injection Heq as <- Hl.
        exists (best :: p :: pre'), v, post. split_and!.
        -- cbn [app]. by rewrite <- Hl.
        -- intros q [->|[->|Hq]%elem_of_cons]%elem_of_cons.
           ++ apply Hpre. left.
           ++ eapply Qle_lt_trans; [exact E|]. apply Hpre. left.
           ++ apply Hpre. by right.
        -- exact Hpost.
    + assert (Hlt : (best.2 < p.2)%Q).
      { apply Qnot_le_lt. intros H. apply Qle_bool_iff in H. congruence. }
      destruct (IH p) as (pre & v & post & Heq & Hpre & Hpost).
      exists (best :: pre), v, post. split_and!.
      * cbn [app]. by rewrite Heq.
      * intros q [->|Hq]%elem_of_cons; [|by apply Hpre].
        destruct pre as [|b pre'].
        -- cbn [app] in Heq. injection Heq as Hb Hl.
           assert (Hv : p.2 = v) by (by rewrite Hb). by rewrite <- Hv.
        -- cbn [app] in Heq. injection Heq as <- Hl.
           eapply Qlt_trans; [exact Hlt|]. apply Hpre. left.
      * exact Hpost.
Qed.

Lemma labels_ascending_from (k : nat) (l : list Peak) :
  StronglySorted (λ p q : nat * Peak, (p.1 < q.1)%nat)
    (imap (λ i r, ((k + i)%nat, r)) l).
Proof.
  revert k. induction l as [|x l IH]; intros k; [constructor|].
  rewrite imap_cons.
  rewrite (imap_ext _ (λ i r, ((S k + i)%nat, r)));
    [|intros i r _; cbn; f_equal; lia].
  constructor; [apply IH|].
  apply Forall_forall. intros q Hq.
  apply elem_of_lookup_imap_1 in Hq as (i & y & -> & _). cbn. lia.
Qed.

Lemma StronglySorted_filter {A} (R : relation A) (P : A → Prop)
    `{!∀ x, Decision (P x)} (l : list A) :
  StronglySorted R l → StronglySorted R (filter P l).
Proof.
  induction 1 as [|x l Hl IH Hx]; [constructor|].
  rewrite filter_cons. destruct (decide (P x)); [|done].
  constructor; [done|].
  apply Forall_forall. intros y [_ Hy]%list_elem_of_filter.
  by eapply Forall_forall in Hx.
Qed.

(** The label [groupby('scan_number')['intensity'].idxmax()] gives for scan
    [s]: the first row of the scan that holds the largest intensity of the
    scan. *)
Lemma group_idxmax_first_top (l : list Peak) (s : Z) :
  s ∈ scan_number <$> l →
  ∃ i r,
    idxmax ((λ p, (p.1, intensity p.2))
              <$> filter (λ p, scan_number p.2 = s) (imap (λ i r, (i, r)) l))
    = Some i
    ∧ l !! i = Some r ∧ scan_number r = s
    ∧ ∀ j r', l !! j = Some r' → scan_number r' = s →
        (intensity r' <= intensity r)%Q
        ∧ ((j < i)%nat → (intensity r' < intensity r)%Q).
Proof.
  intros Hs.
  set (L := imap (λ i r, (i, r)) l).
  set (G := (λ p : nat * Peak, (p.1, intensity p.2))
              <$> filter (λ p, scan_number p.2 = s) L).
  assert (Hin : ∀ j r', l !! j = Some r' → scan_number r' = s →
                        (j, intensity r') ∈ G).
  { intros j r' Hj Hr. unfold G.
    apply list_elem_of_fmap. exists (j, r'). split; [done|].
    apply list_elem_of_filter. split; [done|].
    by apply (elem_of_lookup_imap_2 (λ i r, (i, r))). }
  assert (Hout : ∀ j w, (j, w) ∈ G →
                        ∃ r', l !! j = Some r' ∧ scan_number r' = s
                              ∧ w = intensity r').
  { intros j w Hjw. unfold G in Hjw.
    apply list_elem_of_fmap in Hjw as ([j' r'] & Heq & Hp).
    apply list_elem_of_filter in Hp as [Hsc Hp].
    apply elem_of_lookup_imap_1 in Hp as (i0 & y & Hy & Hl).
    cbn in Heq, Hsc. simplify_eq. eauto. }
  assert (Hsorted : StronglySorted (λ p q : nat * Q, (p.1 < q.1)%nat) G).
  { unfold G.
    apply (StronglySorted_fmap (λ p : nat * Peak, (p.1, intensity p.2))
             (λ p q : nat * Peak, (p.1 < q.1)%nat)
             (λ p q : nat * Q, (p.1 < q.1)%nat)); [by intros ??|].
    apply StronglySorted_filter. apply (labels_ascending_from 0). }
  apply list_elem_of_fmap in Hs as (r1 & Hr1 & Hl1).
  apply list_elem_of_lookup in Hl1 as [k Hk].
  pose proof (Hin k r1 Hk (eq_sym Hr1)) as Hne.
  destruct G as [|best G'] eqn:EG; [by apply elem_of_nil in Hne|].
  cbn [idxmax].
  destruct (idxmax_loop_first_max best G')
    as (pre & v & post & Heq & Hpre & Hpost).
  set (i := idxmax_loop best G') in *.
  rewrite Heq in Hin, Hout, Hsorted.
  destruct (Hout i v) as (r & Hr & Hrs & Hv).
  { apply elem_of_app. right. left. }
  exists i, r. split_and!; [done..|].
  intros j r' Hj Hjs.
  pose proof (Hin j r' Hj Hjs) as Hmem.
  apply elem_of_app in Hmem as [Hmem|Hmem].
  - apply Hpre in Hmem. cbn in Hmem. rewrite <- Hv.
    split; [by apply Qlt_le_weak|done].
  - apply elem_of_cons in Hmem as [Hmem|Hmem].
    + injection Hmem as -> Hw. rewrite Hw, <- Hv.
      split; [apply Qle_refl|lia].
    + split.
      * apply Hpost in Hmem. cbn in Hmem. by rewrite <- Hv.
      * intros Hlt. apply StronglySorted_app_1_r in Hsorted.
        apply StronglySorted_cons in Hsorted as [Hall _].
        eapply Forall_forall in Hall; [|exact Hmem]. cbn in Hall. lia.
Qed.

Lemma flagged_lookup d i :
  rows (flagged d) !! i
  = (λ r, if bool_decide (i ∈ groupby_idxmax (assign_Max 0 d))
          then with_Max 1 r else with_Max 0 r) <$> rows d !! i.
Proof.
  unfold flagged, loc_assign_Max, labelled. cbn [rows assign_Max].
  rewrite list_lookup_fmap, list_lookup_imap, list_lookup_fmap.
  destruct (rows d !! i) as [r|]; [|done]. cbn.
  by case_bool_decide.
Qed.

(** In the table the zoom viewer stores, every scan has exactly one flagged
    row: the first row of the scan that holds its largest intensity. *)
Lemma flagged_first_top_peak d s :
  s ∈ scan_number <$> rows d →
  ∃ i r, rows (flagged d) !! i = Some r ∧ scan_number r = s ∧ Max r = 1
    ∧ ∀ j r', rows (flagged d) !! j = Some r' → scan_number r' = s →
        (intensity r' <= intensity r)%Q
        ∧ ((j < i)%nat → (intensity r' < intensity r)%Q)
        ∧ (j ≠ i → Max r' = 0).
Proof.
  intros Hs.
  assert (Hs0 : ∀ s', s' ∈ scan_number <$> rows d →
                      s' ∈ scan_number <$> rows (assign_Max 0 d)).
  { intros s' H. cbn [rows assign_Max]. rewrite <- list_fmap_compose.
    by erewrite list_fmap_ext; [exact H|]. }
  destruct (group_idxmax_first_top (rows (assign_Max 0 d)) s (Hs0 s Hs))
    as (i & r0 & Hidx & Hi & Hr0 & Hmax).
  assert (Hlab : ∀ j, j ∈ groupby_idxmax (assign_Max 0 d) →
                      ∀ rj, rows d !! j = Some rj → scan_number rj = s →
                      j = i).
  { intros j Hj rj Hrj Hsj. unfold groupby_idxmax in Hj.
    apply list_elem_of_omap in Hj as (s' & Hs' & Hidx').
    apply (proj1 (unique_scans_elem _ _)) in Hs'.
    destruct (group_idxmax_first_top (rows (assign_Max 0 d)) s' Hs')
      as (i' & r' & Hidx'' & Hi' & Hr' & _).
    unfold labelled in Hidx'. rewrite Hidx'' in Hidx'. injection Hidx' as ->.
    cbn [rows assign_Max] in Hi'. rewrite list_lookup_fmap, Hrj in Hi'.
    injection Hi' as <-. cbn in Hr'. subst s'. rewrite Hsj in Hidx''.
    congruence. }
  assert (Hi_in : i ∈ groupby_idxmax (assign_Max 0 d)).
  { unfold groupby_idxmax. apply list_elem_of_omap. exists s.
    split; [by apply unique_scans_elem, Hs0|exact Hidx]. }
  cbn [rows assign_Max] in Hi. rewrite list_lookup_fmap in Hi.
  destruct (rows d !! i) as [ri|] eqn:Hri; [|done].
  injection Hi as <-. cbn in Hr0.
  exists i, (with_Max 1 ri). split_and!.
  - rewrite flagged_lookup, Hri. cbn. by rewrite bool_decide_eq_true_2.
  - done.
  - done.
  - intros j r' Hj Hjs. rewrite flagged_lookup in Hj.
    destruct (rows d !! j) as [rj|] eqn:Hrj; [|done].
    cbn in Hj. injection Hj as <-.
    assert (Hsj : scan_number rj = s) by (by case_bool_decide).
    destruct (Hmax j (with_Max 0 rj)) as [Hle Hlt].
    { cbn [rows assign_Max]. by rewrite list_lookup_fmap, Hrj. }
    { done. }
    cbn in Hle, Hlt.
    split_and!.
    + by case_bool_decide.
    + intros H. case_bool_decide; by apply Hlt.
    + intros Hne. case_bool_decide as Hin; [|done].
      destruct Hne. by eapply Hlab.
Qed.

(** X21: when the zoom viewer has processed a table with MS1 rows and the
    required columns, the table it stores is the renumbered MS1 subset with
    only the Max column changed, and every listed scan has exactly one row
    with Max = 1: the first row of the scan that holds the largest
    intensity of the scan.  All other rows of the scan have Max = 0. *)
Theorem zoom_process_flags_first_top_peak (t : ZoomViewerTab.Tab) d :
  ZoomViewerTab.df t = Some d → required_cols ⊆ columns d →
  rows (where_level 1 d) ≠ [] →
  let t' := Py.exec ZoomViewerTab.process_ms1_data t in
  ∃ d', ZoomViewerTab.df t' = Some d'
    ∧ with_Max 0 <$> rows d'
      = with_Max 0 <$> rows (renumbered (where_level 1 d))
    ∧ ∀ s, s ∈ ZoomViewerTab.all_scans t' →
        ∃ i r, rows d' !! i = Some r ∧ scan_number r = s ∧ Max r = 1
          ∧ ∀ j r', rows d' !! j = Some r' → scan_number r' = s →
              (intensity r' <= intensity r)%Q
              ∧ ((j < i)%nat → (intensity r' < intensity r)%Q)
              ∧ (j ≠ i → Max r' = 0).
Proof.
  intros Hd Hcols Hrows t'.
  destruct (zoom_process_renumbers t d Hd Hcols Hrows) as [Hdf Hall].
  fold t' in Hdf, Hall.
  exists (flagged (renumbered (where_level 1 d))). split_and!.
  - exact Hdf.
  - apply list_eq. intros i. rewrite !list_lookup_fmap, flagged_lookup.
    destruct (rows (renumbered (where_level 1 d)) !! i) as [r|]; [|done].
    cbn. by case_bool_decide.
  - intros s Hs. rewrite Hall, chromatogram_keys, unique_scans_elem in Hs.
    rewrite flagged_scan_numbers in Hs.
    by apply flagged_first_top_peak.
Qed.

Lemma zoom_process_flags_first_top_peak_witness :
  ∃ d', ZoomViewerTab.df (zoom_ready plateau_table) = Some d'
    ∧ Max <$> rows d' = [0; 1; 0; 1].
Proof.
  assert (Hcols : required_cols ⊆ columns plateau_table)
    by (by apply (bool_decide_unpack _)).
  assert (Hrows : rows (where_level 1 plateau_table) ≠ []) by (by vm_compute).
  destruct (zoom_process_flags_first_top_peak
              (Py.exec (ZoomViewerTab.set_data plateau_table) ZoomViewerTab.init)
              plateau_table eq_refl Hcols Hrows) as (d' & Hdf & _ & _).
  exists d'. split; [exact Hdf|].
  unfold zoom_ready in Hdf |- *.
  assert (E : ZoomViewerTab.df
                (Py.exec ZoomViewerTab.process_ms1_data
                   (Py.exec (ZoomViewerTab.set_data plateau_table)
                      ZoomViewerTab.init))
              = Some (flagged (renumbered (where_level 1 plateau_table))))
    by (by vm_compute).
  rewrite E in Hdf. injection Hdf as <-. by vm_compute.
Defined.
